(** * Third-party data export: paginated, partitioned GraphQL fetch with bounded retry

    A shallow embedding of
    [Python/ThirdPartyData/GetAllThirdPartyDataForPartnerGQL.py] and the
    properties of its partitioner, retry wrapper, multi-alias fetch loop and
    orchestrator.

    Conventions of the embedding.
    - Python [int] is [Z]; Python [str] and [bytes] are [string] (ASCII).
    - A JSON document is a [json] value; JSON numbers with a fraction or an
      exponent (Python floats) are outside the model.
    - A Python [dict] is an association list with pairwise distinct keys, in
      insertion order.
    - A call returns, raises, exhausts the fuel it was given (the [while]
      loop of the fetch is not bounded by the script), or leaves the
      fragment of Python that is modelled.
    - The server and the order in which a set is walked are parameters: the
      answer to the n-th POST of a run, and a rearrangement of the elements.
    - [print], [time.time] and [time.strftime] are not modelled; opening the
      output file and [requests.post] itself are taken not to raise. *)

From Stdlib Require Import ZArith String Ascii Bool Lia.
From Stdlib Require Import DecimalString Decimal DecimalNat.
From Stdlib Require Import List Permutation.
Import ListNotations.
Open Scope string_scope.
Open Scope list_scope.
Open Scope Z_scope.

(** ** Outcomes of a call *)

Inductive exn : Type :=
| ValueError (msg : string)
| Exception (msg : string)
| AttributeError
| KeyError (key : string)
| TypeError
| IndexError
| JSONDecodeError.

(** [OutOfFuel]: a loop used up its fuel.  [Unmodelled]: the input is
    outside the fragment of Python the embedding covers. *)
Inductive result (A : Type) : Type :=
| Return (a : A)
| Raise (e : exn)
| OutOfFuel
| Unmodelled.

Arguments Return {A} a.
Arguments Raise {A} e.
Arguments OutOfFuel {A}.
Arguments Unmodelled {A}.

Definition bind {A B : Type} (r : result A) (k : A -> result B) : result B :=
  match r with
  | Return a => k a
  | Raise e => Raise e
  | OutOfFuel => OutOfFuel
  | Unmodelled => Unmodelled
  end.

Notation "x <~ r ;; k" := (bind r (fun x => k))
  (at level 61, r at next level, right associativity).

(** ** Python built-ins used by the script *)

Module Py.

(** [range(start, stop, step)] for a positive [step]: the loop of the
    iterator, bounded by the distance still to cover. *)
Fixpoint range_fuel (fuel : nat) (i stop step : Z) : list Z :=
  match fuel with
  | O => []
  | S fuel' =>
      if i <? stop then i :: range_fuel fuel' (i + step) stop step else []
  end.

Definition range (start stop step : Z) : list Z :=
  range_fuel (Z.to_nat (stop - start)) start stop step.

(** Number of indices [range(i, n, size)] yields. *)
Definition range_count (n size i : Z) : nat :=
  Z.to_nat ((n - i + size - 1) / size).

(** Index normalisation of a slice bound (step 1): negative bounds count from
    the end, and every bound is clamped to [0 .. len]. *)
Definition clamp_index (len i : Z) : Z :=
  if i <? 0 then Z.max 0 (i + len) else Z.min i len.

(** [l[i:j]] *)
Definition slice {A : Type} (l : list A) (i j : Z) : list A :=
  let len := Z.of_nat (length l) in
  let lo := clamp_index len i in
  let hi := clamp_index len j in
  firstn (Z.to_nat (hi - lo)) (skipn (Z.to_nat lo) l).

(** [len(l)] *)
Definition len {A : Type} (l : list A) : Z := Z.of_nat (length l).

(** [l[i]]: a negative index counts from the end. *)
Definition index {A : Type} (l : list A) (i : Z) : result A :=
  let j := if i <? 0 then i + len l else i in
  if (0 <=? j) && (j <? len l) then
    match nth_error l (Z.to_nat j) with
    | Some x => Return x
    | None => Raise IndexError
    end
  else Raise IndexError.

End Py.

(** ** Strings and integers *)

Module PyStr.

Definition dquote : ascii := "034"%char.
Definition backslash : ascii := "092"%char.

(** [str(n)] for a natural number. *)
Definition of_nat (n : nat) : string := NilZero.string_of_uint (Nat.to_uint n).

(** [str(z)], also what an f-string prints for an [int]. *)
Definition of_Z (z : Z) : string :=
  match z with
  | Zneg p => "-" ++ of_nat (Pos.to_nat p)
  | _ => of_nat (Z.to_nat z)
  end.

(** [int(s)].  Only non-empty strings of decimal digits are modelled (Python
    also accepts a sign, surrounding blanks and underscores, and raises
    [ValueError] on the rest). *)
Definition to_int (s : string) : result Z :=
  match s with
  | EmptyString => Unmodelled
  | _ => match NilEmpty.uint_of_string s with
         | Some d => Return (Z.of_nat (Nat.of_uint d))
         | None => Unmodelled
         end
  end.

(** [s.split(sep)] for a one-character separator. *)
Fixpoint split (sep : ascii) (s : string) : list string :=
  match s with
  | EmptyString => [EmptyString]
  | String c s' =>
      if Ascii.eqb c sep then EmptyString :: split sep s'
      else match split sep s' with
           | [] => [String c EmptyString]
           | w :: ws => String c w :: ws
           end
  end.

(** [sep.join(parts)] *)
Fixpoint join (sep : string) (parts : list string) : string :=
  match parts with
  | [] => EmptyString
  | [x] => x
  | x :: rest => x ++ sep ++ join sep rest
  end.

End PyStr.

(** ** JSON values, as [json.loads] builds them and [json.dumps] prints them *)

#[local] Set Warnings "-register-all".

Inductive json : Type :=
| JNull
| JBool (b : bool)
| JInt (z : Z)
| JStr (s : string)
| JList (l : list json)
| JDict (d : list (string * json)).

(** A Python dictionary with string keys: distinct keys in insertion order. *)
Definition dict (V : Type) : Type := list (string * V).

Module Dict.

Section Ops.
Context {V : Type}.

(** [d.get(k)], [None] when the key is absent. *)
Fixpoint get (d : dict V) (k : string) : option V :=
  match d with
  | [] => None
  | (k', v) :: d' => if String.eqb k' k then Some v else get d' k
  end.

(** [d[k] = v]: an existing key keeps its position, a new one goes last. *)
Fixpoint set (d : dict V) (k : string) (v : V) : dict V :=
  match d with
  | [] => [(k, v)]
  | (k', v') :: d' =>
      if String.eqb k' k then (k', v) :: d' else (k', v') :: set d' k v
  end.

Definition keys (d : dict V) : list string := map fst d.
Definition values (d : dict V) : list V := map snd d.

(** [dict(pairs)]: later pairs overwrite earlier ones. *)
Definition of_pairs (pairs : list (string * V)) : dict V :=
  fold_left (fun d kv => set d (fst kv) (snd kv)) pairs [].

End Ops.

End Dict.

Module PyJson.

(** Truth value of an object, as [if x], [any(...)] and [not x] test it. *)
Definition truthy (j : json) : bool :=
  match j with
  | JNull => false
  | JBool b => b
  | JInt z => negb (z =? 0)
  | JStr s => negb (String.eqb s "")
  | JList l => match l with [] => false | _ => true end
  | JDict d => match d with [] => false | _ => true end
  end.

(** [x.get(key, default)]: only a [dict] has the method. *)
Definition get (x : json) (key : string) (default : json) : result json :=
  match x with
  | JDict d => Return (match Dict.get d key with
                       | Some v => v
                       | None => default
                       end)
  | _ => Raise AttributeError
  end.

(** [x[key]] with a string key. *)
Definition getitem (x : json) (key : string) : result json :=
  match x with
  | JDict d => match Dict.get d key with
               | Some v => Return v
               | None => Raise (KeyError key)
               end
  | _ => Raise TypeError
  end.

Definition chars (s : string) : list json :=
  map (fun c => JStr (String c EmptyString)) (list_ascii_of_string s).

(** The elements [for e in x] walks through: list elements, dictionary keys,
    the characters of a string; nothing else is iterable. *)
Definition iter (x : json) : result (list json) :=
  match x with
  | JList l => Return l
  | JDict d => Return (map JStr (Dict.keys d))
  | JStr s => Return (chars s)
  | _ => Raise TypeError
  end.

(** Whether [hash(x)] is defined: lists and dictionaries are unhashable. *)
Definition hashable (x : json) : bool :=
  match x with
  | JList _ | JDict _ => false
  | _ => true
  end.

(** [x == y] on hashable values; [True == 1] and [False == 0]. *)
Definition eqb (x y : json) : bool :=
  match x, y with
  | JNull, JNull => true
  | JBool a, JBool b => Bool.eqb a b
  | JBool a, JInt z | JInt z, JBool a => (if a then 1 else 0) =? z
  | JInt a, JInt b => a =? b
  | JStr a, JStr b => String.eqb a b
  | _, _ => false
  end.

(** [s.add(x)] on a set kept as the list of its elements in insertion
    order. *)
Definition set_add (s : list json) (x : json) : result (list json) :=
  if hashable x then
    Return (if existsb (eqb x) s then s else s ++ [x])
  else Raise TypeError.

End PyJson.

(** ** JSON text: [json.dumps] and [json.loads] *)

Module JsonText.

Import PyStr.

Definition hex_digit (n : nat) : ascii :=
  nth n (list_ascii_of_string "0123456789abcdef") "0"%char.

(** One character of a string, as [json.dumps] writes it
    ([ensure_ascii=True]): the quote, the backslash and everything outside
    the range from the space to the tilde are escaped. *)
Definition escape_char (c : ascii) : string :=
  let n := nat_of_ascii c in
  if Ascii.eqb c dquote then String backslash (String dquote EmptyString)
  else if Ascii.eqb c backslash then String backslash (String backslash EmptyString)
  else if Nat.eqb n 10 then String backslash "n"
  else if Nat.eqb n 13 then String backslash "r"
  else if Nat.eqb n 9 then String backslash "t"
  else if Nat.eqb n 8 then String backslash "b"
  else if Nat.eqb n 12 then String backslash "f"
  else if (Nat.ltb n 32 || Nat.leb 127 n)%bool then
    String backslash
      (String "u" (String "0" (String "0"
         (String (hex_digit (Nat.div n 16))
            (String (hex_digit (Nat.modulo n 16)) EmptyString)))))
  else String c EmptyString.

Fixpoint escape (s : string) : string :=
  match s with
  | EmptyString => EmptyString
  | String c s' => escape_char c ++ escape s'
  end.

Definition quote (s : string) : string :=
  String dquote (escape s ++ String dquote EmptyString).

(** [json.dumps(x)] with the default separators. *)
Fixpoint dumps (x : json) : string :=
  match x with
  | JNull => "null"
  | JBool true => "true"
  | JBool false => "false"
  | JInt z => of_Z z
  | JStr s => quote s
  | JList l => "[" ++ join ", " (map dumps l) ++ "]"
  | JDict d =>
      "{" ++ join ", " (map (fun kv => (quote (fst kv) ++ ": " ++ dumps (snd kv))%string) d)
          ++ "}"
  end.

(** *** The decoder *)

Definition text : Type := list ascii.

Definition is_ws (c : ascii) : bool :=
  let n := nat_of_ascii c in
  (Nat.eqb n 32 || Nat.eqb n 9 || Nat.eqb n 10 || Nat.eqb n 13)%bool.

Fixpoint skip_ws (s : text) : text :=
  match s with
  | c :: s' => if is_ws c then skip_ws s' else s
  | [] => []
  end.

Definition is_digit (c : ascii) : bool :=
  let n := nat_of_ascii c in (Nat.leb 48 n && Nat.leb n 57)%bool.

Definition digit_value (c : ascii) : Z := Z.of_nat (nat_of_ascii c) - 48.

(** The longest run of digits at the head of [s], read as a number on top of
    [acc], and what follows it. *)
Fixpoint scan_digits (acc : Z) (s : text) : Z * text :=
  match s with
  | c :: s' =>
      if is_digit c then scan_digits (10 * acc + digit_value c) s' else (acc, s)
  | [] => (acc, [])
  end.

Definition starts_with_digit (s : text) : bool :=
  match s with
  | c :: _ => is_digit c
  | [] => false
  end.

(** [s] minus the prefix [p], if it starts with it. *)
Fixpoint strip_prefix (p s : text) : option text :=
  match p, s with
  | [], _ => Some s
  | a :: p', b :: s' => if Ascii.eqb a b then strip_prefix p' s' else None
  | _ :: _, [] => None
  end.

(** Whether a fraction or an exponent follows the integer part: then the
    literal is a float. *)
Definition float_suffix (s : text) : bool :=
  match s with
  | c :: s' =>
      if Ascii.eqb c "." then starts_with_digit s'
      else if (Ascii.eqb c "e" || Ascii.eqb c "E")%bool then
        match s' with
        | d :: s'' =>
            if (Ascii.eqb d "+" || Ascii.eqb d "-")%bool
            then starts_with_digit s'' else is_digit d
        | [] => false
        end
      else false
  | [] => false
  end.

(** The integer part [0|[1-9][0-9]*] of a number. *)
Definition scan_int_part (s : text) : option (Z * text) :=
  match s with
  | c :: s' =>
      if Ascii.eqb c "0" then Some (0, s')
      else if is_digit c then Some (scan_digits 0 s)
      else None
  | [] => None
  end.

Definition scan_number (s : text) : result (json * text) :=
  let '(negative, body) :=
    match s with
    | c :: s' => if Ascii.eqb c "-" then (true, s') else (false, s)
    | [] => (false, s)
    end in
  match scan_int_part body with
  | Some (z, rest) =>
      if float_suffix rest then Unmodelled
      else Return (JInt (if negative then - z else z), rest)
  | None =>
      match strip_prefix (list_ascii_of_string "NaN") s,
            strip_prefix (list_ascii_of_string "Infinity") s,
            strip_prefix (list_ascii_of_string "-Infinity") s with
      | None, None, None => Raise JSONDecodeError
      | _, _, _ => Unmodelled
      end
  end.

Definition hex_value (c : ascii) : option nat :=
  let n := nat_of_ascii c in
  if is_digit c then Some (n - 48)%nat
  else if (Nat.leb 97 n && Nat.leb n 102)%bool then Some (n - 87)%nat
  else if (Nat.leb 65 n && Nat.leb n 70)%bool then Some (n - 55)%nat
  else None.

Definition unescape (c : ascii) : option ascii :=
  if Ascii.eqb c dquote then Some dquote
  else if Ascii.eqb c backslash then Some backslash
  else if Ascii.eqb c "/" then Some "/"%char
  else if Ascii.eqb c "b" then Some (ascii_of_nat 8)
  else if Ascii.eqb c "f" then Some (ascii_of_nat 12)
  else if Ascii.eqb c "n" then Some (ascii_of_nat 10)
  else if Ascii.eqb c "r" then Some (ascii_of_nat 13)
  else if Ascii.eqb c "t" then Some (ascii_of_nat 9)
  else None.

Definition cons_char (c : ascii) (r : result (string * text))
  : result (string * text) :=
  p <~ r ;; Return (String c (fst p), snd p).

(** The characters of a string literal after its opening quote, up to the
    closing one (strict mode: no raw control character). *)
Fixpoint scan_string (s : text) : result (string * text) :=
  match s with
  | [] => Raise JSONDecodeError
  | c :: s' =>
      if Ascii.eqb c dquote then Return (EmptyString, s')
      else if Ascii.eqb c backslash then
        match s' with
        | [] => Raise JSONDecodeError
        | e :: s'' =>
            if Ascii.eqb e "u" then
              match s'' with
              | h1 :: h2 :: h3 :: h4 :: s''' =>
                  match hex_value h1, hex_value h2, hex_value h3, hex_value h4 with
                  | Some a, Some b, Some c', Some d =>
                      let code := (((a * 16 + b) * 16 + c') * 16 + d)%nat in
                      if Nat.ltb code 128
                      then cons_char (ascii_of_nat code) (scan_string s''')
                      else Unmodelled
                  | _, _, _, _ => Raise JSONDecodeError
                  end
              | _ => Raise JSONDecodeError
              end
            else
              match unescape e with
              | Some ch => cons_char ch (scan_string s'')
              | None => Raise JSONDecodeError
              end
        end
      else if Nat.ltb (nat_of_ascii c) 32 then Raise JSONDecodeError
      else cons_char c (scan_string s')
  end.

Section Containers.

(** The decoder of one value, which arrays and objects call back. *)
Variable scan_once : text -> result (json * text).

(** The elements of an array after its first value position. *)
Fixpoint array_items (fuel : nat) (s : text) (acc : list json)
  : result (json * text) :=
  match fuel with
  | O => OutOfFuel
  | S fuel' =>
      p <~ scan_once s ;;
      let acc' := acc ++ [fst p] in
      match skip_ws (snd p) with
      | c :: rest =>
          if Ascii.eqb c "]" then Return (JList acc', rest)
          else if Ascii.eqb c "," then array_items fuel' (skip_ws rest) acc'
          else Raise JSONDecodeError
      | [] => Raise JSONDecodeError
      end
  end.

Definition scan_array (fuel : nat) (s : text) : result (json * text) :=
  match skip_ws s with
  | c :: rest =>
      if Ascii.eqb c "]" then Return (JList [], rest)
      else array_items fuel (skip_ws s) []
  | [] => array_items fuel [] []
  end.

(** The members of an object; [s] starts at the opening quote of a key. *)
Fixpoint object_items (fuel : nat) (s : text) (acc : list (string * json))
  : result (json * text) :=
  match fuel with
  | O => OutOfFuel
  | S fuel' =>
      match s with
      | q :: s1 =>
          if Ascii.eqb q dquote then
            k <~ scan_string s1 ;;
            match skip_ws (snd k) with
            | colon :: s2 =>
                if Ascii.eqb colon ":" then
                  v <~ scan_once (skip_ws s2) ;;
                  let acc' := acc ++ [(fst k, fst v)] in
                  match skip_ws (snd v) with
                  | c :: rest =>
                      if Ascii.eqb c "}"
                      then Return (JDict (Dict.of_pairs acc'), rest)
                      else if Ascii.eqb c ","
                      then object_items fuel' (skip_ws rest) acc'
                      else Raise JSONDecodeError
                  | [] => Raise JSONDecodeError
                  end
                else Raise JSONDecodeError
            | [] => Raise JSONDecodeError
            end
          else Raise JSONDecodeError
      | [] => Raise JSONDecodeError
      end
  end.

Definition scan_object (fuel : nat) (s : text) : result (json * text) :=
  match skip_ws s with
  | c :: rest =>
      if Ascii.eqb c "}" then Return (JDict [], rest)
      else object_items fuel (skip_ws s) []
  | [] => Raise JSONDecodeError
  end.

End Containers.

(** The decoder of one value at the head of [s]. *)
Fixpoint scan_once (fuel : nat) (s : text) : result (json * text) :=
  match fuel with
  | O => OutOfFuel
  | S fuel' =>
      match s with
      | [] => Raise JSONDecodeError
      | c :: s' =>
          if Ascii.eqb c dquote then
            p <~ scan_string s' ;; Return (JStr (fst p), snd p)
          else if Ascii.eqb c "{" then scan_object (scan_once fuel') fuel' s'
          else if Ascii.eqb c "[" then scan_array (scan_once fuel') fuel' s'
          else
            match strip_prefix (list_ascii_of_string "null") s,
                  strip_prefix (list_ascii_of_string "true") s,
                  strip_prefix (list_ascii_of_string "false") s with
            | Some rest, _, _ => Return (JNull, rest)
            | _, Some rest, _ => Return (JBool true, rest)
            | _, _, Some rest => Return (JBool false, rest)
            | None, None, None => scan_number s
            end
      end
  end.

(** Bodies with a NUL or a non-ASCII byte are outside the model (they select
    another text encoding, or need UTF-8 decoding). *)
Definition modelled_byte (c : ascii) : bool :=
  let n := nat_of_ascii c in (Nat.ltb 0 n && Nat.ltb n 128)%bool.

(** [json.loads(content)] *)
Definition loads (content : string) : result json :=
  let s := list_ascii_of_string content in
  if forallb modelled_byte s then
    p <~ scan_once (S (length s)) (skip_ws s) ;;
    match skip_ws (snd p) with
    | [] => Return (fst p)
    | _ :: _ => Raise JSONDecodeError
    end
  else Unmodelled.

End JsonText.

(** ** Partitioner *)

(** [partition_list(strings, partition_size)] *)
Definition partition_list {A : Type} (strings : list A) (partition_size : Z)
  : result (list (list A)) :=
  if partition_size <=? 0 then
    Raise (ValueError "Partition size must be greater than 0.")
  else
    Return (map (fun i => Py.slice strings i (i + partition_size))
                (Py.range 0 (Py.len strings) partition_size)).

(** ** The script *)

Module Script.

Import PyStr.

Definition nl : string := String (ascii_of_nat 10) EmptyString.

(** A text given line by line. *)
Definition lines (l : list string) : string := join nl l.

(** *** Constants and the variables the user defines *)

Definition EXTERNAL_SB_GQL_URL : string :=
  "https://ext-desk.sb.thetradedesk.com/graphql".
Definition PROD_GQL_URL : string := "https://desk.thetradedesk.com/graphql".

Record config : Type := {
  gql_url : string;
  token : string;
  partner_id : string;
  partition_total_call_size : Z;
  partition_gql_alias_query_size : Z;
  third_party_data_count : Z;
  max_retries : Z
}.

(** The values the script ships with. *)
Definition shipped : config := {|
  gql_url := EXTERNAL_SB_GQL_URL;
  token := "REPLACE_WITH_API_TOKEN";
  partner_id := "REPLACE_WITH_PARTNER_ID";
  partition_total_call_size := 30;
  partition_gql_alias_query_size := 10;
  third_party_data_count := 1000;
  max_retries := 3
|}.

(** *** The network and the process state *)

(** What [requests.post(url=..., json=..., headers=...)] sends. *)
Record request : Type := {
  url : string;
  auth : string;
  query : string;
  variables : json
}.

(** What the script reads of the HTTP response. *)
Record response : Type := {
  ok : bool;
  content : string
}.

(** The server: its answer to the [n]-th POST of the run (from 0), given
    the request. *)
Definition network : Type := nat -> request -> response.

(** Represents a response from the GQL server. *)
Record GqlResponse : Type := {
  data : json;
  errors : json
}.

(** The mutable state of a run: the requests sent so far (oldest first), the
    module-level [total_third_party_data_list], and the content of
    [third_party_data.json] once written. *)
Record world : Type := {
  posts : list request;
  total_third_party_data_list : list json;
  third_party_data_json : option (list json)
}.

Definition start : world := {|
  posts := [];
  total_third_party_data_list := [];
  third_party_data_json := None
|}.

(** A statement: from a state to an outcome and the state it leaves. *)
Definition M (A : Type) : Type := world -> result A * world.

Definition ret {A : Type} (a : A) : M A := fun w => (Return a, w).

Definition lift {A : Type} (r : result A) : M A := fun w => (r, w).

Definition raise {A : Type} (e : exn) : M A := lift (Raise e).

Definition mbind {A B : Type} (c : M A) (k : A -> M B) : M B :=
  fun w =>
    match c w with
    | (Return a, w') => k a w'
    | (Raise e, w') => (Raise e, w')
    | (OutOfFuel, w') => (OutOfFuel, w')
    | (Unmodelled, w') => (Unmodelled, w')
    end.

Notation "x <- c ;; k" := (mbind c (fun x => k))
  (at level 61, c at next level, right associativity).

(** [for x in l: body] *)
Fixpoint for_each {A : Type} (l : list A) (body : A -> M unit) : M unit :=
  match l with
  | [] => ret tt
  | x :: rest => _ <- body x ;; for_each rest body
  end.

(** The pagination state of one multi-alias fetch. *)
Record fetch_state : Type := {
  third_party_data_list : list json;
  alias_has_more_map : dict json;
  alias_cursor_map : dict json
}.

(** What [get_user_third_party_data_providers] returns. *)
Record provider_data : Type := {
  providerIds : list json
}.

(** *** Query texts *)

Definition providers_query : string :=
  lines
    [ "";
      "    query GetThirdPartyDataProviders($partnerId: ID!) {";
      "        partner(id: $partnerId) {";
      "            thirdPartyDataProviders {";
      "                nodes {";
      "                    id";
      "                }";
      "            }";
      "        }";
      "    }" ].

Definition query_header : string :=
  lines
    [ "";
      "        query GetPartnerThirdPartyData($partnerId: ID!, $thirdPartyDataCount: Int) {";
      "          partner(id: $partnerId) {";
      "        " ].

Definition subquery_indent : string :=
  lines
    [ "     " ].

Definition subquery_after_alias : string :=
  lines
    [ ": thirdPartyData(";
      "                first: $thirdPartyDataCount,";
      "                after: " ].

Definition subquery_after_cursor : string :=
  lines
    [ ",";
      "                where: {";
      "                    provider: { id: { in: " ].

Definition subquery_after_filter : string :=
  lines
    [ " } }";
      "                }";
      "            ) {";
      "                nodes {";
      "                    id";
      "                    name";
      "                    providerId";
      "                    providerElementId";
      "                    description";
      "                    allowCustomFullPath";
      "                    buyable";
      "                    dataAllianceExcluded";
      "                    defaultSortScore";
      "                    fullPath";
      "                    hierarchyString";
      "                    activeUniques {";
      "                        idsCount";
      "                        householdCount";
      "                        idsConnectedTvCount";
      "                        idsInAppCount";
      "                        idsWebCount";
      "                        personsCount";
      "                        thirdPartyDataOverlapCount";
      "                        lastUpdated";
      "                    }";
      "                }";
      "                pageInfo {";
      "                    hasNextPage";
      "                    endCursor";
      "                }";
      "            }";
      "" ].

Definition query_footer : string :=
  lines
    [ "  }";
      "}" ].

(** The aliased sub-query the f-string of the loop renders. *)
Definition alias_subquery (alias after_cursor provider_id_filter : string)
  : string :=
  subquery_indent ++ alias ++ subquery_after_alias ++ after_cursor
    ++ subquery_after_cursor ++ provider_id_filter ++ subquery_after_filter.

(** [f"mygroup_{idx + 1}_alias"] *)
Definition alias_label (idx : nat) : string :=
  "mygroup_" ++ of_Z (Z.of_nat idx + 1) ++ "_alias".

(** [[alias for alias, has_more in alias_has_more_map.items() if has_more]] *)
Definition active_aliases (alias_has_more_map : dict json) : list string :=
  map fst (filter (fun item => PyJson.truthy (snd item)) alias_has_more_map).

(** [any(alias_has_more_map.values())] *)
Definition any_has_more (alias_has_more_map : dict json) : bool :=
  existsb PyJson.truthy (Dict.values alias_has_more_map).

(** The loop that appends one aliased sub-query per active alias. *)
Fixpoint append_subqueries (partitioned_provider_list : list (list json))
    (alias_cursor_map : dict json) (active : list string) (query : string)
  : result string :=
  match active with
  | [] => Return query
  | alias :: rest =>
      number <~ Py.index (split "_" alias) 1 ;;
      parsed <~ to_int number ;;
      let group_index := parsed - 1 in
      provider_group <~ Py.index partitioned_provider_list group_index ;;
      let provider_id_filter := JsonText.dumps (JList provider_group) in
      cursor <~ match Dict.get alias_cursor_map alias with
                | Some c => Return c
                | None => Raise (KeyError alias)
                end ;;
      let after_cursor := JsonText.dumps cursor in
      append_subqueries partitioned_provider_list alias_cursor_map rest
        (query ++ alias_subquery alias after_cursor provider_id_filter)%string
  end.

(** The combined query of one round. *)
Definition combined_query (partitioned_provider_list : list (list json))
    (alias_cursor_map : dict json) (active : list string) : result string :=
  body <~ append_subqueries partitioned_provider_list alias_cursor_map active
            query_header ;;
  Return (body ++ query_footer)%string.

(** What one iteration reads of the response for its alias: the nodes it
    will append, and the page info. *)
Record page : Type := {
  page_nodes : list json;
  has_next_page : json;
  end_cursor : json
}.

Definition read_page (partner_data : json) (alias : string) : result page :=
  alias_data <~ PyJson.get partner_data alias (JDict []) ;;
  nodes <~ PyJson.get alias_data "nodes" (JList []) ;;
  page_info <~ PyJson.get alias_data "pageInfo" (JDict []) ;;
  has_next_page <~ PyJson.get page_info "hasNextPage" (JBool false) ;;
  end_cursor <~ PyJson.get page_info "endCursor" JNull ;;
  items <~ PyJson.iter nodes ;;
  Return {| page_nodes := items;
            has_next_page := has_next_page;
            end_cursor := end_cursor |}.

(** The loop that processes each alias's data from the response. *)
Fixpoint process_aliases (partner_data : json) (active : list string)
    (st : fetch_state) : result fetch_state :=
  match active with
  | [] => Return st
  | alias :: rest =>
      page <~ read_page partner_data alias ;;
      process_aliases partner_data rest
        {| third_party_data_list :=
             third_party_data_list st ++ page_nodes page;
           alias_has_more_map :=
             Dict.set (alias_has_more_map st) alias (has_next_page page);
           alias_cursor_map :=
             Dict.set (alias_cursor_map st) alias (end_cursor page) |}
  end.

(** The state before the first round. *)
Definition initial_state (partitioned_provider_list : list (list json))
  : fetch_state :=
  let alias_has_more_map :=
    Dict.of_pairs (map (fun idx => (alias_label idx, JBool true))
                       (seq 0 (length partitioned_provider_list))) in
  {| third_party_data_list := [];
     alias_has_more_map := alias_has_more_map;
     alias_cursor_map :=
       Dict.of_pairs (map (fun alias => (alias, JNull))
                          (Dict.keys alias_has_more_map)) |}.

(** The set comprehension
    [{node["id"] for node in nodes if node.get("id")}], as the list of its
    elements in insertion order. *)
Fixpoint provider_id_set (nodes : list json) (acc : list json)
  : result (list json) :=
  match nodes with
  | [] => Return acc
  | node :: rest =>
      found <~ PyJson.get node "id" JNull ;;
      if PyJson.truthy found then
        id <~ PyJson.getitem node "id" ;;
        acc' <~ PyJson.set_add acc id ;;
        provider_id_set rest acc'
      else provider_id_set rest acc
  end.

(** What [execute_gql_request] does with the response once it has it: parse
    the body if there is one, pick the data and the errors, and return them
    with the status flag. *)
Definition read_response (response : response) : result (bool * GqlResponse) :=
  content <~ (if 0 <? Z.of_nat (String.length (content response))
              then JsonText.loads (content response)
              else Return (JDict [])) ;;
  resp_data <~ PyJson.get content "data" (JDict []) ;;
  errors <~ PyJson.get content "errors" (JList []) ;;
  Return (ok response, {| data := resp_data; errors := errors |}).

Section Run.

Variable cfg : config.
Variable net : network.

(** The order in which [list(s)] walks through a set [s], given its elements
    in insertion order: it depends on the hashes, not on the script. *)
Variable set_order : list json -> list json.

(** [requests.post]: the request is recorded and answered. *)
Definition post (req : request) : M response :=
  fun w =>
    (Return (net (length (posts w)) req),
     {| posts := posts w ++ [req];
        total_third_party_data_list := total_third_party_data_list w;
        third_party_data_json := third_party_data_json w |}).

(** Executes a GQL request to the specified gql_url, using the provided body
    definition and associated variables. *)
Definition execute_gql_request (body : string) (variables : json)
  : M (bool * GqlResponse) :=
  let headers := token cfg in
  response <- post {| url := gql_url cfg; auth := headers;
                      query := body; variables := variables |} ;;
  lift (read_response response).

Definition retries_exhausted (partner_id : string) (max_retries : Z) : exn :=
  Exception ("Failed to fetch data for partner " ++ partner_id ++ " after "
             ++ of_Z max_retries ++ " retries.").

Definition unexpected_error (partner_id : string) : exn :=
  Exception ("Unexpected error occurred for partner " ++ partner_id ++ ".").

(** The [while try_count <= max_retries] loop of [execute_with_retries]. *)
Fixpoint retry_loop (fuel : nat) (query : string) (variables : json)
    (partner_id : string) (max_retries : Z) (try_count : Z) : M json :=
  match fuel with
  | O => lift OutOfFuel
  | S fuel' =>
      if try_count <=? max_retries then
        attempt <- execute_gql_request query variables ;;
        let '(request_success, response) := attempt in
        found <- (if request_success then
                    match PyJson.get (data response) "partner" (JDict []) with
                    | Return partner_data => ret (Some partner_data)
                    | Raise AttributeError => ret None
                    | other => lift (_ <~ other ;; Return None)
                    end
                  else ret None) ;;
        match found with
        | Some partner_data => ret partner_data
        | None =>
            let try_count := try_count + 1 in
            if try_count >? max_retries then
              raise (retries_exhausted partner_id max_retries)
            else
              retry_loop fuel' query variables partner_id max_retries try_count
        end
      else raise (unexpected_error partner_id)
  end.

(** Executes a GraphQL query with retry logic for fetching partner data. *)
Definition execute_with_retries (query : string) (variables : json)
    (partner_id : string) (max_retries : Z) : M json :=
  retry_loop (S (Z.to_nat (max_retries + 1))) query variables partner_id
    max_retries 0.

(** Retrieves all third party data providers a user has access to. *)
Definition get_user_third_party_data_providers : M provider_data :=
  let variables := JDict [("partnerId", JStr (partner_id cfg))] in
  attempt <- execute_gql_request providers_query variables ;;
  let '(request_success, response) := attempt in
  if negb request_success then raise (Exception "Failed to fetch providers.")
  else
    partner <- lift (PyJson.getitem (data response) "partner") ;;
    providers <- lift (PyJson.getitem partner "thirdPartyDataProviders") ;;
    nodes <- lift (PyJson.getitem providers "nodes") ;;
    node_list <- lift (PyJson.iter nodes) ;;
    provider_ids <- lift (provider_id_set node_list []) ;;
    ret {| providerIds := set_order provider_ids |}.

(** One round of the fetch loop, for a state in which some alias has more. *)
Definition fetch_round (partner_id : string) (third_party_data_count : Z)
    (partitioned_provider_list : list (list json)) (st : fetch_state)
  : M fetch_state :=
  let active := active_aliases (alias_has_more_map st) in
  query <- lift (combined_query partitioned_provider_list
                   (alias_cursor_map st) active) ;;
  let variables :=
    JDict [("partnerId", JStr partner_id);
           ("thirdPartyDataCount", JInt third_party_data_count)] in
  partner_data <- execute_with_retries query variables partner_id
                    (max_retries cfg) ;;
  lift (process_aliases partner_data active st).

(** The [while any(alias_has_more_map.values())] loop. *)
Fixpoint fetch_loop (fuel : nat) (partner_id : string)
    (third_party_data_count : Z)
    (partitioned_provider_list : list (list json)) (st : fetch_state)
  : M fetch_state :=
  match fuel with
  | O => lift OutOfFuel
  | S fuel' =>
      if any_has_more (alias_has_more_map st) then
        match active_aliases (alias_has_more_map st) with
        | [] => ret st
        | _ :: _ =>
            st' <- fetch_round partner_id third_party_data_count
                     partitioned_provider_list st ;;
            fetch_loop fuel' partner_id third_party_data_count
              partitioned_provider_list st'
        end
      else ret st
  end.

(** [total_third_party_data_list.extend(l)] *)
Definition extend_total (l : list json) : M unit :=
  fun w =>
    (Return tt,
     {| posts := posts w;
        total_third_party_data_list := total_third_party_data_list w ++ l;
        third_party_data_json := third_party_data_json w |}).

(** Fetch all third-party data for a partner, dynamically handling pagination
    for multiple provider groups. *)
Definition get_partner_third_party_data (fuel : nat) (partner_id : string)
    (third_party_data_count : Z)
    (partitioned_provider_list : list (list json)) : M unit :=
  st <- fetch_loop fuel partner_id third_party_data_count
          partitioned_provider_list
          (initial_state partitioned_provider_list) ;;
  extend_total (third_party_data_list st).

(** [json.dump(total_third_party_data_list, file)] into
    [third_party_data.json]. *)
Definition write_output : M unit :=
  fun w =>
    (Return tt,
     {| posts := posts w;
        total_third_party_data_list := total_third_party_data_list w;
        third_party_data_json := Some (total_third_party_data_list w) |}).

(** The body of the loop over the outer chunks. *)
Definition fetch_chunk (fuel : nat) (call_list : list json) : M unit :=
  partitioned_provider_list <-
    lift (partition_list call_list (partition_gql_alias_query_size cfg)) ;;
  get_partner_third_party_data fuel (partner_id cfg)
    (third_party_data_count cfg) partitioned_provider_list.

Definition query_partner_third_party_data (fuel : nat) : M unit :=
  partner_provider_data <- get_user_third_party_data_providers ;;
  let provider_list := providerIds partner_provider_data in
  partitioned_calls_list <-
    lift (partition_list provider_list (partition_total_call_size cfg)) ;;
  _ <- for_each partitioned_calls_list (fetch_chunk fuel) ;;
  write_output.

End Run.

End Script.

(** ** The advertiser first-party script

    [Python/FirstPartyData/GetAdvertiserFirstPartyDataGQL.py]: one
    advertiser, one cursor, no retry.  Its [execute_gql_request] is the same
    function as the third-party script's. *)

Module Advertiser.

Import PyStr.

Record config : Type := {
  gql_url : string;
  token : string;
  advertiser_id : string;
  count : Z;
  name_filter : string
}.

(** The values the script ships with. *)
Definition shipped : config := {|
  gql_url := Script.EXTERNAL_SB_GQL_URL;
  token := "TOKEN_PLACEHOLDER";
  advertiser_id := "ADVERTISER_ID_PLACEHOLDER";
  count := 1000;
  name_filter := "NAME_PLACEHOLDER"
|}.

(** The state of a run: the requests sent so far (oldest first) and the
    content of [output.txt] once written. *)
Record state : Type := {
  requests : list Script.request;
  output_txt : option (list json)
}.

Definition start : state := {| requests := []; output_txt := None |}.

Definition M (A : Type) : Type := state -> result A * state.

Definition ret {A : Type} (a : A) : M A := fun s => (Return a, s).

Definition lift {A : Type} (r : result A) : M A := fun s => (r, s).

Definition raise {A : Type} (e : exn) : M A := lift (Raise e).

Definition mbind {A B : Type} (c : M A) (k : A -> M B) : M B :=
  fun s =>
    match c s with
    | (Return a, s') => k a s'
    | (Raise e, s') => (Raise e, s')
    | (OutOfFuel, s') => (OutOfFuel, s')
    | (Unmodelled, s') => (Unmodelled, s')
    end.

#[local] Notation "x <- c ;; k" := (mbind c (fun x => k))
  (at level 61, c at next level, right associativity).

Definition query_before_after : string :=
  Script.lines
    [ "";
      "  query GetFirstPartyData($advertiserId: ID!, $count: Int, $nameFilter: String) {";
      "    advertiser(id: $advertiserId) {";
      "      firstPartyData(" ].

Definition query_after_after : string :=
  Script.lines
    [ " first: $count, where:{name:{contains:$nameFilter}}){";
      "        nodes{";
      "            name";
      "            id";
      "            activeUniques{";
      "             householdCount";
      "             idsConnectedTvCount";
      "             idsCount";
      "             idsInAppCount";
      "             idsWebCount";
      "             personsCount";
      "            }";
      "        }";
      "        pageInfo{";
      "            hasNextPage";
      "            endCursor";
      "        }";
      "        }";
      "    }";
      "  }" ].

(** What [{cursor}] prints inside the f-string: [str(cursor)].  The texts of
    lists and mappings are not modelled. *)
Definition format_value (x : json) : result string :=
  match x with
  | JStr s => Return s
  | JInt z => Return (of_Z z)
  | JBool true => Return "True"
  | JBool false => Return "False"
  | JNull => Return "None"
  | _ => Unmodelled
  end.

(** [f'after: "{cursor}",' if cursor else ''] *)
Definition after_clause (cursor : json) : result string :=
  if PyJson.truthy cursor then
    text <~ format_value cursor ;;
    Return ("after: " ++ String dquote (text ++ String dquote ","))%string
  else Return EmptyString.

(** The query of a page after [cursor]. *)
Definition page_query (cursor : json) : result string :=
  clause <~ after_clause cursor ;;
  Return (query_before_after ++ clause ++ query_after_after)%string.

(** [x[k1][k2]...] *)
Fixpoint path (x : json) (keys : list string) : result json :=
  match keys with
  | [] => Return x
  | k :: rest => y <~ PyJson.getitem x k ;; path y rest
  end.

Section Run.

Variable cfg : config.
Variable net : Script.network.

Definition post (req : Script.request) : M Script.response :=
  fun s =>
    (Return (net (length (requests s)) req),
     {| requests := requests s ++ [req]; output_txt := output_txt s |}).

(** Executes a GQL request to the specified gql_url, using the provided body
    definition and associated variables. *)
Definition execute_gql_request (body : string) (variables : json)
  : M (bool * Script.GqlResponse) :=
  let headers := token cfg in
  response <- post {| Script.url := gql_url cfg; Script.auth := headers;
                      Script.query := body;
                      Script.variables := variables |} ;;
  lift (Script.read_response response).

(** A GQL query to retrieve advertiser's first party data based off an
    offset. *)
Definition get_advertiser_first_party_data (cursor : json) : M json :=
  query <- lift (page_query cursor) ;;
  let variables :=
    JDict [("advertiserId", JStr (advertiser_id cfg));
           ("count", JInt (count cfg));
           ("nameFilter", JStr (name_filter cfg))] in
  attempt <- execute_gql_request query variables ;;
  let '(request_success, response) := attempt in
  if negb request_success then raise (Exception "Failed to fetch advertisers.")
  else ret (Script.data response).

(** The [while has_next] loop of [query_advertiser]. *)
Fixpoint pages_loop (fuel : nat) (has_next cursor : json)
    (first_party_data : list json) : M (list json) :=
  match fuel with
  | O => lift OutOfFuel
  | S fuel' =>
      if PyJson.truthy has_next then
        advertiser_data <- get_advertiser_first_party_data cursor ;;
        nodes <- lift (path advertiser_data
                         ["advertiser"; "firstPartyData"; "nodes"]) ;;
        items <- lift (PyJson.iter nodes) ;;
        has_next' <- lift (path advertiser_data
                             ["advertiser"; "firstPartyData"; "pageInfo";
                              "hasNextPage"]) ;;
        cursor' <- lift (path advertiser_data
                           ["advertiser"; "firstPartyData"; "pageInfo";
                            "endCursor"]) ;;
        pages_loop fuel' has_next' cursor' (first_party_data ++ items)
      else ret first_party_data
  end.

(** [json.dump(first_party_data, file, indent=4)] into [output.txt]. *)
Definition write_output (first_party_data : list json) : M unit :=
  fun s =>
    (Return tt,
     {| requests := requests s; output_txt := Some first_party_data |}).

(** Queries a given advertiser's first party data by advertiserId and
    prints the result. *)
Definition query_advertiser (fuel : nat) : M unit :=
  first_party_data <- pages_loop fuel (JBool true) JNull [] ;;
  write_output first_party_data.

End Run.

(** *** Vocabulary *)

(** The request for the page after [cursor], when its text is [query]. *)
Definition page_request (cfg : config) (query : string) : Script.request :=
  {| Script.url := gql_url cfg; Script.auth := token cfg;
     Script.query := query;
     Script.variables :=
       JDict [("advertiserId", JStr (advertiser_id cfg));
              ("count", JInt (count cfg));
              ("nameFilter", JStr (name_filter cfg))] |}.

(** The data of an answer carrying one page. *)
Definition page_data (nodes : list json) (has_next cursor : json) : json :=
  JDict [("advertiser",
          JDict [("firstPartyData",
                  JDict [("nodes", JList nodes);
                         ("pageInfo",
                          JDict [("hasNextPage", has_next);
                                 ("endCursor", cursor)])])])].

(** The cursor the request of page [r] resumes after: none for the first
    page, the end cursor of the page before for the others. *)
Definition cursor_before (cursors : list string) (r : nat) : json :=
  match r with
  | O => JNull
  | S r' => JStr (nth r' cursors EmptyString)
  end.

(** A server that serves [pages] with the end cursors [cursors], as the
    first of [total] pages: the answer to the post numbered [base + r] is ok
    and carries page [r], its end cursor, and a hasNextPage that is true
    exactly when page [r] is not the last of the [total]. *)
Definition serves (net : Script.network) (base : nat)
    (pages : list (list json)) (cursors : list string) (total : nat) : Prop :=
  forall r req, (r < length pages)%nat ->
    exists errors,
      Script.read_response (net (base + r)%nat req)
      = Return (true,
                {| Script.data :=
                     page_data (nth r pages [])
                       (JBool (Nat.ltb (S r) total))
                       (JStr (nth r cursors EmptyString));
                   Script.errors := errors |}).

(** The state after the requests [l] were sent. *)
Definition after_requests (l : list Script.request) (s : state) : state :=
  {| requests := requests s ++ l; output_txt := output_txt s |}.

(** The requests of pages [from .. from + n - 1]. *)
Definition page_requests (cfg : config) (cursors : list string)
    (from n : nat) : list Script.request :=
  map (fun r => page_request cfg
                  (match page_query (cursor_before cursors r) with
                   | Return q => q
                   | _ => EmptyString
                   end))
      (seq from n).

(** The text of the first request: no after clause. *)
Definition first_page_text : string :=
  (query_before_after ++ query_after_after)%string.

(** The text of a request that resumes after the end cursor [c]. *)
Definition next_page_text (c : string) : string :=
  (query_before_after
   ++ ("after: " ++ String dquote (c ++ String dquote ","))
   ++ query_after_after)%string.

(** The requests for [n] pages in order, page [r] coming with the end cursor
    [nth r cursors]: the first request has no after clause, and the request
    of every other page resumes after the end cursor of the page before. *)
Definition requests_in_order (cfg : config) (cursors : list string) (n : nat)
  : list Script.request :=
  match n with
  | O => []
  | S k =>
      page_request cfg first_page_text
      :: map (fun r => page_request cfg
                         (next_page_text (nth r cursors EmptyString)))
           (seq 0 k)
  end.

(** A server for two pages. *)
Definition two_pages : Script.network :=
  fun i _ =>
    match i with
    | O => {| Script.ok := true;
              Script.content :=
                JsonText.dumps
                  (JDict [("data", page_data [JInt 1; JInt 2] (JBool true)
                                     (JStr "c1"))]) |}
    | _ => {| Script.ok := true;
              Script.content :=
                JsonText.dumps
                  (JDict [("data", page_data [JInt 3] (JBool false)
                                     (JStr "c2"))]) |}
    end.

(** A server whose first page announces another one, and that fails from
    then on. *)
Definition fails_after_first : Script.network :=
  fun i _ =>
    match i with
    | O => {| Script.ok := true;
              Script.content :=
                JsonText.dumps
                  (JDict [("data", page_data [JInt 1; JInt 2] (JBool true)
                                     (JStr "c1"))]) |}
    | _ => {| Script.ok := false; Script.content := EmptyString |}
    end.

(** A server that always serves the same page, announcing another one
    without giving a cursor. *)
Definition no_cursor_forever : Script.network :=
  fun _ _ =>
    {| Script.ok := true;
       Script.content :=
         JsonText.dumps
           (JDict [("data", page_data [JInt 1] (JBool true) JNull)]) |}.

(** A server whose page has no page info. *)
Definition no_page_info : Script.network :=
  fun _ _ =>
    {| Script.ok := true;
       Script.content :=
         JsonText.dumps
           (JDict [("data",
                    JDict [("advertiser",
                            JDict [("firstPartyData",
                                    JDict [("nodes", JList [JInt 1])])])])]) |}.

End Advertiser.

(** ** The partner first-party script

    [Python/FirstPartyData/GetPartnerFirstPartyDataGQL.py]: the advertisers
    of a partner, page by page, and for each advertiser its first-party
    data, page by page, every record annotated with its advertiser; no
    retry.  The state of a run and its statements are those of the
    advertiser script: the requests sent and [output.txt]. *)

Module Partner.

Import PyStr.

Record config : Type := {
  gql_url : string;
  token : string;
  partner_id : string;
  advertiser_count : Z;
  first_party_data_count : Z;
  name_filter : string
}.

(** The values the script ships with. *)
Definition shipped : config := {|
  gql_url := Script.EXTERNAL_SB_GQL_URL;
  token := "TOKEN_PLACEHOLDER";
  partner_id := "PARTNER_ID_PLACEHOLDER";
  advertiser_count := 100;
  first_party_data_count := 1000;
  name_filter := "NAME_PLACEHOLDER"
|}.

Definition M : Type -> Type := Advertiser.M.

#[local] Notation "x <- c ;; k" := (Advertiser.mbind c (fun x => k))
  (at level 61, c at next level, right associativity).

Definition advertisers_query : string :=
  Script.lines
    [ "";
      "    query GetPartnerAdvertisers($partnerId: ID!, $advertiserCount: Int, $advertiserCursor: String) {";
      "        partner(id: $partnerId) {";
      "            advertisers(first: $advertiserCount, after: $advertiserCursor) {";
      "                nodes {";
      "                    id";
      "                    name";
      "                }";
      "                pageInfo {";
      "                    hasNextPage";
      "                    endCursor";
      "                }";
      "            }";
      "        }";
      "    }" ].

Definition first_party_query : string :=
  Script.lines
    [ "";
      "    query GetAdvertiserFirstPartyData($advertiserId: ID!, $firstPartyDataCount: Int, $firstPartyDataCursor: String, $nameFilter: String) {";
      "        advertiser(id: $advertiserId) {";
      "            firstPartyData(first: $firstPartyDataCount, after: $firstPartyDataCursor, where: {name: {contains: $nameFilter}}) {";
      "                nodes {";
      "                    name";
      "                    id";
      "                    activeUniques {";
      "                        householdCount";
      "                        idsConnectedTvCount";
      "                        idsCount";
      "                        idsInAppCount";
      "                        idsWebCount";
      "                        personsCount";
      "                    }";
      "                }";
      "                pageInfo {";
      "                    hasNextPage";
      "                    endCursor";
      "                }";
      "            }";
      "        }";
      "    }" ].

(** [node['advertiserId'] = advertiser_id] and
    [node['advertiserName'] = advertiser_name]: only a mapping takes an item
    assignment with a string key. *)
Definition annotate (advertiser_id advertiser_name node : json) : result json :=
  match node with
  | JDict d =>
      Return (JDict (Dict.set (Dict.set d "advertiserId" advertiser_id)
                       "advertiserName" advertiser_name))
  | _ => Raise TypeError
  end.

(** The loop that annotates the nodes of a page and appends them. *)
Fixpoint annotate_nodes (advertiser_id advertiser_name : json)
    (nodes : list json) (first_party_data_list : list json)
  : result (list json) :=
  match nodes with
  | [] => Return first_party_data_list
  | node :: rest =>
      annotated <~ annotate advertiser_id advertiser_name node ;;
      annotate_nodes advertiser_id advertiser_name rest
        (first_party_data_list ++ [annotated])
  end.

Section Run.

Variable cfg : config.
Variable net : Script.network.

(** Executes a GQL request to the specified gql_url, using the provided body
    definition and associated variables. *)
Definition execute_gql_request (body : string) (variables : json)
  : M (bool * Script.GqlResponse) :=
  let headers := token cfg in
  response <- Advertiser.post net
                {| Script.url := gql_url cfg; Script.auth := headers;
                   Script.query := body;
                   Script.variables := variables |} ;;
  Advertiser.lift (Script.read_response response).

(** Retrieves a page of advertisers for the given partner. *)
Definition get_partner_advertisers (cursor : json) : M json :=
  let variables :=
    JDict [("partnerId", JStr (partner_id cfg));
           ("advertiserCount", JInt (advertiser_count cfg));
           ("advertiserCursor", cursor)] in
  attempt <- execute_gql_request advertisers_query variables ;;
  let '(request_success, response) := attempt in
  if negb request_success
  then Advertiser.raise (Exception "Failed to fetch advertisers.")
  else Advertiser.ret (Script.data response).

(** Retrieves a page of first-party data for a given advertiser. *)
Definition get_advertiser_first_party_data (advertiser_id cursor : json)
  : M json :=
  let variables :=
    JDict [("advertiserId", advertiser_id);
           ("firstPartyDataCount", JInt (first_party_data_count cfg));
           ("firstPartyDataCursor", cursor);
           ("nameFilter", JStr (name_filter cfg))] in
  attempt <- execute_gql_request first_party_query variables ;;
  let '(request_success, response) := attempt in
  if negb request_success then
    text <- Advertiser.lift (Advertiser.format_value advertiser_id) ;;
    Advertiser.raise
      (Exception ("Failed to fetch first-party data for advertiser "
                  ++ text ++ "."))
  else Advertiser.ret (Script.data response).

(** The [while first_party_has_next] loop. *)
Fixpoint first_party_loop (fuel : nat) (advertiser_id advertiser_name : json)
    (first_party_has_next first_party_cursor : json)
    (first_party_data_list : list json) : M (list json) :=
  match fuel with
  | O => Advertiser.lift OutOfFuel
  | S fuel' =>
      if PyJson.truthy first_party_has_next then
        first_party_data_response <-
          get_advertiser_first_party_data advertiser_id first_party_cursor ;;
        nodes <- Advertiser.lift
                   (Advertiser.path first_party_data_response
                      ["advertiser"; "firstPartyData"; "nodes"]) ;;
        items <- Advertiser.lift (PyJson.iter nodes) ;;
        first_party_data_list' <-
          Advertiser.lift (annotate_nodes advertiser_id advertiser_name items
                             first_party_data_list) ;;
        has_next <- Advertiser.lift
                      (Advertiser.path first_party_data_response
                         ["advertiser"; "firstPartyData"; "pageInfo";
                          "hasNextPage"]) ;;
        cursor <- Advertiser.lift
                    (Advertiser.path first_party_data_response
                       ["advertiser"; "firstPartyData"; "pageInfo";
                        "endCursor"]) ;;
        first_party_loop fuel' advertiser_id advertiser_name has_next cursor
          first_party_data_list'
      else Advertiser.ret first_party_data_list
  end.

(** The [for advertiser in advertisers] loop. *)
Fixpoint advertisers_loop (fuel : nat) (advertisers : list json)
    (first_party_data_list : list json) : M (list json) :=
  match advertisers with
  | [] => Advertiser.ret first_party_data_list
  | advertiser :: rest =>
      advertiser_id <- Advertiser.lift (PyJson.getitem advertiser "id") ;;
      advertiser_name <-
        Advertiser.lift
          (PyJson.get advertiser "name" (JStr "Unknown Advertiser")) ;;
      first_party_data_list' <-
        first_party_loop fuel advertiser_id advertiser_name (JBool true)
          JNull first_party_data_list ;;
      advertisers_loop fuel rest first_party_data_list'
  end.

(** The [while advertiser_has_next] loop. *)
Fixpoint partner_loop (fuel : nat) (advertiser_has_next advertiser_cursor : json)
    (first_party_data_list : list json) : M (list json) :=
  match fuel with
  | O => Advertiser.lift OutOfFuel
  | S fuel' =>
      if PyJson.truthy advertiser_has_next then
        partner_data <- get_partner_advertisers advertiser_cursor ;;
        advertisers <- Advertiser.lift
                         (Advertiser.path partner_data
                            ["partner"; "advertisers"; "nodes"]) ;;
        advertiser_list <- Advertiser.lift (PyJson.iter advertisers) ;;
        first_party_data_list' <-
          advertisers_loop fuel advertiser_list first_party_data_list ;;
        has_next <- Advertiser.lift
                      (Advertiser.path partner_data
                         ["partner"; "advertisers"; "pageInfo";
                          "hasNextPage"]) ;;
        cursor <- Advertiser.lift
                    (Advertiser.path partner_data
                       ["partner"; "advertisers"; "pageInfo"; "endCursor"]) ;;
        partner_loop fuel' has_next cursor first_party_data_list'
      else Advertiser.ret first_party_data_list
  end.

(** Queries all advertisers under a partner and retrieves their first-party
    data. *)
Definition query_partner_first_party_data (fuel : nat) : M unit :=
  first_party_data_list <- partner_loop fuel (JBool true) JNull [] ;;
  Advertiser.write_output first_party_data_list.

End Run.

(** *** Vocabulary *)

Definition advertisers_request (cfg : config) (cursor : json)
  : Script.request :=
  {| Script.url := gql_url cfg; Script.auth := token cfg;
     Script.query := advertisers_query;
     Script.variables :=
       JDict [("partnerId", JStr (partner_id cfg));
              ("advertiserCount", JInt (advertiser_count cfg));
              ("advertiserCursor", cursor)] |}.

Definition first_party_request (cfg : config) (advertiser_id cursor : json)
  : Script.request :=
  {| Script.url := gql_url cfg; Script.auth := token cfg;
     Script.query := first_party_query;
     Script.variables :=
       JDict [("advertiserId", advertiser_id);
              ("firstPartyDataCount", JInt (first_party_data_count cfg));
              ("firstPartyDataCursor", cursor);
              ("nameFilter", JStr (name_filter cfg))] |}.

(** The data of an answer carrying one page of advertisers. *)
Definition advertisers_data (nodes : list json) (has_next cursor : json)
  : json :=
  JDict [("partner",
          JDict [("advertisers",
                  JDict [("nodes", JList nodes);
                         ("pageInfo",
                          JDict [("hasNextPage", has_next);
                                 ("endCursor", cursor)])])])].

(** The id of an advertiser and the name the script uses for it. *)
Definition id_of (advertiser : dict json) : json :=
  match Dict.get advertiser "id" with
  | Some x => x
  | None => JNull
  end.

Definition name_of (advertiser : dict json) : json :=
  match Dict.get advertiser "name" with
  | Some x => x
  | None => JStr "Unknown Advertiser"
  end.

(** A record of [advertiser], as written. *)
Definition annotated (advertiser : dict json) (node : dict json) : json :=
  JDict (Dict.set (Dict.set node "advertiserId" (id_of advertiser))
           "advertiserName" (name_of advertiser)).

(** The records of advertisers with one page of nodes each. *)
Fixpoint records (advertisers : list (dict json))
    (pages : list (list (dict json))) : list json :=
  match advertisers, pages with
  | advertiser :: rest, page :: pages' =>
      map (annotated advertiser) page ++ records rest pages'
  | _, _ => []
  end.

(** A server that answers the post numbered [base + i] with the single page
    of first-party data of the [i]-th advertiser. *)
Definition serves_each (net : Script.network) (base : nat)
    (pages : list (list (dict json))) : Prop :=
  forall i req, (i < length pages)%nat ->
    exists cursor errors,
      Script.read_response (net (base + i)%nat req)
      = Return (true,
                {| Script.data :=
                     Advertiser.page_data (map JDict (nth i pages []))
                       (JBool false) cursor;
                   Script.errors := errors |}).

Definition acme : dict json := [("id", JStr "a1"); ("name", JStr "Acme")].
Definition nameless : dict json := [("id", JStr "a2")].

(** A server for two advertisers with one page each. *)
Definition two_advertisers : Script.network :=
  fun i _ =>
    {| Script.ok := true;
       Script.content :=
         JsonText.dumps
           (JDict [("data",
              match i with
              | O => advertisers_data [JDict acme; JDict nameless]
                       (JBool false) JNull
              | S O => Advertiser.page_data
                         [JDict [("id", JStr "s1")]; JDict [("id", JStr "s2")]]
                         (JBool false) JNull
              | _ => Advertiser.page_data
                       [JDict [("id", JStr "s3"); ("advertiserId", JStr "x")]]
                       (JBool false) JNull
              end)]) |}.

(** A server that lists one advertiser and fails on its data. *)
Definition fails_on_first_advertiser : Script.network :=
  fun i _ =>
    match i with
    | O => {| Script.ok := true;
              Script.content :=
                JsonText.dumps
                  (JDict [("data", advertisers_data [JDict acme]
                                     (JBool false) JNull)]) |}
    | _ => {| Script.ok := false; Script.content := EmptyString |}
    end.

End Partner.

(** ** Vocabulary of the properties *)

Import Script.

(** The request [execute_gql_request] posts. *)
Definition gql_request (cfg : config) (body : string) (variables : json)
  : request :=
  {| url := gql_url cfg; auth := token cfg;
     query := body; variables := variables |}.

(** The state after [n] more posts of [req]. *)
Definition sent (n : nat) (req : request) (w : world) : world :=
  {| posts := posts w ++ repeat req n;
     total_third_party_data_list := total_third_party_data_list w;
     third_party_data_json := third_party_data_json w |}.

Definition is_mapping (j : json) : bool :=
  match j with
  | JDict _ => true
  | _ => false
  end.

(** An attempt the retry wrapper counts as failed and follows with the next
    one: Transport reports not ok, or ok with data that is no mapping (the
    lookup of the field raises [AttributeError], which the wrapper
    catches). *)
Definition attempt_fails (a : result (bool * GqlResponse)) : bool :=
  match a with
  | Return (false, _) => true
  | Return (true, r) => negb (is_mapping (data r))
  | _ => false
  end.

(** What Transport returns for the [j]-th attempt (from 0) of a request
    first posted in state [w]. *)
Definition attempt (net : network) (req : request) (w : world) (j : nat)
  : result (bool * GqlResponse) :=
  read_response (net (length (posts w) + j)%nat req).

(** [n] rounds of the fetch loop in a row. *)
Fixpoint run_rounds (cfg : config) (net : network) (n : nat)
    (partner_id : string) (third_party_data_count : Z)
    (partitioned_provider_list : list (list json)) (st : fetch_state)
  : M fetch_state :=
  match n with
  | O => ret st
  | S n' =>
      mbind (fetch_round cfg net partner_id third_party_data_count
               partitioned_provider_list st)
            (run_rounds cfg net n' partner_id third_party_data_count
               partitioned_provider_list)
  end.

(** The pages of all groups in round-major order: round by round, and within
    a round group by group; [pages] gives for each group its pages in order,
    each page being its list of nodes. *)
Definition round_major (pages : list (list (list json))) (rounds : nat)
  : list json :=
  flat_map (fun r => flat_map (fun pgs => nth r pgs []) pages) (seq 0 rounds).

(** The largest page count of a group. *)
Definition max_pages (pages : list (list (list json))) : nat :=
  list_max (map (@length (list json)) pages).

(** No two elements are equal in Python's sense. *)
Fixpoint py_distinct (l : list json) : Prop :=
  match l with
  | [] => True
  | x :: rest => (forall y, In y rest -> PyJson.eqb x y = false) /\ py_distinct rest
  end.

(** A node with a truthy 'id', and that id: what the comprehension keeps. *)
Definition kept (node : json) (x : json) : Prop :=
  exists d, node = JDict d /\ Dict.get d "id" = Some x
            /\ PyJson.truthy x = true.

(** A node the comprehension passes over: its 'id' is missing or falsy. *)
Definition skipped (node : json) : Prop :=
  exists d, node = JDict d
            /\ (Dict.get d "id" = None
                \/ exists x, Dict.get d "id" = Some x
                             /\ PyJson.truthy x = false).

(** The nodes of the response to the discovery request posted in state
    [w]. *)
Definition discovered_nodes (cfg : config) (net : network) (w : world)
  : result (list json) :=
  let req := gql_request cfg providers_query
               (JDict [("partnerId", JStr (partner_id cfg))]) in
  attempt <~ read_response (net (length (posts w)) req) ;;
  partner <~ PyJson.getitem (data (snd attempt)) "partner" ;;
  providers <~ PyJson.getitem partner "thirdPartyDataProviders" ;;
  nodes <~ PyJson.getitem providers "nodes" ;;
  PyJson.iter nodes.

(** ** Sample servers *)

(** A reply with the given status and a JSON body. *)
Definition reply (status : bool) (body : json) : response :=
  {| ok := status; content := JsonText.dumps body |}.

(** A reply with the given status and no body. *)
Definition empty_reply (status : bool) : response :=
  {| ok := status; content := EmptyString |}.

(** A server that always gives the same reply. *)
Definition always (r : response) : network := fun _ _ => r.

(** A server that gives [early] to the first [n] posts and [late] to the
    others. *)
Definition switch_after (n : nat) (early late : response) : network :=
  fun i _ => if Nat.ltb i n then early else late.

(** The body of a GraphQL answer whose partner field is [partner]. *)
Definition partner_body (partner : json) : json :=
  JDict [("data", JDict [("partner", partner)])].

(** The body of an answer to the discovery query. *)
Definition providers_body (nodes : list json) : json :=
  partner_body
    (JDict [("thirdPartyDataProviders", JDict [("nodes", JList nodes)])]).

Definition discovery_request (cfg : config) : request :=
  gql_request cfg providers_query
    (JDict [("partnerId", JStr (partner_id cfg))]).

Definition sample_nodes : list json :=
  [ JDict [("id", JStr "a")]; JDict [("id", JStr "")]; JDict [];
    JDict [("id", JStr "a")]; JDict [("id", JStr "b")] ].

(** A statement that leaves the output file as it found it. *)
Definition keeps_file {A : Type} (c : M A) : Prop :=
  forall w, third_party_data_json (snd (c w)) = third_party_data_json w.

(** A page of an alias, as the server sends it. *)
Definition page_json (nodes : list json) (has_next : json) (cursor : json)
  : json :=
  JDict [("nodes", JList nodes);
         ("pageInfo", JDict [("hasNextPage", has_next);
                             ("endCursor", cursor)])].

(** A configuration with one provider per request and per alias, and one
    retry. *)
Definition small : config := {|
  gql_url := EXTERNAL_SB_GQL_URL;
  token := "t";
  partner_id := "p";
  partition_total_call_size := 1;
  partition_gql_alias_query_size := 1;
  third_party_data_count := 1000;
  max_retries := 1
|}.

(** A server that answers the discovery with providers a and b, serves the
    single page of the first chunk, and fails from then on. *)
Definition fails_on_second_chunk : network :=
  fun i _ =>
    match i with
    | O => reply true (providers_body [JDict [("id", JStr "a")];
                                       JDict [("id", JStr "b")]])
    | S O => reply true
               (partner_body
                  (JDict [("mygroup_1_alias",
                           page_json [JInt 1] (JBool false) JNull)]))
    | _ => empty_reply false
    end.

(** No separator in [s]. *)
Fixpoint free_of (sep : ascii) (s : string) : Prop :=
  match s with
  | EmptyString => True
  | String c s' => Ascii.eqb c sep = false /\ free_of sep s'
  end.

(** The number of pages of group [i]. *)
Definition page_count (pages : list (list (list json))) (i : nat) : nat :=
  length (nth i pages []).

(** The groups that still have a page to give in round [r] (from 0). *)
Definition active_indices (pages : list (list (list json))) (r : nat)
  : list nat :=
  filter (fun i => Nat.ltb r (page_count pages i)) (seq 0 (length pages)).

(** The variables every combined query is sent with. *)
Definition round_variables (partner_id : string) (third_party_data_count : Z)
  : json :=
  JDict [("partnerId", JStr partner_id);
         ("thirdPartyDataCount", JInt third_party_data_count)].

(** A server that always serves the same page of the first alias. *)
Definition same_page_forever (has_next : json) (cursor : json) : network :=
  always (reply true
            (partner_body
               (JDict [("mygroup_1_alias",
                        page_json [JInt 1] has_next cursor)]))).

(** The first of two groups still has pages, the second is exhausted. *)
Definition second_exhausted : fetch_state :=
  {| third_party_data_list := [];
     alias_has_more_map :=
       [("mygroup_1_alias", JBool true); ("mygroup_2_alias", JBool false)];
     alias_cursor_map :=
       [("mygroup_1_alias", JNull); ("mygroup_2_alias", JNull)] |}.

(** Two groups: the first has two pages, the second one. *)
Definition two_group_pages : list (list (list json)) :=
  [ [ [JInt 1; JInt 2]; [JInt 3] ]; [ [JInt 10] ] ].

(** The partner data of each round for [two_group_pages]. *)
Definition two_group_upstream (r : nat) : json :=
  match r with
  | O => JDict [("mygroup_1_alias",
                 page_json [JInt 1; JInt 2] (JBool true) (JStr "c1"));
                ("mygroup_2_alias", page_json [JInt 10] (JBool false) JNull)]
  | _ => JDict [("mygroup_1_alias", page_json [JInt 3] (JBool false) JNull)]
  end.

(** The data member of the answer to the discovery query. *)
Definition partner_body_data (nodes : list json) : json :=
  JDict [("partner",
          JDict [("thirdPartyDataProviders",
                  JDict [("nodes", JList nodes)])])].

(** The sub-query of the group numbered [i] (from 0): under the group's
    alias, after the alias's cursor, filtered on the group's ids. *)
Definition subquery_of (groups : list (list json)) (cursors : dict json)
    (i : nat) : string :=
  alias_subquery (alias_label i)
    (JsonText.dumps (match Dict.get cursors (alias_label i) with
                     | Some c => c
                     | None => JNull
                     end))
    (JsonText.dumps (JList (nth i groups []))).

(** The texts of a list, one after the other. *)
Definition texts (l : list string) : string :=
  fold_right String.append EmptyString l.

(** The cursor the loop holds for group [i] when it builds the query of
    round [r]: none in the first round, then the end cursor that came with
    the group's page of the round before; [cursor i k] is the end cursor the
    upstream gives with page [k] of group [i]. *)
Definition cursor_before (cursor : nat -> nat -> json) (i r : nat) : json :=
  match r with
  | O => JNull
  | S k => cursor i k
  end.

(** The combined query of round [r] (from 0): the header; then, for each
    group that still has a page to give, in group order, the sub-query under
    the group's alias, resuming after the cursor held for the group and
    filtered on the group's ids; then the footer. *)
Definition round_query (groups : list (list json))
    (pages : list (list (list json))) (cursor : nat -> nat -> json) (r : nat)
  : string :=
  (query_header
   ++ texts (map (fun i => alias_subquery (alias_label i)
                             (JsonText.dumps (cursor_before cursor i r))
                             (JsonText.dumps (JList (nth i groups []))))
               (active_indices pages r))
   ++ query_footer)%string.

(** The request of round [r]. *)
Definition round_request (cfg : config) (pid : string) (count : Z)
    (groups : list (list json)) (pages : list (list (list json)))
    (cursor : nat -> nat -> json) (r : nat) : request :=
  gql_request cfg (round_query groups pages cursor r)
    (round_variables pid count).

(** An upstream that serves [pages] to the groups, page [k] of group [i]
    coming with the end cursor [cursor i k]: when the post numbered
    [base + r] is the request of round [r], which asks each group that still
    has a page for the page after the cursor of its previous one, the answer
    is ok and carries the partner data [upstream r]; there every group that
    has an [r]-th page finds it under its alias, with its end cursor and
    with a truthy hasNextPage exactly when it is not the group's last page.
    What the upstream answers to any other request is left open. *)
Definition serves (cfg : config) (pid : string) (count : Z)
    (groups : list (list json)) (net : network) (base : nat)
    (pages : list (list (list json))) (cursor : nat -> nat -> json)
    (upstream : nat -> json) : Prop :=
  (forall r, (r < max_pages pages)%nat ->
     exists resp d,
       read_response
         (net (base + r)%nat (round_request cfg pid count groups pages cursor r))
       = Return (true, resp)
       /\ data resp = JDict d
       /\ Dict.get d "partner" = Some (upstream r))
  /\ (forall r i, (i < length pages)%nat -> (r < page_count pages i)%nat ->
        exists pg,
          read_page (upstream r) (alias_label i) = Return pg
          /\ page_nodes pg = nth r (nth i pages []) []
          /\ PyJson.truthy (has_next_page pg)
             = Nat.ltb (S r) (page_count pages i)
          /\ end_cursor pg = cursor i r).

(** The state of the loop after [r] rounds against such an upstream. *)
Definition round_state_ok (pages : list (list (list json)))
    (cursor : nat -> nat -> json) (r : nat) (st : fetch_state) : Prop :=
  third_party_data_list st = round_major pages r
  /\ Dict.keys (alias_has_more_map st) = map alias_label (seq 0 (length pages))
  /\ Dict.keys (alias_cursor_map st) = map alias_label (seq 0 (length pages))
  /\ (forall i, (i < length pages)%nat ->
        exists f, Dict.get (alias_has_more_map st) (alias_label i) = Some f
                  /\ PyJson.truthy f = Nat.ltb r (page_count pages i))
  /\ (forall i, (i < length pages)%nat -> (r < page_count pages i)%nat ->
        Dict.get (alias_cursor_map st) (alias_label i)
        = Some (cursor_before cursor i r)).

(** The groups of [two_group_pages], and the end cursors of their pages. *)
Definition two_groups : list (list json) := [[JStr "a"]; [JStr "b"]].

Definition two_group_cursor (i r : nat) : json :=
  match i, r with
  | O, O => JStr "c1"
  | _, _ => JNull
  end.

(** An upstream for [two_group_pages] that answers by cursor: it looks at
    the query alone, and gives the second page of the first group when the
    query resumes after the end cursor of the first page, and the first
    pages otherwise. *)
Definition two_group_server : network :=
  fun _ req =>
    match String.index 0 ("after: " ++ JsonText.dumps (JStr "c1")) (query req)
    with
    | Some _ => reply true (partner_body (two_group_upstream 1))
    | None => reply true (partner_body (two_group_upstream 0))
    end.

(** The page of an alias the response says nothing about. *)
Definition no_page : page :=
  {| page_nodes := []; has_next_page := JBool false; end_cursor := JNull |}.

(** The state of the loop against [same_page_forever (JBool true) JNull],
    with [l] accumulated so far. *)
Definition stuck_state (l : list json) : fetch_state :=
  {| third_party_data_list := l;
     alias_has_more_map := [("mygroup_1_alias", JBool true)];
     alias_cursor_map := [("mygroup_1_alias", JNull)] |}.

(** A statement whose effect on the state is within [R], whatever its
    outcome. *)
Definition stays {A : Type} (R : world -> world -> Prop) (c : M A) : Prop :=
  forall w, R w (snd (c w)).

(** The total list is as it was. *)
Definition same_total (w w' : world) : Prop :=
  total_third_party_data_list w' = total_third_party_data_list w.

(** The total list has only been appended to. *)
Definition grown_total (w w' : world) : Prop :=
  exists l, total_third_party_data_list w'
            = total_third_party_data_list w ++ l.

(** The requests sent since [w] all went to the configured endpoint with the
    configured token. *)
Definition sent_as (cfg : config) (w w' : world) : Prop :=
  exists l, posts w' = posts w ++ l
            /\ Forall (fun req => url req = gql_url cfg
                                  /\ auth req = token cfg) l.

(** A server that answers the discovery with the given nodes and fails from
    then on. *)
Definition discovery_only (nodes : list json) : network :=
  switch_after 1 (reply true (providers_body nodes)) (empty_reply false).

(** The shipped configuration with other partition sizes. *)
Definition with_sizes (call_size alias_size : Z) : config := {|
  gql_url := EXTERNAL_SB_GQL_URL;
  token := "REPLACE_WITH_API_TOKEN";
  partner_id := "REPLACE_WITH_PARTNER_ID";
  partition_total_call_size := call_size;
  partition_gql_alias_query_size := alias_size;
  third_party_data_count := 1000;
  max_retries := 3
|}.

(** The state once the output file has been written. *)
Definition written (w : world) : world :=
  {| posts := posts w;
     total_third_party_data_list := total_third_party_data_list w;
     third_party_data_json := Some (total_third_party_data_list w) |}.

(** ** Proof automation *)

(** Split a conjunction into its parts, without introducing anything. *)
Ltac splits := repeat match goal with |- _ /\ _ => split end.

(** Statements that leave the output file alone. *)
Create HintDb keeps.

(** * Properties *)

(** ** Partitioner *)

Section Partition.

Context {A : Type}.
Variable strings : list A.
Variable size : Z.
Hypothesis size_pos : 0 < size.

Let n := Py.len strings.
Let range_count := Py.range_count n size.

Lemma range_count_stop i : n <= i -> range_count i = O.
Proof.
  intros Hi. unfold range_count, Py.range_count.
  assert ((n - i + size - 1) / size < 1) by (apply Z.div_lt_upper_bound; lia).
  lia.
Qed.

Lemma range_count_step i : i < n -> range_count i = S (range_count (i + size)).
Proof.
  intros Hi. unfold range_count, Py.range_count.
  replace (n - i + size - 1) with ((n - i - 1) + 1 * size) by lia.
  rewrite Z.div_add by lia.
  replace (n - (i + size) + size - 1) with (n - i - 1) by lia.
  assert (0 <= (n - i - 1) / size) by (apply Z.div_pos; lia).
  lia.
Qed.

Lemma range_fuel_spec fuel : forall i,
  n - i <= Z.of_nat fuel ->
  Py.range_fuel fuel i n size =
  map (fun k => i + Z.of_nat k * size) (seq 0 (range_count i)).
Proof.
  induction fuel as [|fuel IH]; intros i Hfuel; simpl.
  - rewrite range_count_stop by lia. reflexivity.
  - destruct (Z.ltb_spec i n) as [Hlt|Hge].
    + rewrite (range_count_step i Hlt). simpl. f_equal; [lia|].
      rewrite IH by lia. rewrite <- seq_shift, map_map.
      apply map_ext. intros k. lia.
    + rewrite range_count_stop by lia. reflexivity.
Qed.

Lemma range_spec :
  Py.range 0 n size = map (fun k => Z.of_nat k * size) (seq 0 (range_count 0)).
Proof.
  unfold Py.range. rewrite range_fuel_spec by lia. reflexivity.
Qed.

Lemma slice_chunk i :
  0 <= i ->
  Py.slice strings i (i + size) =
  firstn (Z.to_nat size) (skipn (Z.to_nat i) strings).
Proof.
  intros Hi. unfold Py.slice, Py.clamp_index. fold (Py.len strings). fold n.
  destruct (Z.ltb_spec i 0); [lia|].
  destruct (Z.ltb_spec (i + size) 0); [lia|].
  assert (Hn : 0 <= n) by (unfold n, Py.len; lia).
  destruct (Z.le_gt_cases n i) as [Hout|Hin].
  - rewrite !skipn_all2 by (unfold n, Py.len in *; lia).
    now rewrite !firstn_nil.
  - rewrite (Z.min_l i n) by lia.
    destruct (Z.le_gt_cases (i + size) n).
    + rewrite Z.min_l by lia. f_equal. lia.
    + rewrite Z.min_r by lia.
      rewrite !firstn_all2; try reflexivity;
        rewrite length_skipn; unfold n, Py.len in *; lia.
Qed.

Lemma concat_chunks c : forall i,
  0 <= i -> c = range_count i ->
  concat (map (fun k => Py.slice strings (i + Z.of_nat k * size)
                                         (i + Z.of_nat k * size + size))
              (seq 0 c))
  = skipn (Z.to_nat i) strings.
Proof.
  induction c as [|c IH]; intros i Hi Hc.
  - destruct (Z.lt_ge_cases i n) as [Hlt|Hge].
    + rewrite (range_count_step i Hlt) in Hc. discriminate.
    + symmetry. apply skipn_all2. unfold n, Py.len in Hge. lia.
  - destruct (Z.lt_ge_cases i n) as [Hlt|Hge].
    2:{ rewrite range_count_stop in Hc by lia. discriminate. }
    rewrite (range_count_step i Hlt) in Hc. injection Hc as Hc.
    cbn [seq map concat].
    replace (i + Z.of_nat 0 * size) with i by lia.
    rewrite slice_chunk by lia.
    rewrite <- seq_shift, map_map.
    rewrite (map_ext _ (fun k => Py.slice strings (i + size + Z.of_nat k * size)
                                   (i + size + Z.of_nat k * size + size))).
    2:{ intros k. f_equal; lia. }
    rewrite IH by (try lia; assumption).
    replace (Z.to_nat (i + size)) with (Z.to_nat size + Z.to_nat i)%nat by lia.
    rewrite <- skipn_skipn. apply firstn_skipn.
Qed.

Lemma partition_list_chunks :
  partition_list strings size =
  Return (map (fun k => firstn (Z.to_nat size)
                          (skipn (Z.to_nat (Z.of_nat k * size)) strings))
              (seq 0 (range_count 0))).
Proof.
  unfold partition_list. destruct (Z.leb_spec size 0); [lia|].
  fold n. rewrite range_spec, map_map. f_equal.
  apply map_ext. intros k. apply slice_chunk. lia.
Qed.

Lemma range_count_ceil :
  Z.of_nat (range_count 0) = (n + size - 1) / size.
Proof.
  unfold range_count, Py.range_count. rewrite Z.sub_0_r.
  assert (0 <= n) by (unfold n, Py.len; lia).
  assert (0 <= (n + size - 1) / size) by (apply Z.div_pos; lia).
  lia.
Qed.

Lemma range_count_full k :
  (S k < range_count 0)%nat -> Z.of_nat k * size + size <= n.
Proof.
  intros Hk.
  assert (H : Z.of_nat k + 1 < (n + size - 1) / size)
    by (rewrite <- range_count_ceil; lia).
  assert (size * ((n + size - 1) / size) <= n + size - 1)
    by (apply Z.mul_div_le; lia).
  nia.
Qed.

Lemma range_count_last k :
  (k < range_count 0)%nat -> Z.of_nat k * size < n.
Proof.
  intros Hk.
  assert (H : Z.of_nat k < (n + size - 1) / size)
    by (rewrite <- range_count_ceil; lia).
  assert (size * ((n + size - 1) / size) <= n + size - 1)
    by (apply Z.mul_div_le; lia).
  nia.
Qed.

End Partition.

Lemma nth_map_seq {B : Type} (f : nat -> B) (c k : nat) (d : B) :
  (k < c)%nat -> nth k (map f (seq 0 c)) d = f k.
Proof.
  intros Hk. rewrite (nth_indep _ d (f O)) by (now rewrite length_map, length_seq).
  now rewrite (map_nth f), seq_nth.
Qed.

(** C7. For every sequence [S] and every positive size [N],
    [partition_list(S, N)] returns partitions whose concatenation, in order,
    is [S]; every partition but possibly the last has length exactly [N]; the
    number of partitions is the ceiling of [len(S) / N] (the only integer [c]
    with [len(S) <= c * N < len(S) + N]); and the empty input gives no
    partition at all. *)
Theorem partition_list_spec {A : Type} (S : list A) (N : Z) (HN : 0 < N) :
  exists parts : list (list A),
    partition_list S N = Return parts
    /\ concat parts = S
    /\ (forall k, (k + 1 < length parts)%nat ->
          Py.len (nth k parts []) = N)
    /\ Py.len parts = (Py.len S + N - 1) / N
    /\ (Py.len S <= Py.len parts * N < Py.len S + N)
    /\ partition_list (@nil A) N = Return [].
Proof.
  eexists. split; [apply partition_list_chunks; exact HN|].
  set (c := Py.range_count (Py.len S) N 0).
  assert (Hceil : Z.of_nat c = (Py.len S + N - 1) / N)
    by (apply range_count_ceil; exact HN).
  split; [|split; [|split; [|split]]].
  - rewrite (map_ext _ (fun k => Py.slice S (0 + Z.of_nat k * N)
                                   (0 + Z.of_nat k * N + N))).
    + now rewrite (concat_chunks S N HN c 0) by (reflexivity || lia).
    + intros k. symmetry. rewrite slice_chunk by lia. reflexivity.
  - intros k Hk. rewrite length_map, length_seq in Hk.
    rewrite nth_map_seq by lia.
    pose proof (range_count_full S N HN k ltac:(fold c; lia)) as Hfull.
    unfold Py.len in *. rewrite length_firstn, length_skipn. lia.
  - unfold Py.len at 1. rewrite length_map, length_seq. exact Hceil.
  - unfold Py.len at 2 3. rewrite length_map, length_seq, Hceil.
    assert (0 <= Py.len S) by (unfold Py.len; lia).
    pose proof (Z.mul_div_le (Py.len S + N - 1) N HN).
    pose proof (Z.mul_succ_div_gt (Py.len S + N - 1) N HN).
    lia.
  - reflexivity || (unfold partition_list; destruct (Z.leb_spec N 0); [lia|reflexivity]).
Qed.

Lemma partition_list_spec_witness :
  0 < 2 /\
  exists parts : list (list string),
    partition_list ["a"; "b"; "c"; "d"; "e"] 2 = Return parts
    /\ concat parts = ["a"; "b"; "c"; "d"; "e"]
    /\ (forall k, (k + 1 < length parts)%nat ->
          Py.len (nth k parts []) = 2)
    /\ Py.len parts = (Py.len ["a"; "b"; "c"; "d"; "e"] + 2 - 1) / 2
    /\ (Py.len ["a"; "b"; "c"; "d"; "e"] <= Py.len parts * 2
        < Py.len ["a"; "b"; "c"; "d"; "e"] + 2)
    /\ partition_list (@nil string) 2 = Return [].
Proof.
  split; [lia | apply (partition_list_spec ["a"; "b"; "c"; "d"; "e"] 2); lia].
Defined.

(** C8. [partition_list(items, size)] raises [ValueError] (the language's
    invalid-argument error) exactly when [size <= 0], and returns normally
    for every input sequence exactly when [size > 0]. *)
Theorem partition_list_raises_iff {A : Type} (items : list A) (size : Z) :
  (partition_list items size
     = Raise (ValueError "Partition size must be greater than 0.")
   <-> size <= 0)
  /\ ((exists e, partition_list items size = Raise e) <-> size <= 0)
  /\ ((exists parts, partition_list items size = Return parts) <-> 0 < size).
Proof.
  unfold partition_list.
  destruct (Z.leb_spec size 0) as [Hle|Hgt]; repeat split; intros H;
    try lia; try reflexivity; try discriminate;
    try (destruct H; discriminate); eauto.
Qed.

(** ** Transport and the retry wrapper *)

Section Retry.

Variable cfg : config.
Variable net : network.
Variable q : string.
Variable v : json.
Variable pid : string.
Variable m : Z.

Let req := gql_request cfg q v.

Lemma sent_0 w : sent 0 req w = w.
Proof. destruct w. unfold sent. simpl. now rewrite app_nil_r. Qed.

Lemma sent_sent a b w : sent a req (sent b req w) = sent (b + a) req w.
Proof. unfold sent. simpl. now rewrite <- app_assoc, repeat_app. Qed.

Lemma length_posts_sent n w :
  length (posts (sent n req w)) = (length (posts w) + n)%nat.
Proof. unfold sent. simpl. now rewrite length_app, repeat_length. Qed.

Lemma execute_gql_request_eq w :
  execute_gql_request cfg net q v w = (attempt net req w 0, sent 1 req w).
Proof.
  unfold execute_gql_request, mbind, post, lift, attempt.
  now rewrite Nat.add_0_r.
Qed.

(** One iteration of the retry loop, by what Transport returned. *)
Lemma retry_loop_S fuel t w :
  t <= m ->
  retry_loop cfg net (S fuel) q v pid m t w =
  let w1 := sent 1 req w in
  let continue :=
    if t + 1 >? m then (Raise (retries_exhausted pid m), w1)
    else retry_loop cfg net fuel q v pid m (t + 1) w1 in
  match attempt net req w 0 with
  | Return (true, r) =>
      match data r with
      | JDict d => (Return (match Dict.get d "partner" with
                            | Some x => x
                            | None => JDict []
                            end), w1)
      | _ => continue
      end
  | Return (false, _) => continue
  | Raise e => (Raise e, w1)
  | OutOfFuel => (OutOfFuel, w1)
  | Unmodelled => (Unmodelled, w1)
  end.
Proof.
  intros Ht. cbn [retry_loop].
  destruct (Z.leb_spec t m) as [_|]; [|lia].
  unfold mbind at 1. rewrite execute_gql_request_eq.
  destruct (attempt net req w 0) as [[[|] r]|e| |]; try reflexivity;
    [destruct (data r)|]; unfold mbind, ret, raise, lift; simpl;
    try reflexivity; destruct (t + 1 >? m); reflexivity.
Qed.

Lemma retry_loop_fail fuel t w :
  t <= m -> attempt_fails (attempt net req w 0) = true ->
  retry_loop cfg net (S fuel) q v pid m t w =
  if t + 1 >? m then (Raise (retries_exhausted pid m), sent 1 req w)
  else retry_loop cfg net fuel q v pid m (t + 1) (sent 1 req w).
Proof.
  intros Ht Hf. rewrite retry_loop_S by exact Ht. cbv zeta.
  destruct (attempt net req w 0) as [[[|] r]|e| |]; try discriminate;
    try reflexivity.
  simpl in Hf. destruct (data r); try reflexivity; discriminate.
Qed.

Lemma retry_loop_success fuel t w r d :
  t <= m -> attempt net req w 0 = Return (true, r) -> data r = JDict d ->
  retry_loop cfg net (S fuel) q v pid m t w =
  (Return (match Dict.get d "partner" with
           | Some x => x
           | None => JDict []
           end), sent 1 req w).
Proof.
  intros Ht Ha Hd. rewrite retry_loop_S by exact Ht. cbv zeta.
  now rewrite Ha, Hd.
Qed.

Lemma attempt_sent w n j :
  attempt net req (sent n req w) j = attempt net req w (n + j).
Proof. unfold attempt. now rewrite length_posts_sent, Nat.add_assoc. Qed.

(** [n] failing attempts that use up the budget. *)
Lemma retry_loop_exhausts n : forall fuel t w,
  (n < fuel)%nat -> t + Z.of_nat n = m ->
  (forall j, (j <= n)%nat -> attempt_fails (attempt net req w j) = true) ->
  retry_loop cfg net fuel q v pid m t w =
  (Raise (retries_exhausted pid m), sent (S n) req w).
Proof.
  induction n as [|n IH]; intros fuel t w Hfuel Ht Hfail;
    (destruct fuel as [|fuel]; [lia|]).
  - rewrite retry_loop_fail by (lia || apply Hfail; lia).
    destruct (Z.gtb_spec (t + 1) m); [reflexivity | lia].
  - rewrite retry_loop_fail by (lia || apply Hfail; lia).
    destruct (Z.gtb_spec (t + 1) m); [lia|].
    rewrite (IH fuel (t + 1) (sent 1 req w)); try lia.
    + now rewrite sent_sent.
    + intros j Hj. rewrite attempt_sent. apply Hfail. lia.
Qed.


End Retry.




(** Below zero the bound leaves no attempt: the wrapper posts nothing and
    raises its other error. *)
Example negative_bound_makes_no_call :
  execute_with_retries shipped (always (empty_reply true)) "q" JNull "p" (-1)
    start
  = (Raise (Exception "Unexpected error occurred for partner p."), start).
Proof. vm_compute. reflexivity. Qed.

(** The retry loop sees the server only through what Transport returns for
    the attempts still to come. *)
Lemma retry_loop_ext (cfg : config) (net net' : network) (q : string)
    (v : json) (pid : string) (m : Z) (fuel : nat) : forall t w,
  (forall j, attempt net (gql_request cfg q v) w j
             = attempt net' (gql_request cfg q v) w j) ->
  retry_loop cfg net fuel q v pid m t w
  = retry_loop cfg net' fuel q v pid m t w.
Proof.
  induction fuel as [|fuel IH]; intros t w Hsame; [reflexivity|].
  destruct (Z.le_gt_cases t m) as [Ht|Ht].
  - rewrite !retry_loop_S by exact Ht. cbv zeta. rewrite <- (Hsame O).
    rewrite (IH (t + 1) (sent 1 (gql_request cfg q v) w)).
    + reflexivity.
    + intros j. rewrite !attempt_sent. apply Hsame.
  - cbn [retry_loop]. destruct (Z.leb_spec t m); [lia | reflexivity].
Qed.

(** What the wrapper does with an attempt Transport reports as ok.  With a
    non-negative retry bound: when the data is a mapping, the wrapper returns
    at once, after that single post, the value [.get("partner", {})] gives;
    when the data is not a mapping (null, a list, a string, a number), the
    attempt counts exactly as a transport failure would: against any server
    that differs only in failing on that attempt, the wrapper ends with the
    same outcome after the same posts. *)
Lemma execute_with_retries_shape (cfg : config) (net : network)
    (q : string) (v : json) (pid : string) (m : Z) (w : world)
    (Hm : 0 <= m) :
  (forall (r : GqlResponse) (d : dict json),
      attempt net (gql_request cfg q v) w 0 = Return (true, r) ->
      data r = JDict d ->
      execute_with_retries cfg net q v pid m w =
      (Return (match Dict.get d "partner" with
               | Some x => x
               | None => JDict []
               end),
       sent 1 (gql_request cfg q v) w))
  /\
  (forall (net' : network) (r r' : GqlResponse),
      attempt net (gql_request cfg q v) w 0 = Return (true, r) ->
      is_mapping (data r) = false ->
      attempt net' (gql_request cfg q v) w 0 = Return (false, r') ->
      (forall j, attempt net' (gql_request cfg q v) w (S j)
                 = attempt net (gql_request cfg q v) w (S j)) ->
      execute_with_retries cfg net q v pid m w
      = execute_with_retries cfg net' q v pid m w).
Proof.
  split.
  - intros r d Hok Hd. unfold execute_with_retries.
    apply (retry_loop_success cfg net q v pid m _ 0 w r d); [lia | | ];
      assumption.
  - intros net' r r' Hok Hshape Hfail Hsame. unfold execute_with_retries.
    rewrite (retry_loop_fail cfg net) by
      (lia || (rewrite Hok; simpl; now rewrite Hshape)).
    rewrite (retry_loop_fail cfg net') by (lia || now rewrite Hfail).
    destruct (0 + 1 >? m); [reflexivity|].
    apply retry_loop_ext. intros j. rewrite !attempt_sent.
    symmetry. apply Hsame.
Qed.

(** C1. The wrapper at the failing input.  Transport reports ok, and the data
    of the answer is a mapping with no 'partner' member (the body is
    [{"data": {}}], or carries errors only): the wrapper returns the empty
    mapping as its result after that single post, where the specification
    has the attempt count as a failure and the request re-issued.  The paths
    next to it do retry: had the same attempt been a transport failure, or
    had the data been null, the wrapper would have posted a second time.
    And a run whose fetch is answered so completes, and writes an empty
    list. *)
Lemma missing_partner_returned_as_empty :
  attempt (always (reply true (JDict [("data", JDict [])])))
    (gql_request shipped "q" JNull) start 0
  = Return (true, {| data := JDict []; errors := JList [] |})
  /\ execute_with_retries shipped
       (always (reply true (JDict [("data", JDict [])]))) "q" JNull "p" 3 start
     = (Return (JDict []), sent 1 (gql_request shipped "q" JNull) start)
  /\ execute_with_retries shipped
       (always (reply true (JDict [("errors", JList [JStr "denied"])])))
       "q" JNull "p" 3 start
     = (Return (JDict []), sent 1 (gql_request shipped "q" JNull) start)
  /\ execute_with_retries shipped
       (switch_after 1 (empty_reply false)
          (reply true (JDict [("data", JDict [])]))) "q" JNull "p" 3 start
     = (Return (JDict []), sent 2 (gql_request shipped "q" JNull) start)
  /\ execute_with_retries shipped
       (switch_after 1 (reply true (JDict [("data", JNull)]))
          (reply true (JDict [("data", JDict [])]))) "q" JNull "p" 3 start
     = (Return (JDict []), sent 2 (gql_request shipped "q" JNull) start)
  /\ (let run :=
        query_partner_third_party_data shipped
          (switch_after 1
             (reply true (providers_body [JDict [("id", JStr "a")]]))
             (reply true (JDict [("errors", JList [JStr "denied"])])))
          (fun ids => ids) 5 start in
      fst run = Return tt
      /\ third_party_data_json (snd run) = Some []
      /\ length (posts (snd run)) = 2%nat).
Proof.
  splits; try (vm_compute; reflexivity).
  vm_compute. splits; reflexivity.
Qed.

(** C4 fails as stated: on a failed HTTP exchange whose body is not JSON,
    Transport raises the decoder's error instead of returning. *)
Lemma malformed_body_raises :
  execute_gql_request shipped
    (always {| ok := false; content := "<html>" |}) "q" JNull start
  = (Raise JSONDecodeError, sent 1 (gql_request shipped "q" JNull) start).
Proof. vm_compute. reflexivity. Qed.

(** C4, as the code has it.  Transport posts once and returns, whatever the
    status of the exchange, when the body is empty or is the JSON text of an
    object: on an empty body it returns [data = {}] and [errors = []]; on an
    object it returns the object's 'data' and 'errors' members, [{}] and [[]]
    standing in for an absent one; the flag it returns is the status of the
    exchange. *)
Theorem execute_gql_request_returns (cfg : config) (net : network)
    (q : string) (v : json) (w : world) :
  (content (net (length (posts w)) (gql_request cfg q v)) = EmptyString ->
   execute_gql_request cfg net q v w =
   (Return (ok (net (length (posts w)) (gql_request cfg q v)),
            {| data := JDict []; errors := JList [] |}),
    sent 1 (gql_request cfg q v) w))
  /\
  (forall d : dict json,
     content (net (length (posts w)) (gql_request cfg q v)) <> EmptyString ->
     JsonText.loads (content (net (length (posts w)) (gql_request cfg q v)))
     = Return (JDict d) ->
     execute_gql_request cfg net q v w =
     (Return (ok (net (length (posts w)) (gql_request cfg q v)),
              {| data := match Dict.get d "data" with
                         | Some x => x
                         | None => JDict []
                         end;
                 errors := match Dict.get d "errors" with
                           | Some x => x
                           | None => JList []
                           end |}),
      sent 1 (gql_request cfg q v) w)).
Proof.
  rewrite execute_gql_request_eq. unfold attempt, read_response.
  rewrite Nat.add_0_r.
  destruct (net (length (posts w)) (gql_request cfg q v)) as [status body].
  cbn [content ok]. split.
  - intros ->. reflexivity.
  - intros d Hbody Hloads.
    destruct body as [|c body]; [congruence|].
    cbn [String.length]. destruct (Z.ltb_spec 0 (Z.of_nat (S (String.length body))));
      [|lia].
    rewrite Hloads. reflexivity.
Qed.

Lemma execute_gql_request_returns_witness :
  execute_gql_request shipped (always (empty_reply false)) "q" JNull start
  = (Return (false, {| data := JDict []; errors := JList [] |}),
     sent 1 (gql_request shipped "q" JNull) start)
  /\ execute_gql_request shipped
       (always (reply false (JDict [("errors", JList [JStr "denied"])])))
       "q" JNull start
     = (Return (false, {| data := JDict [];
                          errors := JList [JStr "denied"] |}),
        sent 1 (gql_request shipped "q" JNull) start).
Proof.
  split.
  - apply (proj1 (execute_gql_request_returns shipped
                    (always (empty_reply false)) "q" JNull start)).
    reflexivity.
  - apply (proj2 (execute_gql_request_returns shipped
                    (always (reply false
                               (JDict [("errors", JList [JStr "denied"])])))
                    "q" JNull start)
             [("errors", JList [JStr "denied"])]).
    + vm_compute. discriminate.
    + vm_compute. reflexivity.
Defined.

(** ** Provider discovery *)

Lemma eqb_sym x y : PyJson.eqb x y = PyJson.eqb y x.
Proof.
  destruct x, y; simpl; try reflexivity.
  - now destruct b, b0.
  - apply Z.eqb_sym.
  - apply String.eqb_sym.
Qed.

Lemma eqb_refl x : PyJson.hashable x = true -> PyJson.eqb x x = true.
Proof.
  destruct x; simpl; intros H; try discriminate; try reflexivity.
  - now destruct b.
  - apply Z.eqb_refl.
  - apply String.eqb_refl.
Qed.

Lemma py_distinct_snoc l x :
  py_distinct l -> existsb (PyJson.eqb x) l = false -> py_distinct (l ++ [x]).
Proof.
  induction l as [|a l IH]; simpl; intros Hd Hx.
  - split; [intros y []|exact I].
  - apply orb_false_elim in Hx. destruct Hx as [Hxa Hxl].
    destruct Hd as [Ha Hd]. split.
    + intros y Hy. apply in_app_or in Hy. destruct Hy as [Hy|[<-|[]]].
      * now apply Ha.
      * now rewrite eqb_sym.
    + now apply IH.
Qed.

Lemma py_distinct_perm l l' :
  Permutation l l' -> py_distinct l -> py_distinct l'.
Proof.
  induction 1 as [|x l l' Hp IH|x y l|l l' l'' _ IH1 _ IH2]; simpl.
  - trivial.
  - intros [Hx Hd]. split; [|now apply IH].
    intros y Hy. apply Hx. now apply (Permutation_in _ (Permutation_sym Hp)).
  - intros [Hy [Hx Hd]]. repeat split; try assumption.
    + intros z [<-|Hz]; [rewrite eqb_sym; apply Hy; now left | now apply Hx].
    + intros z Hz. apply Hy. now right.
  - auto.
Qed.

Lemma py_distinct_NoDup l :
  (forall x, In x l -> PyJson.hashable x = true) -> py_distinct l -> NoDup l.
Proof.
  induction l as [|a l IH]; simpl; intros Hh Hd; constructor.
  - intros Hin. destruct Hd as [Ha _].
    pose proof (eqb_refl a (Hh a (or_introl eq_refl))) as Hrefl.
    rewrite (Ha a Hin) in Hrefl. discriminate.
  - apply IH; [intros x Hx; apply Hh; now right | apply Hd].
Qed.

Lemma provider_id_set_skip pre node post : forall acc,
  skipped node ->
  provider_id_set (pre ++ node :: post) acc = provider_id_set (pre ++ post) acc.
Proof.
  intros acc [d [-> Hid]].
  revert acc. induction pre as [|a pre IH]; intros acc; simpl.
  - destruct Hid as [->|[x [-> Hx]]]; simpl; [reflexivity|].
    now rewrite Hx.
  - destruct (PyJson.get a "id" JNull) as [found| | |]; simpl; try reflexivity.
    destruct (PyJson.truthy found); [|apply IH].
    destruct (PyJson.getitem a "id") as [id| | |]; simpl; try reflexivity.
    destruct (PyJson.set_add acc id) as [acc'| | |]; simpl; try reflexivity.
    apply IH.
Qed.

Lemma provider_id_set_inv nodes : forall acc ids,
  provider_id_set nodes acc = Return ids ->
  py_distinct acc ->
  (forall x, In x acc -> PyJson.hashable x = true /\ PyJson.truthy x = true) ->
  py_distinct ids
  /\ (forall x, In x acc -> In x ids)
  /\ (forall x, In x ids -> PyJson.hashable x = true /\ PyJson.truthy x = true)
  /\ (forall x, In x ids ->
        In x acc \/ exists node, In node nodes /\ kept node x)
  /\ (forall node x, In node nodes -> kept node x ->
        exists y, In y ids /\ PyJson.eqb y x = true).
Proof.
  induction nodes as [|node rest IH]; intros acc ids Hrun Hd Hacc.
  - simpl in Hrun. injection Hrun as <-. splits; auto.
    intros node x [].
  - simpl in Hrun.
    destruct node as [| | | | |d]; try discriminate. simpl in Hrun.
    destruct (Dict.get d "id") as [found|] eqn:Hget; simpl in Hrun.
    2:{ destruct (IH acc ids Hrun Hd Hacc) as (H1 & H2 & H3 & H4 & H5).
        splits; try assumption.
        - intros x Hx. destruct (H4 x Hx) as [|[n [Hn Hk]]]; [now left|].
          right. exists n. split; [now right | assumption].
        - intros n x [<-|Hn] Hk; [|now apply (H5 n)].
          destruct Hk as (d' & [= <-] & Hid & _). congruence. }
    destruct (PyJson.truthy found) eqn:Htruthy.
    2:{ destruct (IH acc ids Hrun Hd Hacc) as (H1 & H2 & H3 & H4 & H5).
        splits; try assumption.
        - intros x Hx. destruct (H4 x Hx) as [|[n [Hn Hk]]]; [now left|].
          right. exists n. split; [now right | assumption].
        - intros n x [<-|Hn] Hk; [|now apply (H5 n)].
          destruct Hk as (d' & [= <-] & Hid & Hx). congruence. }
    unfold PyJson.set_add in Hrun.
    destruct (PyJson.hashable found) eqn:Hhash; [|discriminate].
    simpl in Hrun.
    assert (Hkept : kept (JDict d) found) by (exists d; auto).
    destruct (existsb (PyJson.eqb found) acc) eqn:Hex.
    + destruct (IH acc ids Hrun Hd Hacc) as (H1 & H2 & H3 & H4 & H5).
      splits; try assumption.
      * intros x Hx. destruct (H4 x Hx) as [|[n [Hn Hk]]]; [now left|].
        right. exists n. split; [now right | assumption].
      * intros n x [<-|Hn] Hk; [|now apply (H5 n)].
        destruct Hk as (d' & [= <-] & Hid & Hx).
        assert (x = found) by congruence. subst x.
        apply existsb_exists in Hex. destruct Hex as (a & Ha & Heq).
        exists a. split; [now apply H2 | now rewrite eqb_sym].
    + assert (Hacc' : forall x, In x (acc ++ [found]) ->
                PyJson.hashable x = true /\ PyJson.truthy x = true).
      { intros x Hx. apply in_app_or in Hx.
        destruct Hx as [Hx|[<-|[]]]; [now apply Hacc | now split]. }
      destruct (IH (acc ++ [found]) ids Hrun
                  (py_distinct_snoc acc found Hd Hex) Hacc')
        as (H1 & H2 & H3 & H4 & H5).
      splits; try assumption.
      * intros x Hx. apply H2. apply in_or_app. now left.
      * intros x Hx. destruct (H4 x Hx) as [Hin|[n [Hn Hk]]].
        -- apply in_app_or in Hin. destruct Hin as [Hin|[<-|[]]];
             [now left|]. right. exists (JDict d). split; [now left|assumption].
        -- right. exists n. split; [now right | assumption].
      * intros n x [<-|Hn] Hk; [|now apply (H5 n)].
        destruct Hk as (d' & [= <-] & Hid & Hx).
        assert (x = found) by congruence. subst x.
        exists found. split; [|now apply eqb_refl].
        apply H2. apply in_or_app. right. now left.
Qed.

Lemma get_providers_eq (cfg : config) (net : network)
    (set_order : list json -> list json) (w : world) (pd : provider_data)
    (w' : world) :
  get_user_third_party_data_providers cfg net set_order w = (Return pd, w') ->
  exists nodes ids,
    discovered_nodes cfg net w = Return nodes
    /\ provider_id_set nodes [] = Return ids
    /\ providerIds pd = set_order ids.
Proof.
  unfold get_user_third_party_data_providers, discovered_nodes.
  unfold mbind at 1. rewrite execute_gql_request_eq.
  unfold attempt. rewrite Nat.add_0_r.
  destruct (read_response _) as [[[|] r]| | |]; simpl; try discriminate.
  unfold mbind, lift, ret, raise.
  destruct (PyJson.getitem (data r) "partner") as [partner| | |];
    simpl; try discriminate.
  destruct (PyJson.getitem partner "thirdPartyDataProviders")
    as [providers| | |]; simpl; try discriminate.
  destruct (PyJson.getitem providers "nodes") as [nodes| | |];
    simpl; try discriminate.
  destruct (PyJson.iter nodes) as [node_list| | |]; simpl; try discriminate.
  destruct (provider_id_set node_list []) as [ids| | |] eqn:Hids;
    simpl; try discriminate.
  intros [= <- _]. exists node_list, ids. auto.
Qed.

(** C10. Whatever order the set is walked in, provider discovery returns no
    provider id twice (no two returned ids are equal, in Python's sense or
    as values); every returned id is the truthy 'id' of some node, and every
    node with a truthy 'id' has it returned; a node whose 'id' is missing or
    falsy is passed over without an error (the result is the one obtained
    without that node); and the returned list is the set's elements in the
    order the set happens to be walked in. *)
Theorem provider_discovery_spec (cfg : config) (net : network)
    (set_order : list json -> list json) (w w' : world) (pd : provider_data)
    (Horder : forall l, Permutation (set_order l) l)
    (Hrun : get_user_third_party_data_providers cfg net set_order w
            = (Return pd, w')) :
  exists nodes ids,
    discovered_nodes cfg net w = Return nodes
    /\ provider_id_set nodes [] = Return ids
    /\ providerIds pd = set_order ids
    /\ py_distinct (providerIds pd)
    /\ NoDup (providerIds pd)
    /\ (forall x, In x (providerIds pd) ->
          exists node, In node nodes /\ kept node x)
    /\ (forall node x, In node nodes -> kept node x ->
          exists y, In y (providerIds pd) /\ PyJson.eqb y x = true)
    /\ (forall pre node post, nodes = pre ++ node :: post -> skipped node ->
          provider_id_set (pre ++ post) [] = Return ids).
Proof.
  destruct (get_providers_eq cfg net set_order w pd w' Hrun)
    as (nodes & ids & Hnodes & Hids & Hpd).
  exists nodes, ids.
  destruct (provider_id_set_inv nodes [] ids Hids I)
    as (Hd & _ & Hok & Hfrom & Hcover); [intros x []|].
  assert (Hin : forall x, In x (providerIds pd) <-> In x ids).
  { intros x. rewrite Hpd. split; apply Permutation_in;
      [apply Horder | apply Permutation_sym, Horder]. }
  assert (Hdistinct : py_distinct (providerIds pd)).
  { rewrite Hpd. apply (py_distinct_perm ids);
      [apply Permutation_sym, Horder | exact Hd]. }
  splits; try assumption.
  - apply py_distinct_NoDup; [|exact Hdistinct].
    intros x Hx. apply Hok. now apply Hin.
  - intros x Hx. apply Hin in Hx. destruct (Hfrom x Hx) as [[]|H]. exact H.
  - intros node x Hnode Hk. destruct (Hcover node x Hnode Hk) as (y & Hy & Heq).
    exists y. split; [now apply Hin | exact Heq].
  - intros pre node post -> Hskip.
    now rewrite <- (provider_id_set_skip pre node post [] Hskip).
Qed.

Lemma provider_discovery_spec_witness :
  (forall l : list json, Permutation (rev l) l)
  /\ get_user_third_party_data_providers shipped
       (always (reply true (providers_body sample_nodes))) (@rev json) start
     = (Return {| providerIds := [JStr "b"; JStr "a"] |},
        sent 1 (discovery_request shipped) start)
  /\ exists nodes ids,
       discovered_nodes shipped
         (always (reply true (providers_body sample_nodes))) start
       = Return nodes
       /\ provider_id_set nodes [] = Return ids
       /\ [JStr "b"; JStr "a"] = rev ids
       /\ py_distinct [JStr "b"; JStr "a"]
       /\ NoDup [JStr "b"; JStr "a"]
       /\ (forall x, In x [JStr "b"; JStr "a"] ->
             exists node, In node nodes /\ kept node x)
       /\ (forall node x, In node nodes -> kept node x ->
             exists y, In y [JStr "b"; JStr "a"] /\ PyJson.eqb y x = true)
       /\ (forall pre node post, nodes = pre ++ node :: post ->
             skipped node ->
             provider_id_set (pre ++ post) [] = Return ids).
Proof.
  split; [intros l; apply Permutation_sym, Permutation_rev|].
  split; [vm_compute; reflexivity|].
  apply (provider_discovery_spec shipped
           (always (reply true (providers_body sample_nodes))) (@rev json)
           start (sent 1 (discovery_request shipped) start)
           {| providerIds := [JStr "b"; JStr "a"] |}).
  - intros l. apply Permutation_sym, Permutation_rev.
  - vm_compute. reflexivity.
Defined.

(** ** The orchestrator *)

Lemma keeps_file_ret {A : Type} (a : A) : keeps_file (ret a).
Proof. intros w. reflexivity. Qed.

Lemma keeps_file_lift {A : Type} (r : result A) : keeps_file (lift r).
Proof. intros w. reflexivity. Qed.

Lemma keeps_file_bind {A B : Type} (c : M A) (k : A -> M B) :
  keeps_file c -> (forall a, keeps_file (k a)) -> keeps_file (mbind c k).
Proof.
  intros Hc Hk w. unfold mbind. specialize (Hc w).
  destruct (c w) as [[a| | |] w1]; simpl in *; try assumption.
  now rewrite Hk.
Qed.

#[local] Hint Resolve keeps_file_ret keeps_file_lift : keeps.

Lemma keeps_file_gql cfg net q v : keeps_file (execute_gql_request cfg net q v).
Proof. intros w. now rewrite execute_gql_request_eq. Qed.

Lemma keeps_file_retry cfg net q v pid m fuel : forall t,
  keeps_file (retry_loop cfg net fuel q v pid m t).
Proof.
  induction fuel as [|fuel IH]; intros t; cbn [retry_loop];
    [apply keeps_file_lift|].
  destruct (t <=? m); [|apply keeps_file_lift].
  apply keeps_file_bind; [apply keeps_file_gql|].
  intros [[|] r]; (apply keeps_file_bind;
    [ try apply keeps_file_ret;
      destruct (PyJson.get (data r) "partner" (JDict [])) as [?|[]| |];
      auto with keeps
    | intros [x|]; [apply keeps_file_ret|];
      destruct (t + 1 >? m); [apply keeps_file_lift | apply IH] ]).
Qed.

Lemma keeps_file_round cfg net pid count groups st :
  keeps_file (fetch_round cfg net pid count groups st).
Proof.
  unfold fetch_round. apply keeps_file_bind; [apply keeps_file_lift|].
  intros query. apply keeps_file_bind; [apply keeps_file_retry|].
  intros partner_data. apply keeps_file_lift.
Qed.

Lemma keeps_file_loop cfg net pid count groups fuel : forall st,
  keeps_file (fetch_loop cfg net fuel pid count groups st).
Proof.
  induction fuel as [|fuel IH]; intros st; cbn [fetch_loop];
    [apply keeps_file_lift|].
  destruct (any_has_more _); [|apply keeps_file_ret].
  destruct (active_aliases _); [apply keeps_file_ret|].
  apply keeps_file_bind; [apply keeps_file_round | exact IH].
Qed.

Lemma keeps_file_chunk cfg net fuel call_list :
  keeps_file (fetch_chunk cfg net fuel call_list).
Proof.
  unfold fetch_chunk, get_partner_third_party_data.
  apply keeps_file_bind; [apply keeps_file_lift|]. intros groups.
  apply keeps_file_bind; [apply keeps_file_loop|]. intros st w. reflexivity.
Qed.

Lemma keeps_file_for_each {A : Type} (body : A -> M unit) (l : list A) :
  (forall x, keeps_file (body x)) -> keeps_file (for_each l body).
Proof.
  intros Hbody. induction l as [|x l IH]; simpl; [apply keeps_file_ret|].
  apply keeps_file_bind; [apply Hbody | intros _; exact IH].
Qed.

Lemma keeps_file_providers cfg net set_order :
  keeps_file (get_user_third_party_data_providers cfg net set_order).
Proof.
  unfold get_user_third_party_data_providers.
  apply keeps_file_bind; [apply keeps_file_gql|]. intros [ok r].
  destruct (negb ok); [apply keeps_file_lift|].
  repeat (apply keeps_file_bind; [apply keeps_file_lift|]; intros ?).
  apply keeps_file_ret.
Qed.

(** A loop stops at the first iteration that raises. *)
Lemma for_each_raises {A : Type} (body : A -> M unit) (before : list A)
    (x : A) (after : list A) (e : exn) : forall w0 w1 w2,
  for_each before body w0 = (Return tt, w1) ->
  body x w1 = (Raise e, w2) ->
  for_each (before ++ x :: after) body w0 = (Raise e, w2).
Proof.
  induction before as [|b before IH]; intros w0 w1 w2 Hbefore Hx; simpl in *.
  - injection Hbefore as <-. unfold mbind. now rewrite Hx.
  - unfold mbind in *. destruct (body b w0) as [[[]| | |] w]; try discriminate.
    now apply (IH w w1 w2).
Qed.

(** C9. When the fetch of an outer chunk raises (as it does when the retry
    budget of one of its requests is exhausted), the chunks before it having
    been fetched, the whole run ends with that error at that point: the
    chunks after it are not fetched, and the output file is left as it was
    before the run, so nothing of what was accumulated is written. *)
Theorem run_aborts_on_chunk_failure (cfg : config) (net : network)
    (set_order : list json -> list json) (fuel : nat)
    (w w0 w1 w2 : world) (found : provider_data)
    (before : list (list json)) (chunk : list json)
    (after : list (list json)) (e : exn)
    (Hfound : get_user_third_party_data_providers cfg net set_order w
              = (Return found, w0))
    (Hchunks : partition_list (providerIds found)
                 (partition_total_call_size cfg)
               = Return (before ++ chunk :: after))
    (Hbefore : for_each before (fetch_chunk cfg net fuel) w0 = (Return tt, w1))
    (Hfails : fetch_chunk cfg net fuel chunk w1 = (Raise e, w2)) :
  query_partner_third_party_data cfg net set_order fuel w = (Raise e, w2)
  /\ third_party_data_json w2 = third_party_data_json w.
Proof.
  split.
  - unfold query_partner_third_party_data. unfold mbind at 1. rewrite Hfound.
    unfold mbind at 1, lift at 1. rewrite Hchunks.
    unfold mbind at 1.
    now rewrite (for_each_raises _ before chunk after e w0 w1 w2 Hbefore Hfails).
  - pose proof (keeps_file_providers cfg net set_order w) as H0.
    pose proof (keeps_file_for_each (fetch_chunk cfg net fuel) before
                  (keeps_file_chunk cfg net fuel) w0) as H1.
    pose proof (keeps_file_chunk cfg net fuel chunk w1) as H2.
    rewrite Hfound in H0. rewrite Hbefore in H1. rewrite Hfails in H2.
    simpl in *. congruence.
Qed.

Lemma run_aborts_on_chunk_failure_witness :
  query_partner_third_party_data small fails_on_second_chunk (fun l => l) 5
    start
  = (Raise (Exception "Failed to fetch data for partner p after 1 retries."),
     snd (fetch_chunk small fails_on_second_chunk 5 [JStr "b"]
            (snd (fetch_chunk small fails_on_second_chunk 5 [JStr "a"]
                    (sent 1 (discovery_request small) start)))))
  /\ third_party_data_json
       (snd (fetch_chunk small fails_on_second_chunk 5 [JStr "b"]
               (snd (fetch_chunk small fails_on_second_chunk 5 [JStr "a"]
                       (sent 1 (discovery_request small) start)))))
     = third_party_data_json start.
Proof.
  apply (run_aborts_on_chunk_failure small fails_on_second_chunk
           (fun l => l) 5 start
           (sent 1 (discovery_request small) start)
           (snd (fetch_chunk small fails_on_second_chunk 5 [JStr "a"]
                   (sent 1 (discovery_request small) start)))
           (snd (fetch_chunk small fails_on_second_chunk 5 [JStr "b"]
                   (snd (fetch_chunk small fails_on_second_chunk 5 [JStr "a"]
                           (sent 1 (discovery_request small) start)))))
           {| providerIds := [JStr "a"; JStr "b"] |}
           [[JStr "a"]] [JStr "b"] []).
  - vm_compute. reflexivity.
  - vm_compute. reflexivity.
  - vm_compute. reflexivity.
  - vm_compute. reflexivity.
Defined.

(** ** Dictionaries *)

Section DictFacts.

Context {V : Type}.
Implicit Types (d : dict V) (k : string) (v : V).

Lemma get_set_same d k v : Dict.get (Dict.set d k v) k = Some v.
Proof.
  induction d as [|[k' v'] d IH]; simpl.
  - now rewrite String.eqb_refl.
  - destruct (String.eqb k' k) eqn:Hk; simpl; now rewrite Hk.
Qed.

Lemma get_set_other d k k' v :
  k <> k' -> Dict.get (Dict.set d k v) k' = Dict.get d k'.
Proof.
  intros Hne. induction d as [|[k0 v0] d IH]; simpl.
  - destruct (String.eqb_spec k k'); [contradiction | reflexivity].
  - destruct (String.eqb_spec k0 k) as [->|Hk]; simpl.
    + destruct (String.eqb_spec k k'); [contradiction | reflexivity].
    + now rewrite IH.
Qed.

Lemma keys_set_present d k v :
  In k (Dict.keys d) -> Dict.keys (Dict.set d k v) = Dict.keys d.
Proof.
  unfold Dict.keys. induction d as [|[k' v'] d IH]; simpl; intros Hin.
  - contradiction.
  - destruct (String.eqb_spec k' k) as [->|Hk]; simpl; [reflexivity|].
    f_equal. apply IH. destruct Hin; [contradiction | assumption].
Qed.

Lemma keys_set_absent d k v :
  ~ In k (Dict.keys d) -> Dict.keys (Dict.set d k v) = Dict.keys d ++ [k].
Proof.
  unfold Dict.keys. induction d as [|[k' v'] d IH]; simpl; intros Hin.
  - reflexivity.
  - destruct (String.eqb_spec k' k) as [->|Hk]; simpl.
    + exfalso. apply Hin. now left.
    + f_equal. apply IH. intros H. apply Hin. now right.
Qed.

Lemma get_in d k v : Dict.get d k = Some v -> In (k, v) d.
Proof.
  induction d as [|[k' v'] d IH]; simpl; [discriminate|].
  destruct (String.eqb_spec k' k) as [->|Hk].
  - intros [= ->]. now left.
  - intros H. right. now apply IH.
Qed.

Lemma in_get d k v :
  NoDup (Dict.keys d) -> In (k, v) d -> Dict.get d k = Some v.
Proof.
  unfold Dict.keys. induction d as [|[k' v'] d IH]; simpl; intros Hnd Hin.
  - contradiction.
  - inversion Hnd as [|? ? Hk' Hnd']; subst.
    destruct Hin as [[= -> ->]|Hin].
    + now rewrite String.eqb_refl.
    + destruct (String.eqb_spec k' k) as [->|Hk]; [|now apply IH].
      exfalso. apply Hk'. change k with (fst (k, v)). now apply in_map.
Qed.

Lemma get_none d k : ~ In k (Dict.keys d) -> Dict.get d k = None.
Proof.
  unfold Dict.keys. induction d as [|[k' v'] d IH]; simpl; intros Hin.
  - reflexivity.
  - destruct (String.eqb_spec k' k) as [->|Hk].
    + exfalso. apply Hin. now left.
    + apply IH. intros H. apply Hin. now right.
Qed.

Lemma get_some_key d k v : Dict.get d k = Some v -> In k (Dict.keys d).
Proof.
  intros H. apply get_in in H. unfold Dict.keys.
  change k with (fst (k, v)). now apply in_map.
Qed.

End DictFacts.

Lemma active_aliases_in (d : dict json) (a : string) :
  In a (active_aliases d) <->
  exists v, In (a, v) d /\ PyJson.truthy v = true.
Proof.
  unfold active_aliases. rewrite in_map_iff. split.
  - intros [[k v] [<- Hin]]. apply filter_In in Hin. now exists v.
  - intros [v [Hin Hv]]. exists (a, v). split; [reflexivity|].
    now apply filter_In.
Qed.

Lemma active_aliases_get (d : dict json) (a : string) :
  NoDup (Dict.keys d) ->
  (In a (active_aliases d) <->
   exists v, Dict.get d a = Some v /\ PyJson.truthy v = true).
Proof.
  intros Hnd. rewrite active_aliases_in. split; intros [v [H Hv]]; exists v;
    (split; [|exact Hv]).
  - now apply in_get.
  - now apply get_in.
Qed.

Lemma active_aliases_keys (d : dict json) :
  incl (active_aliases d) (Dict.keys d).
Proof.
  intros a Ha. apply active_aliases_in in Ha. destruct Ha as [v [Hin _]].
  unfold Dict.keys. change a with (fst (a, v)). now apply in_map.
Qed.

Lemma active_aliases_NoDup (d : dict json) :
  NoDup (Dict.keys d) -> NoDup (active_aliases d).
Proof.
  unfold active_aliases, Dict.keys.
  induction d as [|[k v] d IH]; simpl; intros Hnd; [constructor|].
  inversion Hnd as [|? ? Hk Hnd']; subst.
  destruct (PyJson.truthy v); simpl; [|now apply IH].
  constructor; [|now apply IH].
  intros Hin. apply Hk. apply in_map_iff in Hin.
  destruct Hin as [[k' v'] [<- Hin]]. apply filter_In in Hin.
  apply in_map_iff. exists (k', v'). now split.
Qed.

(** ** The multi-alias fetch loop *)

Lemma process_aliases_spec (pd : json) : forall active st st',
  process_aliases pd active st = Return st' ->
  NoDup active ->
  (forall a, In a active ->
     exists pg, read_page pd a = Return pg
                /\ Dict.get (alias_has_more_map st') a = Some (has_next_page pg)
                /\ Dict.get (alias_cursor_map st') a = Some (end_cursor pg))
  /\ (forall a, ~ In a active ->
        Dict.get (alias_has_more_map st') a = Dict.get (alias_has_more_map st) a
        /\ Dict.get (alias_cursor_map st') a = Dict.get (alias_cursor_map st) a)
  /\ (incl active (Dict.keys (alias_has_more_map st)) ->
        Dict.keys (alias_has_more_map st') = Dict.keys (alias_has_more_map st)).
Proof.
  induction active as [|a rest IH]; intros st st' Hrun Hnd; simpl in Hrun.
  - injection Hrun as <-. splits; auto. intros a [].
  - destruct (read_page pd a) as [pg| | |] eqn:Hpage; simpl in Hrun;
      try discriminate.
    inversion Hnd as [|? ? Ha Hnd']; subst.
    destruct (IH _ st' Hrun Hnd') as (Hin & Hout & Hkeys). simpl in *.
    splits.
    + intros b [<-|Hb]; [|now apply Hin].
      exists pg. destruct (Hout a Ha) as [-> ->].
      rewrite !get_set_same. auto.
    + intros b Hb.
      destruct (Hout b) as [-> ->]; [intros H; apply Hb; now right|].
      rewrite !get_set_other by (intros ->; apply Hb; now left). now split.
    + intros Hincl. rewrite Hkeys.
      * apply keys_set_present. apply Hincl. now left.
      * rewrite keys_set_present by (apply Hincl; now left).
        intros b Hb. apply Hincl. now right.
Qed.

Lemma fetch_round_eq (cfg : config) (net : network) (pid : string)
    (count : Z) (groups : list (list json)) (st st' : fetch_state)
    (w w' : world) :
  fetch_round cfg net pid count groups st w = (Return st', w') ->
  exists q partner_data,
    combined_query groups (alias_cursor_map st)
      (active_aliases (alias_has_more_map st)) = Return q
    /\ execute_with_retries cfg net q (round_variables pid count) pid
         (max_retries cfg) w = (Return partner_data, w')
    /\ process_aliases partner_data (active_aliases (alias_has_more_map st)) st
       = Return st'.
Proof.
  unfold fetch_round, round_variables. unfold mbind at 1, lift at 1.
  destruct (combined_query _ _ _) as [q| | |]; try discriminate.
  unfold mbind.
  destruct (execute_with_retries _ _ _ _ _ _ _) as [[pd| | |] w1] eqn:Hexec;
    try discriminate.
  unfold lift. intros [= H <-]. exists q, pd. auto.
Qed.

(** C5, as the code has it.  After a round, an alias that was active is
    active in the next round exactly when the hasNextPage the response gave
    for it is truthy; the end cursor the response gave, null or not, is
    stored for the alias and plays no part in that. *)
Theorem next_round_activity (cfg : config) (net : network) (pid : string)
    (count : Z) (groups : list (list json)) (st st' : fetch_state)
    (w w' : world) (alias : string)
    (Hkeys : NoDup (Dict.keys (alias_has_more_map st)))
    (Hround : fetch_round cfg net pid count groups st w = (Return st', w'))
    (Hactive : In alias (active_aliases (alias_has_more_map st))) :
  exists q partner_data pg,
    execute_with_retries cfg net q (round_variables pid count) pid
      (max_retries cfg) w = (Return partner_data, w')
    /\ read_page partner_data alias = Return pg
    /\ Dict.get (alias_cursor_map st') alias = Some (end_cursor pg)
    /\ Dict.get (alias_has_more_map st') alias = Some (has_next_page pg)
    /\ (In alias (active_aliases (alias_has_more_map st'))
        <-> PyJson.truthy (has_next_page pg) = true).
Proof.
  destruct (fetch_round_eq _ _ _ _ _ _ _ _ _ Hround)
    as (q & pd & _ & Hexec & Hproc).
  destruct (process_aliases_spec pd _ st st' Hproc
              (active_aliases_NoDup _ Hkeys)) as (Hin & _ & Hk).
  destruct (Hin alias Hactive) as (pg & Hpage & Hmore & Hcur).
  exists q, pd, pg. splits; try assumption.
  rewrite active_aliases_get
    by (rewrite Hk; [exact Hkeys | apply active_aliases_keys]).
  rewrite Hmore. split.
  - now intros [v [[= <-] Hv]].
  - intros Hv. now exists (has_next_page pg).
Qed.

Lemma next_round_activity_witness :
  exists q partner_data pg,
    execute_with_retries shipped
      (same_page_forever (JBool false) (JStr "c")) q
      (round_variables "p" 1000) "p" (max_retries shipped) start
    = (Return partner_data,
       snd (fetch_round shipped (same_page_forever (JBool false) (JStr "c"))
              "p" 1000 [[JStr "a"]] (initial_state [[JStr "a"]]) start))
    /\ read_page partner_data "mygroup_1_alias" = Return pg
    /\ Dict.get [("mygroup_1_alias", JStr "c")] "mygroup_1_alias"
       = Some (end_cursor pg)
    /\ Dict.get [("mygroup_1_alias", JBool false)] "mygroup_1_alias"
       = Some (has_next_page pg)
    /\ (In "mygroup_1_alias"
          (active_aliases [("mygroup_1_alias", JBool false)])
        <-> PyJson.truthy (has_next_page pg) = true).
Proof.
  apply (next_round_activity shipped
           (same_page_forever (JBool false) (JStr "c")) "p" 1000
           [[JStr "a"]] (initial_state [[JStr "a"]])
           {| third_party_data_list := [JInt 1];
              alias_has_more_map := [("mygroup_1_alias", JBool false)];
              alias_cursor_map := [("mygroup_1_alias", JStr "c")] |}
           start
           (snd (fetch_round shipped
                   (same_page_forever (JBool false) (JStr "c"))
                   "p" 1000 [[JStr "a"]] (initial_state [[JStr "a"]]) start))
           "mygroup_1_alias").
  - vm_compute. repeat constructor. intros [].
  - vm_compute. reflexivity.
  - vm_compute. left. reflexivity.
Defined.

(** C5 fails as stated: the response of the round gives the alias a null end
    cursor together with a true hasNextPage; the null cursor is stored, and
    the alias is still in the active set of the next round. *)
Lemma null_cursor_alias_stays_active :
  exists st' w',
    fetch_round shipped (same_page_forever (JBool true) JNull) "p" 1000
      [[JStr "a"]] (initial_state [[JStr "a"]]) start = (Return st', w')
    /\ Dict.get (alias_cursor_map st') "mygroup_1_alias" = Some JNull
    /\ active_aliases (alias_has_more_map st') = ["mygroup_1_alias"].
Proof.
  eexists. eexists. split; [vm_compute; reflexivity|].
  split; vm_compute; reflexivity.
Qed.

Lemma retry_loop_posts (cfg : config) (net : network) (q : string) (v : json)
    (pid : string) (m : Z) (fuel : nat) : forall t w,
  exists k, snd (retry_loop cfg net fuel q v pid m t w)
            = sent k (gql_request cfg q v) w.
Proof.
  induction fuel as [|fuel IH]; intros t w.
  - exists O. simpl. now rewrite sent_0.
  - destruct (Z.le_gt_cases t m) as [Ht|Ht].
    + rewrite retry_loop_S by exact Ht. cbv zeta.
      assert (Hcont : exists k,
                snd (if t + 1 >? m
                     then (Raise (retries_exhausted pid m),
                           sent 1 (gql_request cfg q v) w)
                     else retry_loop cfg net fuel q v pid m (t + 1)
                            (sent 1 (gql_request cfg q v) w))
                = sent k (gql_request cfg q v) w).
      { destruct (t + 1 >? m); [now exists 1%nat|].
        destruct (IH (t + 1) (sent 1 (gql_request cfg q v) w)) as [k Hk].
        exists (1 + k)%nat. now rewrite Hk, sent_sent. }
      destruct (attempt net (gql_request cfg q v) w 0) as [[[|] r]|e| |];
        try (now exists 1%nat); try exact Hcont.
      destruct (data r); try exact Hcont. now exists 1%nat.
    + exists O. cbn [retry_loop]. destruct (Z.leb_spec t m); [lia|].
      simpl. now rewrite sent_0.
Qed.

Lemma fetch_round_inactive (cfg : config) (net : network) (pid : string)
    (count : Z) (groups : list (list json)) (st st' : fetch_state)
    (w w' : world) :
  NoDup (Dict.keys (alias_has_more_map st)) ->
  fetch_round cfg net pid count groups st w = (Return st', w') ->
  Dict.keys (alias_has_more_map st') = Dict.keys (alias_has_more_map st)
  /\ (forall a, ~ In a (active_aliases (alias_has_more_map st)) ->
        Dict.get (alias_has_more_map st') a
        = Dict.get (alias_has_more_map st) a)
  /\ exists q k,
       combined_query groups (alias_cursor_map st)
         (active_aliases (alias_has_more_map st)) = Return q
       /\ w' = sent k (gql_request cfg q (round_variables pid count)) w.
Proof.
  intros Hkeys Hround.
  destruct (fetch_round_eq _ _ _ _ _ _ _ _ _ Hround)
    as (q & pd & Hq & Hexec & Hproc).
  destruct (process_aliases_spec pd _ st st' Hproc
              (active_aliases_NoDup _ Hkeys)) as (_ & Hout & Hk).
  splits.
  - apply Hk, active_aliases_keys.
  - intros a Ha. now apply Hout.
  - exists q.
    destruct (retry_loop_posts cfg net q (round_variables pid count) pid
                (max_retries cfg) (S (Z.to_nat (max_retries cfg + 1))) 0 w)
      as [k Hk'].
    exists k. split; [exact Hq|].
    unfold execute_with_retries in Hexec. rewrite Hexec in Hk'. exact Hk'.
Qed.

(** What the loop returns, it reached by some number of rounds. *)
Lemma fetch_loop_by_rounds (cfg : config) (net : network) (pid : string)
    (count : Z) (groups : list (list json)) (fuel : nat) :
  forall (st st' : fetch_state) (w w' : world),
    fetch_loop cfg net fuel pid count groups st w = (Return st', w') ->
    exists n, run_rounds cfg net n pid count groups st w = (Return st', w').
Proof.
  induction fuel as [|fuel IH]; intros st st' w w' Hloop;
    cbn [fetch_loop] in Hloop; [discriminate|].
  destruct (any_has_more (alias_has_more_map st));
    [|exists O; exact Hloop].
  destruct (active_aliases (alias_has_more_map st));
    [exists O; exact Hloop|].
  unfold mbind in Hloop.
  destruct (fetch_round cfg net pid count groups st w)
    as [[st1| | |] w1] eqn:Hround; try discriminate.
  destruct (IH st1 st' w1 w' Hloop) as [n Hn].
  exists (S n). cbn [run_rounds]. unfold mbind. now rewrite Hround.
Qed.

Lemma falsy_not_active (d : dict json) (a : string) (v : json) :
  NoDup (Dict.keys d) -> Dict.get d a = Some v -> PyJson.truthy v = false ->
  ~ In a (active_aliases d).
Proof.
  intros Hnd Hget Hv Hin. apply (active_aliases_get d a Hnd) in Hin.
  destruct Hin as [v' [Hget' Hv']]. congruence.
Qed.

(** ** Alias labels *)

Lemma to_uint_not_nil (n : nat) : Nat.to_uint n <> Nil.
Proof.
  rewrite <- (DecimalNat.Unsigned.of_to n) at 1.
  rewrite DecimalNat.Unsigned.to_of. unfold unorm.
  destruct (nzhead (Nat.to_uint n)); discriminate.
Qed.

Lemma of_nat_digits (n : nat) :
  PyStr.of_nat n = NilEmpty.string_of_uint (Nat.to_uint n).
Proof.
  unfold PyStr.of_nat, NilZero.string_of_uint.
  pose proof (to_uint_not_nil n). now destruct (Nat.to_uint n).
Qed.

Lemma to_int_of_nat (n : nat) : PyStr.to_int (PyStr.of_nat n) = Return (Z.of_nat n).
Proof.
  rewrite of_nat_digits. unfold PyStr.to_int.
  rewrite NilEmpty.usu, DecimalNat.Unsigned.of_to.
  pose proof (to_uint_not_nil n). now destruct (Nat.to_uint n).
Qed.

Lemma digits_free (d : uint) : free_of "_" (NilEmpty.string_of_uint d).
Proof. induction d; simpl; auto. Qed.

Lemma split_free (sep : ascii) (s t : string) :
  free_of sep s ->
  PyStr.split sep (s ++ String sep t) = s :: PyStr.split sep t.
Proof.
  induction s as [|c s IH]; simpl.
  - intros _. now rewrite Ascii.eqb_refl.
  - intros [Hc Hs]. rewrite Hc, (IH Hs). reflexivity.
Qed.

Lemma split_free_end (sep : ascii) (s : string) :
  free_of sep s -> PyStr.split sep s = [s].
Proof.
  induction s as [|c s IH]; simpl; [reflexivity|].
  intros [Hc Hs]. now rewrite Hc, (IH Hs).
Qed.

Lemma alias_label_eq (idx : nat) :
  alias_label idx
  = ("mygroup" ++ String "_" (PyStr.of_nat (S idx) ++ String "_" "alias"))%string.
Proof.
  unfold alias_label, PyStr.of_Z.
  replace (Z.of_nat idx + 1) with (Z.of_nat (S idx)) by lia.
  destruct (Z.of_nat (S idx)) eqn:Hz; try lia;
    rewrite <- Hz, Nat2Z.id; reflexivity.
Qed.

Lemma alias_label_split (idx : nat) :
  PyStr.split "_" (alias_label idx)
  = ["mygroup"; PyStr.of_nat (S idx); "alias"].
Proof.
  rewrite alias_label_eq.
  rewrite split_free by (simpl; repeat split; reflexivity).
  rewrite split_free by (rewrite of_nat_digits; apply digits_free).
  rewrite split_free_end by (simpl; repeat split; reflexivity).
  reflexivity.
Qed.

(** The index the loop reads back from a label is the index the label was
    made from. *)
Lemma alias_label_index (idx : nat) :
  (number <~ Py.index (PyStr.split "_" (alias_label idx)) 1 ;;
   parsed <~ PyStr.to_int number ;;
   Return (parsed - 1))
  = Return (Z.of_nat idx).
Proof.
  rewrite alias_label_split.
  change (Py.index ["mygroup"; PyStr.of_nat (S idx); "alias"] 1)
    with (Return (PyStr.of_nat (S idx))).
  cbn [bind]. rewrite to_int_of_nat. cbn [bind]. f_equal. lia.
Qed.

Lemma alias_label_inj (i j : nat) : alias_label i = alias_label j -> i = j.
Proof.
  intros H. pose proof (alias_label_index i) as Hi.
  rewrite H, alias_label_index in Hi. injection Hi. lia.
Qed.

Lemma alias_labels_NoDup (l : list nat) :
  NoDup l -> NoDup (map alias_label l).
Proof.
  intros Hl. apply Finite.Injective_map_NoDup; [|exact Hl].
  intros i j. apply alias_label_inj.
Qed.

Lemma index_nth {A : Type} (l : list A) (i : nat) (x : A) :
  nth_error l i = Some x -> Py.index l (Z.of_nat i) = Return x.
Proof.
  intros Hx. unfold Py.index, Py.len.
  assert (i < length l)%nat by (apply nth_error_Some; congruence).
  destruct (Z.ltb_spec (Z.of_nat i) 0); [lia|].
  destruct (Z.leb_spec 0 (Z.of_nat i)); [|lia].
  destruct (Z.ltb_spec (Z.of_nat i) (Z.of_nat (length l))); [|lia].
  simpl. now rewrite Nat2Z.id, Hx.
Qed.

Lemma key_get {V : Type} (d : dict V) (k : string) :
  In k (Dict.keys d) -> exists v, Dict.get d k = Some v.
Proof.
  unfold Dict.keys. induction d as [|[k' v'] d IH]; simpl; [intros []|].
  intros Hin. destruct (String.eqb_spec k' k) as [->|Hk]; [now exists v'|].
  apply IH. destruct Hin; [contradiction | assumption].
Qed.

Lemma append_subqueries_ok (groups : list (list json)) (cursors : dict json) :
  forall (idxs : list nat) (q0 : string),
    (forall i, In i idxs ->
       (i < length groups)%nat /\ In (alias_label i) (Dict.keys cursors)) ->
    exists q, append_subqueries groups cursors (map alias_label idxs) q0
              = Return q.
Proof.
  induction idxs as [|i idxs IH]; intros q0 Hok; cbn [map append_subqueries].
  - now exists q0.
  - destruct (Hok i (or_introl eq_refl)) as [Hi Hkey].
    rewrite alias_label_split.
    change (Py.index ["mygroup"; PyStr.of_nat (S i); "alias"] 1)
      with (Return (PyStr.of_nat (S i))).
    cbn [bind]. rewrite to_int_of_nat. cbn [bind].
    replace (Z.of_nat (S i) - 1) with (Z.of_nat i) by lia.
    destruct (nth_error groups i) as [g|] eqn:Hg;
      [|apply nth_error_None in Hg; lia].
    rewrite (index_nth groups i g Hg). cbn [bind].
    destruct (key_get cursors _ Hkey) as [c ->]. cbn [bind].
    apply IH. intros j Hj. apply Hok. now right.
Qed.

(** ** Rounds against a well-behaved upstream *)

Lemma active_aliases_filter_keys (d : dict json) :
  NoDup (Dict.keys d) ->
  active_aliases d
  = filter (fun k => match Dict.get d k with
                     | Some v => PyJson.truthy v
                     | None => false
                     end) (Dict.keys d).
Proof.
  unfold active_aliases, Dict.keys.
  induction d as [|[k v] d IH]; intros Hnd; [reflexivity|].
  inversion Hnd as [|? ? Hk Hnd']; subst.
  cbn [filter map fst snd Dict.get]. rewrite String.eqb_refl.
  rewrite (filter_ext_in _ (fun k' => match Dict.get d k' with
                                      | Some v' => PyJson.truthy v'
                                      | None => false
                                      end) (map fst d)).
  - destruct (PyJson.truthy v); cbn [map fst]; now rewrite IH.
  - intros k' Hk'. destruct (String.eqb_spec k k') as [->|]; [|reflexivity].
    contradiction.
Qed.

Lemma filter_map_comm {A B : Type} (f : B -> bool) (g : A -> B) (l : list A) :
  filter f (map g l) = map g (filter (fun x => f (g x)) l).
Proof.
  induction l as [|x l IH]; simpl; [reflexivity|].
  destruct (f (g x)); simpl; now rewrite IH.
Qed.

Lemma alias_keys_NoDup (n : nat) : NoDup (map alias_label (seq 0 n)).
Proof. apply alias_labels_NoDup, seq_NoDup. Qed.

Lemma active_of_ok (pages : list (list (list json)))
    (cursor : nat -> nat -> json) (r : nat) (st : fetch_state) :
  round_state_ok pages cursor r st ->
  active_aliases (alias_has_more_map st)
  = map alias_label (active_indices pages r).
Proof.
  intros (_ & Hkeys & _ & Hflags & _).
  rewrite active_aliases_filter_keys by (rewrite Hkeys; apply alias_keys_NoDup).
  rewrite Hkeys, filter_map_comm. unfold active_indices. f_equal.
  apply filter_ext_in. intros i Hi. apply in_seq in Hi.
  destruct (Hflags i) as (f & -> & Hf); [lia | exact Hf].
Qed.

Lemma any_has_more_active (d : dict json) :
  any_has_more d = match active_aliases d with
                   | [] => false
                   | _ :: _ => true
                   end.
Proof.
  unfold any_has_more, active_aliases, Dict.values.
  induction d as [|[k v] d IH]; simpl; [reflexivity|].
  destruct (PyJson.truthy v); simpl; [reflexivity | exact IH].
Qed.

Lemma flat_map_seq_nth {A B : Type} (f : A -> list B) (l : list A) (d : A) :
  flat_map f l = flat_map (fun i => f (nth i l d)) (seq 0 (length l)).
Proof.
  induction l as [|x l IH]; simpl; [reflexivity|].
  f_equal. rewrite <- seq_shift, !flat_map_concat_map, map_map.
  rewrite <- !flat_map_concat_map. exact IH.
Qed.

Lemma flat_map_filter_nil {A B : Type} (f : A -> list B) (g : A -> bool)
    (l : list A) :
  (forall x, In x l -> g x = false -> f x = []) ->
  flat_map f (filter g l) = flat_map f l.
Proof.
  induction l as [|x l IH]; simpl; intros Hnil; [reflexivity|].
  destruct (g x) eqn:Hg; simpl.
  - f_equal. apply IH. intros y Hy. apply Hnil. now right.
  - rewrite (Hnil x (or_introl eq_refl) Hg). simpl.
    apply IH. intros y Hy. apply Hnil. now right.
Qed.

Lemma round_major_S (pages : list (list (list json))) (r : nat) :
  round_major pages (S r)
  = round_major pages r
    ++ flat_map (fun i => nth r (nth i pages []) []) (active_indices pages r).
Proof.
  unfold round_major. rewrite seq_S, flat_map_app. cbn [flat_map Nat.add].
  rewrite app_nil_r. f_equal.
  rewrite (flat_map_seq_nth (fun pgs => nth r pgs []) pages []).
  unfold active_indices. symmetry. apply flat_map_filter_nil.
  intros i _ Hi. apply Nat.ltb_ge in Hi. now apply nth_overflow.
Qed.

Lemma process_aliases_indices (pd : json) (nodes : nat -> list json) :
  forall (idxs : list nat) (st : fetch_state),
    (forall i, In i idxs ->
       exists pg, read_page pd (alias_label i) = Return pg
                  /\ page_nodes pg = nodes i) ->
    exists st',
      process_aliases pd (map alias_label idxs) st = Return st'
      /\ third_party_data_list st'
         = third_party_data_list st ++ flat_map nodes idxs.
Proof.
  induction idxs as [|i idxs IH]; intros st Hpages; cbn [map process_aliases].
  - exists st. now rewrite app_nil_r.
  - destruct (Hpages i (or_introl eq_refl)) as (pg & -> & Hnodes).
    cbn [bind].
    destruct (IH {| third_party_data_list :=
                      third_party_data_list st ++ page_nodes pg;
                    alias_has_more_map :=
                      Dict.set (alias_has_more_map st) (alias_label i)
                        (has_next_page pg);
                    alias_cursor_map :=
                      Dict.set (alias_cursor_map st) (alias_label i)
                        (end_cursor pg) |})
      as (st' & Hrun & Hlist).
    + intros j Hj. apply Hpages. now right.
    + exists st'. split; [exact Hrun|].
      rewrite Hlist. cbn [third_party_data_list flat_map].
      now rewrite Hnodes, app_assoc.
Qed.

Lemma process_aliases_cursor_keys (pd : json) : forall active st st',
  process_aliases pd active st = Return st' ->
  incl active (Dict.keys (alias_cursor_map st)) ->
  Dict.keys (alias_cursor_map st') = Dict.keys (alias_cursor_map st).
Proof.
  induction active as [|a rest IH]; intros st st' Hrun Hincl; simpl in Hrun.
  - now injection Hrun as <-.
  - destruct (read_page pd a) as [pg| | |]; simpl in Hrun; try discriminate.
    rewrite (IH _ st' Hrun); cbn [alias_cursor_map].
    + apply keys_set_present. apply Hincl. now left.
    + rewrite keys_set_present by (apply Hincl; now left).
      intros b Hb. apply Hincl. now right.
Qed.

Lemma active_indices_in (pages : list (list (list json))) (i r : nat) :
  In i (active_indices pages r)
  <-> (i < length pages)%nat /\ (r < page_count pages i)%nat.
Proof.
  unfold active_indices. rewrite filter_In, in_seq, Nat.ltb_lt. lia.
Qed.

Lemma active_label_in (pages : list (list (list json))) (i r : nat) :
  In (alias_label i) (map alias_label (active_indices pages r))
  <-> In i (active_indices pages r).
Proof.
  rewrite in_map_iff. split.
  - intros (j & Hj & Hin). apply alias_label_inj in Hj. now subst.
  - intros Hin. now exists i.
Qed.

Lemma append_assoc (a b c : string) :
  ((a ++ b) ++ c)%string = (a ++ (b ++ c))%string.
Proof. induction a as [|x a IH]; simpl; [reflexivity | now rewrite IH]. Qed.

Lemma append_empty (a : string) : (a ++ "")%string = a.
Proof. induction a as [|x a IH]; simpl; [reflexivity | now rewrite IH]. Qed.

Lemma index_nth_inv {A : Type} (l : list A) (i : nat) (x : A) :
  Py.index l (Z.of_nat i) = Return x -> nth_error l i = Some x.
Proof.
  unfold Py.index, Py.len.
  destruct (Z.ltb_spec (Z.of_nat i) 0); [lia|].
  destruct ((0 <=? Z.of_nat i) && (Z.of_nat i <? Z.of_nat (length l)));
    [|discriminate].
  rewrite Nat2Z.id. destruct (nth_error l i); [|discriminate].
  now intros [= ->].
Qed.

(** A combined query that could be built is the text of its sub-queries. *)
Lemma append_subqueries_built (groups : list (list json))
    (cursors : dict json) :
  forall (idxs : list nat) (q0 q : string),
    append_subqueries groups cursors (map alias_label idxs) q0 = Return q ->
    q = (q0 ++ texts (map (subquery_of groups cursors) idxs))%string.
Proof.
  induction idxs as [|i idxs IH]; intros q0 q; cbn [map append_subqueries].
  - intros [= <-]. unfold texts. simpl. now rewrite append_empty.
  - rewrite alias_label_split.
    change (Py.index ["mygroup"; PyStr.of_nat (S i); "alias"] 1)
      with (Return (PyStr.of_nat (S i))).
    cbn [bind]. rewrite to_int_of_nat. cbn [bind].
    replace (Z.of_nat (S i) - 1) with (Z.of_nat i) by lia.
    destruct (Py.index groups (Z.of_nat i)) as [g| | |] eqn:Hg;
      try discriminate.
    apply index_nth_inv in Hg. cbn [bind].
    destruct (Dict.get cursors (alias_label i)) as [c|] eqn:Hc;
      [|discriminate].
    cbn [bind]. intros Hq. rewrite (IH _ _ Hq).
    unfold texts. cbn [map fold_right]. rewrite append_assoc.
    unfold subquery_of at 2. rewrite Hc, (nth_error_nth _ _ _ Hg).
    reflexivity.
Qed.

Lemma combined_query_built (groups : list (list json)) (cursors : dict json)
    (idxs : list nat) (q : string) :
  combined_query groups cursors (map alias_label idxs) = Return q ->
  q = (query_header ++ texts (map (subquery_of groups cursors) idxs)
       ++ query_footer)%string.
Proof.
  unfold combined_query.
  destruct (append_subqueries groups cursors (map alias_label idxs)
              query_header) as [body| | |] eqn:Hbody; try discriminate.
  cbn [bind]. intros [= <-].
  rewrite (append_subqueries_built _ _ _ _ _ Hbody). apply append_assoc.
Qed.

(** An exhausted alias through [n] more rounds: its flag and the active
    set. *)
Lemma exhausted_rounds (cfg : config) (net : network) (pid : string)
    (count : Z) (groups : list (list json)) (alias : string) (v : json)
    (n : nat) : forall (st st' : fetch_state) (w w' : world),
  NoDup (Dict.keys (alias_has_more_map st)) ->
  Dict.get (alias_has_more_map st) alias = Some v ->
  PyJson.truthy v = false ->
  run_rounds cfg net n pid count groups st w = (Return st', w') ->
  Dict.get (alias_has_more_map st') alias = Some v
  /\ ~ In alias (active_aliases (alias_has_more_map st')).
Proof.
  induction n as [|n IH]; intros st st' w w' Hkeys Hflag Hfalse Hrounds.
  - simpl in Hrounds. injection Hrounds as <- <-.
    split; [exact Hflag | now apply (falsy_not_active _ _ v)].
  - simpl in Hrounds. unfold mbind in Hrounds.
    destruct (fetch_round cfg net pid count groups st w)
      as [[st1| | |] w1] eqn:Hround; try discriminate.
    destruct (fetch_round_inactive _ _ _ _ _ _ _ _ _ Hkeys Hround)
      as (Hk1 & Hout & _).
    pose proof (falsy_not_active _ _ v Hkeys Hflag Hfalse) as Hinactive.
    apply (IH st1 st' w1 w'); try assumption.
    + now rewrite Hk1.
    + now rewrite (Hout alias Hinactive).
Qed.

(** The active aliases of a state of the loop, as group numbers. *)
Lemma active_aliases_indices (d : dict json) (n : nat) :
  Dict.keys d = map alias_label (seq 0 n) ->
  active_aliases d
  = map alias_label
      (filter (fun i => match Dict.get d (alias_label i) with
                        | Some v => PyJson.truthy v
                        | None => false
                        end) (seq 0 n)).
Proof.
  intros Hkeys.
  rewrite active_aliases_filter_keys by (rewrite Hkeys; apply alias_keys_NoDup).
  now rewrite Hkeys, filter_map_comm.
Qed.

(** The requests of [n] more rounds, in a loop over the aliases of
    [groups]: no combined query has a sub-query under an exhausted alias. *)
Lemma exhausted_queries (cfg : config) (net : network) (pid : string)
    (count : Z) (groups : list (list json)) (alias : string) (v : json)
    (n : nat) : forall (st st' : fetch_state) (w w' : world),
  Dict.keys (alias_has_more_map st) = map alias_label (seq 0 (length groups)) ->
  Dict.get (alias_has_more_map st) alias = Some v ->
  PyJson.truthy v = false ->
  run_rounds cfg net n pid count groups st w = (Return st', w') ->
  exists later : list request,
    posts w' = posts w ++ later
    /\ forall req, In req later ->
         exists cursors idxs,
           ~ In alias (map alias_label idxs)
           /\ req = gql_request cfg
                      (query_header
                       ++ texts (map (subquery_of groups cursors) idxs)
                       ++ query_footer)
                      (round_variables pid count).
Proof.
  induction n as [|n IH]; intros st st' w w' Hlabels Hflag Hfalse Hrounds.
  - simpl in Hrounds. injection Hrounds as <- <-.
    exists []. split; [now rewrite app_nil_r | intros req []].
  - simpl in Hrounds. unfold mbind in Hrounds.
    destruct (fetch_round cfg net pid count groups st w)
      as [[st1| | |] w1] eqn:Hround; try discriminate.
    assert (Hkeys : NoDup (Dict.keys (alias_has_more_map st)))
      by (rewrite Hlabels; apply alias_keys_NoDup).
    destruct (fetch_round_inactive _ _ _ _ _ _ _ _ _ Hkeys Hround)
      as (Hk1 & Hout & q & k & Hq & ->).
    pose proof (falsy_not_active _ _ v Hkeys Hflag Hfalse) as Hinactive.
    destruct (IH st1 st' _ w' ltac:(now rewrite Hk1)
                ltac:(now rewrite (Hout alias Hinactive)) Hfalse Hrounds)
      as (later & Hposts & Hlater).
    exists (repeat (gql_request cfg q (round_variables pid count)) k ++ later).
    split.
    + rewrite Hposts. simpl. now rewrite app_assoc.
    + intros req Hreq. apply in_app_or in Hreq. destruct Hreq as [Hreq|Hreq];
        [|now apply Hlater].
      apply repeat_spec in Hreq. subst req.
      rewrite (active_aliases_indices _ _ Hlabels) in Hq, Hinactive.
      eexists (alias_cursor_map st), _. split; [exact Hinactive|].
      now rewrite (combined_query_built _ _ _ _ Hq).
Qed.

(** C6. Once the has-more flag of an alias is false, it stays as it is
    through every later round, and the alias is in the active set of none of
    them; and in the loop over the aliases of the groups, every request
    posted in those rounds carries a combined query that is the header, the
    sub-queries of some groups and the footer, none of these sub-queries
    being under the alias. *)
Theorem exhausted_alias_stays_exhausted (cfg : config) (net : network)
    (pid : string) (count : Z) (groups : list (list json)) (alias : string)
    (v : json) (n : nat) (st st' : fetch_state) (w w' : world)
    (Hkeys : NoDup (Dict.keys (alias_has_more_map st)))
    (Hflag : Dict.get (alias_has_more_map st) alias = Some v)
    (Hfalse : PyJson.truthy v = false)
    (Hrounds : run_rounds cfg net n pid count groups st w = (Return st', w')) :
  Dict.get (alias_has_more_map st') alias = Some v
  /\ ~ In alias (active_aliases (alias_has_more_map st'))
  /\ (Dict.keys (alias_has_more_map st)
      = map alias_label (seq 0 (length groups)) ->
      exists later : list request,
        posts w' = posts w ++ later
        /\ forall req, In req later ->
             exists cursors idxs,
               ~ In alias (map alias_label idxs)
               /\ req = gql_request cfg
                          (query_header
                           ++ texts (map (subquery_of groups cursors) idxs)
                           ++ query_footer)
                          (round_variables pid count)).
Proof.
  destruct (exhausted_rounds cfg net pid count groups alias v n st st' w w'
              Hkeys Hflag Hfalse Hrounds) as [Hsame Hout].
  splits; try assumption.
  intros Hlabels.
  exact (exhausted_queries cfg net pid count groups alias v n st st' w w'
           Hlabels Hflag Hfalse Hrounds).
Qed.

Lemma exhausted_alias_stays_exhausted_witness :
  Dict.get [("mygroup_1_alias", JBool true); ("mygroup_2_alias", JBool false)]
    "mygroup_2_alias" = Some (JBool false)
  /\ ~ In "mygroup_2_alias"
         (active_aliases
            [("mygroup_1_alias", JBool true); ("mygroup_2_alias", JBool false)])
  /\ exists later : list request,
       posts (snd (run_rounds shipped
                     (same_page_forever (JBool true) (JStr "c")) 2 "p" 1000
                     [[JStr "a"]; [JStr "b"]] second_exhausted start))
       = posts start ++ later
       /\ forall req, In req later ->
            exists cursors idxs,
              ~ In "mygroup_2_alias" (map alias_label idxs)
              /\ req = gql_request shipped
                         (query_header
                          ++ texts (map (subquery_of [[JStr "a"]; [JStr "b"]]
                                           cursors) idxs)
                          ++ query_footer)
                         (round_variables "p" 1000).
Proof.
  destruct (exhausted_alias_stays_exhausted shipped
              (same_page_forever (JBool true) (JStr "c")) "p" 1000
              [[JStr "a"]; [JStr "b"]] "mygroup_2_alias" (JBool false) 2
              second_exhausted
              {| third_party_data_list := [JInt 1; JInt 1];
                 alias_has_more_map :=
                   [("mygroup_1_alias", JBool true);
                    ("mygroup_2_alias", JBool false)];
                 alias_cursor_map :=
                   [("mygroup_1_alias", JStr "c"); ("mygroup_2_alias", JNull)] |}
              start
              (snd (run_rounds shipped
                      (same_page_forever (JBool true) (JStr "c")) 2 "p" 1000
                      [[JStr "a"]; [JStr "b"]] second_exhausted start)))
    as (Hflag & Hout & Hlater).
  - vm_compute. repeat constructor.
    + intros [H|[]]. discriminate.
    + intros [].
  - reflexivity.
  - reflexivity.
  - vm_compute. reflexivity.
  - splits; [exact Hflag | exact Hout | apply Hlater; reflexivity].
Defined.

Section Upstream.

Variable cfg : config.
Variable net : network.
Variable pid : string.
Variable count : Z.
Variable groups : list (list json).
Variable pages : list (list (list json)).
Variable cursor : nat -> nat -> json.
Variable upstream : nat -> json.
Variable base : nat.

Hypothesis retries_nonneg : 0 <= max_retries cfg.
Hypothesis one_group_each : length pages = length groups.
Hypothesis served : serves cfg pid count groups net base pages cursor upstream.

(** The query the loop builds in round [r]. *)
Lemma round_query_built (r : nat) (st : fetch_state) :
  round_state_ok pages cursor r st ->
  combined_query groups (alias_cursor_map st)
    (map alias_label (active_indices pages r))
  = Return (round_query groups pages cursor r).
Proof.
  intros (_ & _ & Hkc & _ & Hcur).
  destruct (append_subqueries_ok groups (alias_cursor_map st)
              (active_indices pages r) query_header) as [body Hbody].
  { intros i Hi. apply active_indices_in in Hi. split; [lia|].
    rewrite Hkc. apply in_map, in_seq. lia. }
  unfold combined_query. rewrite Hbody. cbn [bind].
  rewrite (append_subqueries_built _ _ _ _ _ Hbody), append_assoc.
  unfold round_query. do 4 f_equal. apply map_ext_in. intros i Hi.
  apply active_indices_in in Hi. unfold subquery_of.
  now rewrite (Hcur i) by lia.
Qed.

Lemma round_step (r : nat) (st : fetch_state) (w : world) :
  round_state_ok pages cursor r st ->
  (r < max_pages pages)%nat ->
  length (posts w) = (base + r)%nat ->
  exists st',
    fetch_round cfg net pid count groups st w
    = (Return st',
       sent 1 (round_request cfg pid count groups pages cursor r) w)
    /\ round_state_ok pages cursor (S r) st'.
Proof.
  intros Hok Hr Hw. pose proof (active_of_ok _ _ _ _ Hok) as Hact.
  pose proof (round_query_built r st Hok) as Hquery.
  destruct Hok as (Hlist & Hkm & Hkc & Hflags & Hcur).
  assert (Hincl : forall keys, keys = map alias_label (seq 0 (length pages)) ->
            incl (map alias_label (active_indices pages r)) keys).
  { intros keys -> a Ha. apply in_map_iff in Ha. destruct Ha as (i & <- & Hi).
    apply active_indices_in in Hi. apply in_map, in_seq. lia. }
  destruct served as [Htransport Hpages].
  destruct (Htransport r Hr) as (resp & d & Hresp & Hd & Hpartner).
  destruct (process_aliases_indices (upstream r)
              (fun i => nth r (nth i pages []) [])
              (active_indices pages r) st) as (st' & Hproc & Hlist').
  { intros i Hi. apply active_indices_in in Hi.
    destruct (Hpages r i) as (pg & Hpg & Hnodes & _); try lia. now exists pg. }
  exists st'. split.
  - unfold fetch_round. rewrite Hact, Hquery.
    unfold mbind at 1, lift at 1. unfold mbind.
    fold (round_variables pid count). unfold execute_with_retries.
    rewrite (retry_loop_success cfg net (round_query groups pages cursor r)
               (round_variables pid count) pid (max_retries cfg) _ 0 w resp d);
      [| lia | unfold attempt; rewrite Hw, Nat.add_0_r; exact Hresp
       | exact Hd].
    rewrite Hpartner. unfold lift. now rewrite Hproc.
  - destruct (process_aliases_spec (upstream r) _ st st' Hproc)
      as (Hin & Hout & Hkeys);
      [apply alias_labels_NoDup, NoDup_filter, seq_NoDup|].
    split; [now rewrite Hlist', Hlist, round_major_S|].
    split; [rewrite Hkeys; [exact Hkm | now apply Hincl]|].
    split.
    { rewrite (process_aliases_cursor_keys _ _ st st' Hproc);
        [exact Hkc | now apply Hincl]. }
    split.
    + intros i Hi. destruct (Nat.ltb_spec r (page_count pages i)) as [Hlt|Hge].
      * destruct (Hin (alias_label i)) as (pg & Hpg & Hmore & _).
        { apply active_label_in, active_indices_in. lia. }
        destruct (Hpages r i Hi Hlt) as (pg' & Hpg' & _ & Htruthy & _).
        exists (has_next_page pg). split; [exact Hmore|]. congruence.
      * destruct (Hout (alias_label i)) as [Hsame _].
        { rewrite active_label_in, active_indices_in. lia. }
        destruct (Hflags i Hi) as (f & Hf & Htruthy).
        exists f. split; [now rewrite Hsame|]. rewrite Htruthy.
        destruct (Nat.ltb_spec r (page_count pages i)); [lia|].
        destruct (Nat.ltb_spec (S r) (page_count pages i));
          [lia | reflexivity].
    + intros i Hi Hnext.
      destruct (Hin (alias_label i)) as (pg & Hpg & _ & Hcursor).
      { apply active_label_in, active_indices_in. lia. }
      destruct (Hpages r i Hi ltac:(lia)) as (pg' & Hpg' & _ & _ & Hend).
      rewrite Hcursor. cbn [cursor_before]. congruence.
Qed.

End Upstream.

Lemma set_absent {V : Type} (d : dict V) (k : string) (v : V) :
  ~ In k (Dict.keys d) -> Dict.set d k v = d ++ [(k, v)].
Proof.
  unfold Dict.keys. induction d as [|[k' v'] d IH]; simpl; intros Hk.
  - reflexivity.
  - destruct (String.eqb_spec k' k) as [->|Hne].
    + exfalso. apply Hk. now left.
    + f_equal. apply IH. intros H. apply Hk. now right.
Qed.

Lemma of_pairs_NoDup {V : Type} (l : list (string * V)) :
  NoDup (map fst l) -> Dict.of_pairs l = l.
Proof.
  unfold Dict.of_pairs.
  assert (H : forall acc, NoDup (map fst (acc ++ l)) ->
            fold_left (fun d kv => Dict.set d (fst kv) (snd kv)) l acc
            = acc ++ l).
  { induction l as [|[k v] l IH]; intros acc Hnd; simpl.
    - now rewrite app_nil_r.
    - rewrite set_absent.
      + rewrite IH; rewrite <- app_assoc; [reflexivity | exact Hnd].
      + rewrite map_app in Hnd. simpl in Hnd.
        apply NoDup_remove_2 in Hnd. intros Hin. apply Hnd.
        apply in_or_app. now left. }
  intros Hnd. now apply (H []).
Qed.

Lemma initial_state_maps (groups : list (list json)) :
  alias_has_more_map (initial_state groups)
  = map (fun idx => (alias_label idx, JBool true)) (seq 0 (length groups))
  /\ alias_cursor_map (initial_state groups)
     = map (fun idx => (alias_label idx, JNull)) (seq 0 (length groups)).
Proof.
  unfold initial_state. cbn [alias_has_more_map alias_cursor_map].
  assert (Hmore : Dict.of_pairs
                    (map (fun idx => (alias_label idx, JBool true))
                         (seq 0 (length groups)))
                  = map (fun idx => (alias_label idx, JBool true))
                        (seq 0 (length groups))).
  { apply of_pairs_NoDup. rewrite map_map. apply alias_keys_NoDup. }
  rewrite Hmore. split; [reflexivity|].
  unfold Dict.keys. rewrite !map_map. cbn [fst].
  apply of_pairs_NoDup. rewrite map_map. apply alias_keys_NoDup.
Qed.

Lemma page_count_le_max (pages : list (list (list json))) (i : nat) :
  (page_count pages i <= max_pages pages)%nat.
Proof.
  unfold page_count, max_pages.
  destruct (Nat.lt_ge_cases i (length pages)) as [Hi|Hi].
  - assert (H : Forall (fun k => (k <= list_max (map (@length _) pages))%nat)
                  (map (@length (list json)) pages))
      by now apply list_max_le.
    rewrite Forall_forall in H. apply H, in_map, nth_In, Hi.
  - rewrite nth_overflow by exact Hi. simpl. lia.
Qed.

Lemma active_indices_done (pages : list (list (list json))) :
  active_indices pages (max_pages pages) = [].
Proof.
  unfold active_indices.
  induction (seq 0 (length pages)) as [|i l IH]; simpl; [reflexivity|].
  pose proof (page_count_le_max pages i).
  destruct (Nat.ltb_spec (max_pages pages) (page_count pages i)); [lia|].
  exact IH.
Qed.

Lemma active_indices_nonempty (pages : list (list (list json))) (r : nat) :
  (r < max_pages pages)%nat -> active_indices pages r <> [].
Proof.
  intros Hr Hnil.
  assert (H : Forall (fun k => (k <= r)%nat)
                (map (@length (list json)) pages)).
  { apply Forall_forall. intros x Hx. apply in_map_iff in Hx.
    destruct Hx as (pgs & <- & Hin).
    destruct (In_nth _ _ [] Hin) as (i & Hi & Hnth).
    destruct (Nat.le_gt_cases (length pgs) r) as [|Hgt]; [assumption|].
    assert (Hact : In i (active_indices pages r)).
    { apply active_indices_in.
      unfold page_count. rewrite Hnth. lia. }
    rewrite Hnil in Hact. destruct Hact. }
  apply list_max_le in H. unfold max_pages in Hr. lia.
Qed.

Lemma initial_state_ok (groups : list (list json))
    (pages : list (list (list json))) (cursor : nat -> nat -> json) :
  length pages = length groups ->
  (forall pgs, In pgs pages -> pgs <> []) ->
  round_state_ok pages cursor 0 (initial_state groups).
Proof.
  intros Hlen Hpos. destruct (initial_state_maps groups) as [Hmore Hcur].
  unfold round_state_ok. rewrite Hmore, Hcur, Hlen. splits.
  - reflexivity.
  - unfold Dict.keys. now rewrite map_map.
  - unfold Dict.keys. now rewrite map_map.
  - intros i Hi. exists (JBool true). split.
    + apply in_get.
      * unfold Dict.keys. rewrite map_map. apply alias_keys_NoDup.
      * apply in_map_iff. exists i. split; [reflexivity | apply in_seq; lia].
    + assert (nth i pages [] <> []) by (apply Hpos, nth_In; lia).
      unfold page_count. simpl. destruct (nth i pages []); [contradiction|].
      reflexivity.
  - intros i Hi _. cbn [cursor_before]. apply in_get.
    + unfold Dict.keys. rewrite map_map. apply alias_keys_NoDup.
    + apply in_map_iff. exists i. split; [reflexivity | apply in_seq; lia].
Qed.

Section Rounds.

Variable cfg : config.
Variable net : network.
Variable pid : string.
Variable count : Z.
Variable groups : list (list json).
Variable pages : list (list (list json)).
Variable cursor : nat -> nat -> json.
Variable upstream : nat -> json.
Variable base : nat.

Hypothesis retries_nonneg : 0 <= max_retries cfg.
Hypothesis one_group_each : length pages = length groups.
Hypothesis served : serves cfg pid count groups net base pages cursor upstream.

(** [k] rounds from the state after [r] rounds, while pages remain. *)
Lemma rounds_run (k : nat) : forall (r : nat) (st : fetch_state) (w : world),
  (r + k <= max_pages pages)%nat ->
  round_state_ok pages cursor r st ->
  length (posts w) = (base + r)%nat ->
  exists st' w',
    run_rounds cfg net k pid count groups st w = (Return st', w')
    /\ round_state_ok pages cursor (r + k) st'
    /\ posts w'
       = posts w
         ++ map (round_request cfg pid count groups pages cursor) (seq r k)
    /\ total_third_party_data_list w' = total_third_party_data_list w
    /\ third_party_data_json w' = third_party_data_json w.
Proof.
  induction k as [|k IH]; intros r st w Hk Hok Hw.
  - exists st, w. rewrite !Nat.add_0_r. cbn [seq map].
    rewrite app_nil_r. now splits.
  - destruct (round_step cfg net pid count groups pages cursor upstream base
                retries_nonneg one_group_each served r st w Hok
                ltac:(lia) Hw) as (st1 & Hround & Hok1).
    destruct (IH (S r) st1
                (sent 1 (round_request cfg pid count groups pages cursor r) w))
      as (st' & w' & Hrun & Hok' & Hposts & Htotal & Hfile);
      [lia | exact Hok1
       | unfold round_request; rewrite length_posts_sent; lia |].
    exists st', w'. cbn [run_rounds]. unfold mbind. rewrite Hround.
    replace (r + S k)%nat with (S r + k)%nat by lia.
    splits; try assumption.
    rewrite Hposts. cbn [sent posts repeat seq map]. now rewrite <- app_assoc.
Qed.

(** The loop does the rounds that remain, and no more. *)
Lemma fetch_loop_rounds (k : nat) :
  forall (r : nat) (st : fetch_state) (w : world) (fuel : nat),
    (r + k = max_pages pages)%nat ->
    round_state_ok pages cursor r st ->
    length (posts w) = (base + r)%nat ->
    (k < fuel)%nat ->
    fetch_loop cfg net fuel pid count groups st w
    = run_rounds cfg net k pid count groups st w.
Proof.
  induction k as [|k IH]; intros r st w fuel Hk Hok Hw Hfuel;
    (destruct fuel as [|fuel]; [lia|]); cbn [fetch_loop run_rounds];
    rewrite any_has_more_active, (active_of_ok pages cursor r st Hok).
  - replace r with (max_pages pages) by lia.
    now rewrite active_indices_done.
  - pose proof (active_indices_nonempty pages r ltac:(lia)) as Hne.
    destruct (active_indices pages r) as [|i l]; [contradiction|].
    cbn [map].
    destruct (round_step cfg net pid count groups pages cursor upstream base
                retries_nonneg one_group_each served r st w Hok
                ltac:(lia) Hw) as (st1 & Hround & Hok1).
    unfold mbind. rewrite Hround.
    apply (IH (S r));
      [lia | exact Hok1
       | unfold round_request; rewrite length_posts_sent; lia | lia].
Qed.

End Rounds.

(** ** The accumulator is the union of the pages *)

Lemma flat_map_nil_in {A B : Type} (f : A -> list B) (l : list A) :
  (forall x, In x l -> f x = []) -> flat_map f l = [].
Proof.
  induction l as [|x l IH]; simpl; intros H; [reflexivity|].
  rewrite (H x (or_introl eq_refl)). apply IH. intros y Hy. apply H. now right.
Qed.

Lemma flat_map_app_perm {A B : Type} (f g : A -> list B) (l : list A) :
  Permutation (flat_map (fun x => f x ++ g x) l)
              (flat_map f l ++ flat_map g l).
Proof.
  induction l as [|x l IH]; simpl; [constructor|].
  rewrite IH, <- !app_assoc. apply Permutation_app_head.
  rewrite !app_assoc. apply Permutation_app_tail, Permutation_app_comm.
Qed.

Lemma flat_map_nth_all {B : Type} (l : list (list B)) (m : nat) :
  (length l <= m)%nat ->
  flat_map (fun r => nth r l []) (seq 0 m) = concat l.
Proof.
  intros Hm. replace m with (length l + (m - length l))%nat by lia.
  rewrite seq_app, flat_map_app.
  rewrite <- (flat_map_seq_nth (fun x => x) l []).
  rewrite (flat_map_nil_in _ (seq (0 + length l) (m - length l))).
  - rewrite app_nil_r, flat_map_concat_map. now rewrite map_id.
  - intros r Hr. apply in_seq in Hr. apply nth_overflow. lia.
Qed.

Lemma round_major_perm (pages : list (list (list json))) (m : nat) :
  (max_pages pages <= m)%nat ->
  Permutation (round_major pages m) (concat (map (@concat json) pages)).
Proof.
  unfold round_major, max_pages.
  induction pages as [|pgs rest IH]; intros Hm.
  - rewrite flat_map_nil_in by reflexivity. constructor.
  - cbn [map list_max fold_right] in Hm. cbn [flat_map map concat].
    rewrite flat_map_app_perm. apply Permutation_app.
    + rewrite flat_map_nth_all by lia. reflexivity.
    + apply IH. unfold list_max. lia.
Qed.

(** C2. Against an upstream that holds for each group a fixed, finite,
    non-empty sequence of pages, and answers each round's request (which asks
    every group that still has a page for the page after the end cursor of
    its previous one) with those pages, the last one of each group carrying
    a false hasNextPage, and with enough fuel for that many rounds, the fetch
    of the groups returns; its loop does exactly [max(p_1..p_N)] rounds: some
    alias has more after every smaller number of rounds, and none has after
    that many; it posts exactly the requests of these rounds, one each, in
    order; and the accumulator it leaves, which is appended to the total
    list, holds the pages in round-major order, group by group within a
    round: a rearrangement of all pages of all groups. *)
Theorem fetch_rounds_and_accumulator (cfg : config) (net : network)
    (fuel : nat) (pid : string) (count : Z) (groups : list (list json))
    (pages : list (list (list json))) (cursor : nat -> nat -> json)
    (upstream : nat -> json) (w : world)
    (Hretries : 0 <= max_retries cfg)
    (Hgroups : length pages = length groups)
    (Hpages : forall pgs, In pgs pages -> pgs <> [])
    (Hserved : serves cfg pid count groups net (length (posts w)) pages cursor
                 upstream)
    (Hfuel : (max_pages pages < fuel)%nat) :
  exists st' w1,
    fetch_loop cfg net fuel pid count groups (initial_state groups) w
    = (Return st', w1)
    /\ run_rounds cfg net (max_pages pages) pid count groups
         (initial_state groups) w = (Return st', w1)
    /\ any_has_more (alias_has_more_map st') = false
    /\ (forall n, (n < max_pages pages)%nat ->
          exists st_n w_n,
            run_rounds cfg net n pid count groups (initial_state groups) w
            = (Return st_n, w_n)
            /\ any_has_more (alias_has_more_map st_n) = true)
    /\ posts w1
       = posts w
         ++ map (round_request cfg pid count groups pages cursor)
              (seq 0 (max_pages pages))
    /\ length (posts w1) = (length (posts w) + max_pages pages)%nat
    /\ third_party_data_list st' = round_major pages (max_pages pages)
    /\ Permutation (third_party_data_list st')
         (concat (map (@concat json) pages))
    /\ get_partner_third_party_data cfg net fuel pid count groups w
       = (Return tt,
          {| posts := posts w1;
             total_third_party_data_list :=
               total_third_party_data_list w
               ++ round_major pages (max_pages pages);
             third_party_data_json := third_party_data_json w |}).
Proof.
  pose proof (initial_state_ok groups pages cursor Hgroups Hpages) as Hok0.
  destruct (rounds_run cfg net pid count groups pages cursor upstream
              (length (posts w)) Hretries Hgroups Hserved (max_pages pages)
              0 (initial_state groups) w)
    as (st' & w1 & Hrun & Hok & Hposts & Htotal & Hfile);
    [lia | exact Hok0 | lia |].
  assert (Hloop : fetch_loop cfg net fuel pid count groups
                    (initial_state groups) w = (Return st', w1)).
  { rewrite (fetch_loop_rounds cfg net pid count groups pages cursor upstream
               (length (posts w)) Hretries Hgroups Hserved (max_pages pages)
               0 (initial_state groups) w fuel); try lia; assumption. }
  exists st', w1. cbn [Nat.add] in Hok.
  pose proof Hok as (Hlist & _). splits; try assumption.
  - rewrite any_has_more_active, (active_of_ok _ _ _ _ Hok).
    now rewrite active_indices_done.
  - intros n Hn.
    destruct (rounds_run cfg net pid count groups pages cursor upstream
                (length (posts w)) Hretries Hgroups Hserved n
                0 (initial_state groups) w)
      as (st_n & w_n & Hrun_n & Hok_n & _); [lia | exact Hok0 | lia |].
    exists st_n, w_n. split; [exact Hrun_n|]. cbn [Nat.add] in Hok_n.
    rewrite any_has_more_active, (active_of_ok _ _ _ _ Hok_n).
    pose proof (active_indices_nonempty pages n Hn).
    now destruct (active_indices pages n).
  - now rewrite Hposts, length_app, length_map, length_seq.
  - rewrite Hlist. now apply round_major_perm.
  - unfold get_partner_third_party_data, mbind. rewrite Hloop.
    unfold extend_total. now rewrite Hlist, Htotal, Hfile.
Qed.

Lemma two_group_served :
  serves shipped "p" 1000 two_groups two_group_server 0 two_group_pages
    two_group_cursor two_group_upstream.
Proof.
  split.
  - intros r Hr. change (max_pages two_group_pages) with 2%nat in Hr.
    destruct r as [|[|r]]; [| |lia];
      eexists; eexists; (split; [vm_compute; reflexivity|]);
      split; reflexivity.
  - intros r i Hi Hr. change (length two_group_pages) with 2%nat in Hi.
    destruct i as [|[|i]]; [| |lia].
    + change (page_count two_group_pages 0) with 2%nat in *.
      destruct r as [|[|r]]; [| |lia];
        eexists; (split; [vm_compute; reflexivity|]); splits; reflexivity.
    + change (page_count two_group_pages 1) with 1%nat in *.
      destruct r as [|r]; [|lia].
      eexists; (split; [vm_compute; reflexivity|]); splits; reflexivity.
Defined.

Lemma fetch_rounds_and_accumulator_witness :
  exists st' w1,
    fetch_loop shipped two_group_server 5 "p" 1000 two_groups
      (initial_state two_groups) start = (Return st', w1)
    /\ run_rounds shipped two_group_server (max_pages two_group_pages) "p"
         1000 two_groups (initial_state two_groups) start = (Return st', w1)
    /\ any_has_more (alias_has_more_map st') = false
    /\ (forall n, (n < max_pages two_group_pages)%nat ->
          exists st_n w_n,
            run_rounds shipped two_group_server n "p" 1000 two_groups
              (initial_state two_groups) start
            = (Return st_n, w_n)
            /\ any_has_more (alias_has_more_map st_n) = true)
    /\ posts w1
       = posts start
         ++ map (round_request shipped "p" 1000 two_groups two_group_pages
                   two_group_cursor)
              (seq 0 (max_pages two_group_pages))
    /\ length (posts w1)
       = (length (posts start) + max_pages two_group_pages)%nat
    /\ third_party_data_list st'
       = round_major two_group_pages (max_pages two_group_pages)
    /\ Permutation (third_party_data_list st')
         (concat (map (@concat json) two_group_pages))
    /\ get_partner_third_party_data shipped two_group_server 5 "p" 1000
         two_groups start
       = (Return tt,
          {| posts := posts w1;
             total_third_party_data_list :=
               total_third_party_data_list start
               ++ round_major two_group_pages (max_pages two_group_pages);
             third_party_data_json := third_party_data_json start |}).
Proof.
  apply (fetch_rounds_and_accumulator shipped two_group_server 5 "p" 1000
           two_groups two_group_pages two_group_cursor two_group_upstream
           start).
  - vm_compute. discriminate.
  - reflexivity.
  - intros pgs [<-|[<-|[]]]; discriminate.
  - exact two_group_served.
  - vm_compute. lia.
Defined.

(** The requests of the sample run: the first asks both groups with no
    cursor, the second asks the first group alone, after the end cursor of
    its first page. *)
Example two_group_requests :
  map query
    (map (round_request shipped "p" 1000 two_groups two_group_pages
            two_group_cursor) (seq 0 (max_pages two_group_pages)))
  = [ (query_header
       ++ alias_subquery "mygroup_1_alias" "null" (JsonText.dumps (JList [JStr "a"]))
       ++ alias_subquery "mygroup_2_alias" "null" (JsonText.dumps (JList [JStr "b"]))
       ++ query_footer)%string;
      (query_header
       ++ alias_subquery "mygroup_1_alias" (JsonText.dumps (JStr "c1"))
            (JsonText.dumps (JList [JStr "a"]))
       ++ query_footer)%string ].
Proof. vm_compute. reflexivity. Qed.

(** The accumulator of the sample run, spelled out. *)
Example two_group_accumulator :
  round_major two_group_pages (max_pages two_group_pages)
  = [JInt 1; JInt 2; JInt 10; JInt 3].
Proof. reflexivity. Qed.

(** * Further properties *)

(** ** Partitioner *)

Lemma partition_list_parts {A : Type} (S : list A) (N : Z) (parts : list (list A)) :
  0 < N -> partition_list S N = Return parts ->
  parts = map (fun k => firstn (Z.to_nat N)
                          (skipn (Z.to_nat (Z.of_nat k * N)) S))
              (seq 0 (Py.range_count (Py.len S) N 0)).
Proof.
  intros HN Hparts. rewrite (partition_list_chunks S N HN) in Hparts.
  now injection Hparts.
Qed.

Lemma partition_list_part {A : Type} (S : list A) (N : Z)
    (parts : list (list A)) (k : nat) (part : list A) :
  0 < N -> partition_list S N = Return parts ->
  nth_error parts k = Some part ->
  part = firstn (Z.to_nat N) (skipn (k * Z.to_nat N) S)
  /\ (k * Z.to_nat N < length S)%nat.
Proof.
  intros HN Hparts Hk.
  rewrite (partition_list_parts S N parts HN Hparts) in Hk.
  assert (Hlt : (k < Py.range_count (Py.len S) N 0)%nat).
  { assert (H : nth_error (map (fun k => firstn (Z.to_nat N)
                           (skipn (Z.to_nat (Z.of_nat k * N)) S))
                    (seq 0 (Py.range_count (Py.len S) N 0))) k <> None)
      by congruence.
    apply nth_error_Some in H. now rewrite length_map, length_seq in H. }
  rewrite nth_error_map, nth_error_seq in Hk.
  destruct (Nat.ltb_spec k (Py.range_count (Py.len S) N 0)); [|lia].
  injection Hk as <-. cbn [Nat.add].
  pose proof (range_count_last S N HN k Hlt) as Hlast.
  replace (Z.to_nat (Z.of_nat k * N)) with (k * Z.to_nat N)%nat by nia.
  split; [reflexivity|]. unfold Py.len in Hlast. nia.
Qed.

(** X1. For a positive size, no partition is empty and none is longer than
    the size. *)
Theorem partition_list_nonempty_bounded {A : Type} (S : list A) (N : Z)
    (parts : list (list A)) (part : list A)
    (HN : 0 < N) (Hparts : partition_list S N = Return parts)
    (Hpart : In part parts) :
  part <> [] /\ Py.len part <= N.
Proof.
  destruct (In_nth_error _ _ Hpart) as [k Hk].
  destruct (partition_list_part S N parts k part HN Hparts Hk) as [-> Hlt].
  split.
  - intros Hnil. apply (f_equal (@length A)) in Hnil.
    rewrite length_firstn, length_skipn in Hnil. simpl in Hnil. lia.
  - unfold Py.len. rewrite length_firstn. lia.
Qed.

Lemma partition_list_nonempty_bounded_witness :
  [4; 5] <> [] /\ Py.len [4; 5] <= 3.
Proof.
  apply (partition_list_nonempty_bounded [1; 2; 3; 4; 5] 3
           [[1; 2; 3]; [4; 5]] [4; 5]).
  - lia.
  - reflexivity.
  - right. left. reflexivity.
Defined.

(** X2. Partitions keep the order and the positions of the input: the
    element at position [j] of partition [k] is the element at position
    [k * N + j] of the input. *)
Theorem partition_list_position {A : Type} (S : list A) (N : Z)
    (parts : list (list A)) (k j : nat) (part : list A) (x : A)
    (HN : 0 < N) (Hparts : partition_list S N = Return parts)
    (Hk : nth_error parts k = Some part)
    (Hj : nth_error part j = Some x) :
  nth_error S (k * Z.to_nat N + j) = Some x.
Proof.
  destruct (partition_list_part S N parts k part HN Hparts Hk) as [-> _].
  assert (Hlt : (j < Z.to_nat N)%nat).
  { assert (H : nth_error (firstn (Z.to_nat N)
                   (skipn (k * Z.to_nat N) S)) j <> None) by congruence.
    apply nth_error_Some in H. rewrite length_firstn in H. lia. }
  rewrite nth_error_firstn in Hj.
  destruct (Nat.ltb_spec j (Z.to_nat N)); [|lia].
  now rewrite nth_error_skipn in Hj.
Qed.

Lemma partition_list_position_witness :
  nth_error [1; 2; 3; 4; 5] (1 * Z.to_nat 3 + 1) = Some 5.
Proof.
  apply (partition_list_position [1; 2; 3; 4; 5] 3 [[1; 2; 3]; [4; 5]]
           1 1 [4; 5] 5).
  - lia.
  - reflexivity.
  - reflexivity.
  - reflexivity.
Defined.

Lemma partition_list_concat {A : Type} (S : list A) (N : Z) :
  0 < N -> exists parts, partition_list S N = Return parts /\ concat parts = S.
Proof.
  intros HN. eexists. split; [apply partition_list_chunks; exact HN|].
  rewrite (map_ext _ (fun k => Py.slice S (0 + Z.of_nat k * N)
                                 (0 + Z.of_nat k * N + N))).
  - now rewrite (concat_chunks S N HN _ 0) by (reflexivity || lia).
  - intros k. symmetry. rewrite slice_chunk by lia. reflexivity.
Qed.

Lemma partition_list_length {A : Type} (S : list A) (N : Z)
    (parts : list (list A)) :
  0 < N -> partition_list S N = Return parts ->
  Py.len parts = (Py.len S + N - 1) / N.
Proof.
  intros HN Hparts. rewrite (partition_list_parts S N parts HN Hparts).
  unfold Py.len at 1. rewrite length_map, length_seq.
  now apply range_count_ceil.
Qed.

(** X3. Partitioning in two levels, as the orchestrator does (the input into
    request-sized chunks, each chunk into alias-sized groups), loses and
    reorders nothing: both levels return, and the groups of all chunks, read
    in order, are the input. *)
Theorem partition_twice {A : Type} (S : list A) (N1 N2 : Z)
    (HN1 : 0 < N1) (HN2 : 0 < N2) :
  exists (outer : list (list A)) (inner : list (list (list A))),
    partition_list S N1 = Return outer
    /\ Forall2 (fun chunk groups => partition_list chunk N2 = Return groups)
         outer inner
    /\ concat (map (@concat A) inner) = S.
Proof.
  destruct (partition_list_concat S N1 HN1) as (outer & Houter & Hcat).
  exists outer.
  assert (H : exists inner,
            Forall2 (fun chunk groups => partition_list chunk N2 = Return groups)
              outer inner
            /\ map (@concat A) inner = outer).
  { clear Houter Hcat. induction outer as [|chunk outer IH].
    - exists []. split; constructor.
    - destruct IH as (inner & Hall & Hmap).
      destruct (partition_list_concat chunk N2 HN2) as (groups & Hg & Hc).
      exists (groups :: inner). split; [now constructor|].
      simpl. now rewrite Hc, Hmap. }
  destruct H as (inner & Hall & Hmap). exists inner.
  splits; try assumption. now rewrite Hmap.
Qed.

Lemma partition_twice_witness :
  0 < 2 /\ 0 < 2 /\
  exists (outer : list (list string)) (inner : list (list (list string))),
    partition_list ["a"; "b"; "c"; "d"; "e"] 2 = Return outer
    /\ Forall2 (fun chunk groups => partition_list chunk 2 = Return groups)
         outer inner
    /\ concat (map (@concat string) inner) = ["a"; "b"; "c"; "d"; "e"].
Proof.
  split; [lia|]. split; [lia|].
  apply (partition_twice ["a"; "b"; "c"; "d"; "e"] 2 2); lia.
Defined.

(** X4. The number of alias groups of a request is bounded by the two sizes:
    a chunk of a partition of size [N1], partitioned with size [N2], gives at
    least one group and at most the ceiling of [N1 / N2] (three, for the
    sizes 30 and 10 the script ships with). *)
Theorem alias_groups_per_request {A : Type} (S : list A) (N1 N2 : Z)
    (outer : list (list A)) (chunk : list A) (groups : list (list A))
    (HN1 : 0 < N1) (HN2 : 0 < N2)
    (Houter : partition_list S N1 = Return outer)
    (Hchunk : In chunk outer)
    (Hgroups : partition_list chunk N2 = Return groups) :
  1 <= Py.len groups <= (N1 + N2 - 1) / N2.
Proof.
  rewrite (partition_list_length chunk N2 groups HN2 Hgroups).
  destruct (In_nth_error _ _ Hchunk) as [k Hk].
  destruct (partition_list_part S N1 outer k chunk HN1 Houter Hk) as [-> Hlt].
  assert (Hlen : 1 <= Py.len (firstn (Z.to_nat N1)
                                (skipn (k * Z.to_nat N1) S)) <= N1).
  { unfold Py.len. rewrite length_firstn, length_skipn. lia. }
  split.
  - replace 1 with (N2 / N2) at 1 by (apply Z.div_same; lia).
    apply Z.div_le_mono; lia.
  - apply Z.div_le_mono; lia.
Qed.

Lemma alias_groups_per_request_witness :
  1 <= Py.len [[1; 2]; [3]] <= (3 + 2 - 1) / 2.
Proof.
  apply (alias_groups_per_request [1; 2; 3; 4; 5] 3 2
           [[1; 2; 3]; [4; 5]] [1; 2; 3] [[1; 2]; [3]]).
  - lia.
  - lia.
  - reflexivity.
  - left. reflexivity.
  - reflexivity.
Defined.

(** ** Retry wrapper *)

Lemma retry_loop_bounded (cfg : config) (net : network) (q : string)
    (v : json) (pid : string) (m : Z) (fuel : nat) : forall t w,
  0 <= t <= m -> (Z.to_nat (m - t) < fuel)%nat ->
  (exists k, (1 <= k)%nat /\ Z.of_nat k <= m - t + 1
             /\ snd (retry_loop cfg net fuel q v pid m t w)
                = sent k (gql_request cfg q v) w)
  /\ ((forall j, attempt net (gql_request cfg q v) w j <> OutOfFuel) ->
      fst (retry_loop cfg net fuel q v pid m t w) <> OutOfFuel).
Proof.
  induction fuel as [|fuel IH]; intros t w Ht Hfuel; [lia|].
  rewrite retry_loop_S by lia. cbv zeta.
  assert (Hcont :
    (exists k, (1 <= k)%nat /\ Z.of_nat k <= m - t + 1
       /\ snd (if t + 1 >? m
               then (Raise (retries_exhausted pid m),
                     sent 1 (gql_request cfg q v) w)
               else retry_loop cfg net fuel q v pid m (t + 1)
                      (sent 1 (gql_request cfg q v) w))
          = sent k (gql_request cfg q v) w)
    /\ ((forall j, attempt net (gql_request cfg q v) w j <> OutOfFuel) ->
        fst (if t + 1 >? m
             then (Raise (retries_exhausted pid m),
                   sent 1 (gql_request cfg q v) w)
             else retry_loop cfg net fuel q v pid m (t + 1)
                    (sent 1 (gql_request cfg q v) w)) <> OutOfFuel)).
  { destruct (Z.gtb_spec (t + 1) m) as [Hlast|Hmore].
    - split; [exists 1%nat; splits; [lia | lia | reflexivity]|].
      intros _. discriminate.
    - destruct (IH (t + 1) (sent 1 (gql_request cfg q v) w))
        as [(k & Hk1 & Hk2 & Hk) Hfuel']; [lia | lia |].
      split.
      + exists (1 + k)%nat. rewrite Hk, sent_sent. splits; [lia | lia |].
        reflexivity.
      + intros Hnot. apply Hfuel'. intros j. rewrite attempt_sent.
        apply Hnot. }
  assert (Hone : exists k, (1 <= k)%nat /\ Z.of_nat k <= m - t + 1
                   /\ sent 1 (gql_request cfg q v) w
                      = sent k (gql_request cfg q v) w)
    by (exists 1%nat; splits; [lia | lia | reflexivity]).
  destruct (attempt net (gql_request cfg q v) w 0) as [[[|] r]|e| |] eqn:Ha;
    try exact Hcont;
    try (split; [exact Hone | intros _; discriminate]).
  - destruct (data r); try exact Hcont.
    split; [exact Hone | intros _; discriminate].
  - split; [exact Hone|]. intros Hnot. exfalso. now apply (Hnot O).
Qed.

(** X5. With a non-negative retry bound, whatever the server answers, the
    wrapper sends the same request at least once and at most
    [max_retries + 1] times and changes nothing else of the state; and its
    loop always comes to an end by itself. *)
Theorem execute_with_retries_bounded (cfg : config) (net : network)
    (q : string) (v : json) (pid : string) (m : Z) (w : world)
    (Hm : 0 <= m) :
  (exists k, (1 <= k)%nat /\ Z.of_nat k <= m + 1
             /\ snd (execute_with_retries cfg net q v pid m w)
                = sent k (gql_request cfg q v) w)
  /\ ((forall j, attempt net (gql_request cfg q v) w j <> OutOfFuel) ->
      fst (execute_with_retries cfg net q v pid m w) <> OutOfFuel).
Proof.
  unfold execute_with_retries.
  destruct (retry_loop_bounded cfg net q v pid m
              (S (Z.to_nat (m + 1))) 0 w) as [(k & Hk1 & Hk2 & Hk) Hfuel];
    [lia | lia |].
  split; [|exact Hfuel]. exists k. splits; [lia | lia | exact Hk].
Qed.

Lemma execute_with_retries_bounded_witness :
  0 <= 3 /\
  (exists k, (1 <= k)%nat /\ Z.of_nat k <= 3 + 1
             /\ snd (execute_with_retries shipped
                       (always (reply true (JDict [("data", JNull)])))
                       "q" JNull "p" 3 start)
                = sent k (gql_request shipped "q" JNull) start)
  /\ fst (execute_with_retries shipped
            (always (reply true (JDict [("data", JNull)])))
            "q" JNull "p" 3 start) <> OutOfFuel.
Proof.
  split; [lia|].
  destruct (execute_with_retries_bounded shipped
              (always (reply true (JDict [("data", JNull)])))
              "q" JNull "p" 3 start ltac:(lia)) as [Hposts Hfuel].
  split; [exact Hposts|]. apply Hfuel. intros j. vm_compute. discriminate.
Defined.

Lemma retry_loop_raises (cfg : config) (net : network) (q : string)
    (v : json) (pid : string) (m : Z) (e : exn) (n : nat) :
  forall fuel t w,
    (n < fuel)%nat -> t + Z.of_nat n <= m ->
    (forall j, (j < n)%nat ->
       attempt_fails (attempt net (gql_request cfg q v) w j) = true) ->
    attempt net (gql_request cfg q v) w n = Raise e ->
    retry_loop cfg net fuel q v pid m t w
    = (Raise e, sent (S n) (gql_request cfg q v) w).
Proof.
  induction n as [|n IH]; intros fuel t w Hfuel Ht Hfail He;
    (destruct fuel as [|fuel]; [lia|]).
  - rewrite retry_loop_S by lia. cbv zeta. now rewrite He.
  - rewrite retry_loop_fail by (lia || apply Hfail; lia).
    destruct (Z.gtb_spec (t + 1) m); [lia|].
    rewrite (IH fuel (t + 1) (sent 1 (gql_request cfg q v) w)); try lia.
    + now rewrite sent_sent.
    + intros j Hj. rewrite attempt_sent. apply Hfail. lia.
    + now rewrite attempt_sent.
Qed.

(** X6. An error raised by Transport itself (a body that is not JSON, or
    JSON that is not an object) is not retried: after [n] failed attempts
    within the budget, the wrapper ends with that error as soon as Transport
    raises it, after [n + 1] posts. *)
Theorem transport_error_not_retried (cfg : config) (net : network)
    (q : string) (v : json) (pid : string) (m : Z) (w : world) (e : exn)
    (n : nat)
    (Hn : Z.of_nat n <= m)
    (Hfail : forall j, (j < n)%nat ->
       attempt_fails (attempt net (gql_request cfg q v) w j) = true)
    (Hraise : attempt net (gql_request cfg q v) w n = Raise e) :
  execute_with_retries cfg net q v pid m w
  = (Raise e, sent (S n) (gql_request cfg q v) w).
Proof.
  unfold execute_with_retries.
  apply retry_loop_raises; try assumption; lia.
Qed.

Lemma transport_error_not_retried_witness :
  execute_with_retries shipped
    (switch_after 1 (empty_reply false) {| ok := true; content := "<html>" |})
    "q" JNull "p" 3 start
  = (Raise JSONDecodeError, sent 2 (gql_request shipped "q" JNull) start).
Proof.
  apply (transport_error_not_retried shipped
           (switch_after 1 (empty_reply false)
              {| ok := true; content := "<html>" |})
           "q" JNull "p" 3 start JSONDecodeError 1).
  - lia.
  - intros [|j] Hj; [reflexivity | lia].
  - vm_compute. reflexivity.
Defined.

(** X7. Answers whose JSON body has a 'data' member that is not a mapping
    (the [null] of a GraphQL error answer, say) are retried whatever their
    status: when every attempt of the budget gets one, the wrapper posts
    [max_retries + 1] times and raises its terminal error. *)
Theorem non_mapping_data_exhausts (cfg : config) (net : network)
    (q : string) (v : json) (pid : string) (m : Z) (w : world)
    (Hm : 0 <= m)
    (Hdata : forall j, Z.of_nat j <= m ->
       exists d x,
         content (net (length (posts w) + j)%nat (gql_request cfg q v))
           <> EmptyString
         /\ JsonText.loads
              (content (net (length (posts w) + j)%nat (gql_request cfg q v)))
            = Return (JDict d)
         /\ Dict.get d "data" = Some x
         /\ is_mapping x = false) :
  execute_with_retries cfg net q v pid m w
  = (Raise (retries_exhausted pid m),
     sent (Z.to_nat (m + 1)) (gql_request cfg q v) w).
Proof.
  unfold execute_with_retries.
  rewrite (retry_loop_exhausts cfg net q v pid m (Z.to_nat m)); try lia.
  - replace (S (Z.to_nat m)) with (Z.to_nat (m + 1)) by lia. reflexivity.
  - intros j Hj. destruct (Hdata j ltac:(lia)) as (d & x & Hne & Hloads & Hx & Hmap).
    unfold attempt, read_response.
    destruct (net (length (posts w) + j)%nat (gql_request cfg q v))
      as [status body]. cbn [content ok] in *.
    destruct body as [|c body]; [congruence|].
    cbn [String.length].
    destruct (Z.ltb_spec 0 (Z.of_nat (S (String.length body)))); [|lia].
    rewrite Hloads. cbn [bind PyJson.get]. rewrite Hx. cbn [bind].
    unfold attempt_fails. cbn [data]. rewrite Hmap. now destruct status.
Qed.

Lemma non_mapping_data_exhausts_witness :
  execute_with_retries shipped
    (always (reply true (JDict [("data", JNull);
                                ("errors", JList [JStr "denied"])])))
    "q" JNull "p" 3 start
  = (Raise (retries_exhausted "p" 3),
     sent (Z.to_nat (3 + 1)) (gql_request shipped "q" JNull) start).
Proof.
  apply (non_mapping_data_exhausts shipped
           (always (reply true (JDict [("data", JNull);
                                       ("errors", JList [JStr "denied"])])))
           "q" JNull "p" 3 start).
  - lia.
  - intros j _. exists [("data", JNull); ("errors", JList [JStr "denied"])], JNull.
    repeat split; vm_compute; (reflexivity || discriminate).
Defined.

(** ** Provider discovery *)

Lemma get_providers_run (cfg : config) (net : network)
    (set_order : list json -> list json) (w : world) (resp : GqlResponse) :
  attempt net (discovery_request cfg) w 0 = Return (true, resp) ->
  get_user_third_party_data_providers cfg net set_order w
  = (nodes <~ discovered_nodes cfg net w ;;
     ids <~ provider_id_set nodes [] ;;
     Return {| providerIds := set_order ids |},
     sent 1 (discovery_request cfg) w).
Proof.
  intros Hok. unfold get_user_third_party_data_providers, discovered_nodes.
  unfold mbind at 1. rewrite execute_gql_request_eq.
  fold (discovery_request cfg). rewrite Hok.
  unfold attempt in Hok. rewrite Nat.add_0_r in Hok. rewrite Hok.
  cbn [negb bind snd]. unfold mbind, lift, ret.
  destruct (PyJson.getitem (data resp) "partner") as [partner| | |];
    try reflexivity. cbn [bind].
  destruct (PyJson.getitem partner "thirdPartyDataProviders")
    as [providers| | |]; try reflexivity. cbn [bind].
  destruct (PyJson.getitem providers "nodes") as [nodes| | |];
    try reflexivity. cbn [bind].
  destruct (PyJson.iter nodes) as [node_list| | |]; try reflexivity.
  cbn [bind].
  destruct (provider_id_set node_list []) as [ids| | |]; reflexivity.
Qed.

(** X8. Discovery is not retried: when Transport reports the exchange as
    not ok, discovery raises its error after that single post, whatever the
    body held. *)
Theorem discovery_not_retried (cfg : config) (net : network)
    (set_order : list json -> list json) (w : world) (resp : GqlResponse)
    (Hfail : attempt net (discovery_request cfg) w 0 = Return (false, resp)) :
  get_user_third_party_data_providers cfg net set_order w
  = (Raise (Exception "Failed to fetch providers."),
     sent 1 (discovery_request cfg) w).
Proof.
  unfold get_user_third_party_data_providers.
  unfold mbind at 1. rewrite execute_gql_request_eq.
  fold (discovery_request cfg). now rewrite Hfail.
Qed.

Lemma discovery_not_retried_witness :
  get_user_third_party_data_providers shipped
    (switch_after 1 (reply false (providers_body sample_nodes))
       (reply true (providers_body sample_nodes))) (fun l => l) start
  = (Raise (Exception "Failed to fetch providers."),
     sent 1 (discovery_request shipped) start).
Proof.
  apply (discovery_not_retried shipped
           (switch_after 1 (reply false (providers_body sample_nodes))
              (reply true (providers_body sample_nodes))) (fun l => l) start
           {| data := partner_body_data sample_nodes; errors := JList [] |}).
  vm_compute. reflexivity.
Defined.

(** X9. Discovery reads the path partner, thirdPartyDataProviders, nodes
    with no default: on an ok answer whose data is a mapping, a member
    missing on the path raises [KeyError] naming it, and a null partner
    raises [TypeError]; in each case after the single post. *)
Theorem discovery_missing_field (cfg : config) (net : network)
    (set_order : list json -> list json) (w : world) (resp : GqlResponse)
    (d : dict json)
    (Hok : attempt net (discovery_request cfg) w 0 = Return (true, resp))
    (Hdata : data resp = JDict d) :
  (Dict.get d "partner" = None ->
   get_user_third_party_data_providers cfg net set_order w
   = (Raise (KeyError "partner"), sent 1 (discovery_request cfg) w))
  /\ (Dict.get d "partner" = Some JNull ->
      get_user_third_party_data_providers cfg net set_order w
      = (Raise TypeError, sent 1 (discovery_request cfg) w))
  /\ (forall p, Dict.get d "partner" = Some (JDict p) ->
        Dict.get p "thirdPartyDataProviders" = None ->
        get_user_third_party_data_providers cfg net set_order w
        = (Raise (KeyError "thirdPartyDataProviders"),
           sent 1 (discovery_request cfg) w))
  /\ (forall p t, Dict.get d "partner" = Some (JDict p) ->
        Dict.get p "thirdPartyDataProviders" = Some (JDict t) ->
        Dict.get t "nodes" = None ->
        get_user_third_party_data_providers cfg net set_order w
        = (Raise (KeyError "nodes"), sent 1 (discovery_request cfg) w)).
Proof.
  rewrite (get_providers_run cfg net set_order w resp Hok).
  unfold discovered_nodes. fold (discovery_request cfg).
  unfold attempt in Hok. rewrite Nat.add_0_r in Hok. rewrite Hok.
  cbn [bind snd]. rewrite Hdata. cbn [PyJson.getitem]. splits.
  - now intros ->.
  - now intros ->.
  - intros p -> Hp. cbn [bind PyJson.getitem]. now rewrite Hp.
  - intros p t -> Hp Ht. cbn [bind PyJson.getitem]. rewrite Hp.
    cbn [bind PyJson.getitem]. now rewrite Ht.
Qed.

Lemma discovery_missing_field_witness :
  get_user_third_party_data_providers shipped
    (always (reply true (partner_body (JDict [])))) (fun l => l) start
  = (Raise (KeyError "thirdPartyDataProviders"),
     sent 1 (discovery_request shipped) start).
Proof.
  apply (proj1 (proj2 (proj2 (discovery_missing_field shipped
           (always (reply true (partner_body (JDict [])))) (fun l => l) start
           {| data := JDict [("partner", JDict [])]; errors := JList [] |}
           [("partner", JDict [])]
           ltac:(vm_compute; reflexivity) eq_refl))) []).
  - reflexivity.
  - reflexivity.
Defined.

Lemma provider_id_set_app (pre rest : list json) : forall acc,
  provider_id_set (pre ++ rest) acc
  = (acc' <~ provider_id_set pre acc ;; provider_id_set rest acc').
Proof.
  induction pre as [|a pre IH]; intros acc; simpl; [reflexivity|].
  destruct (PyJson.get a "id" JNull) as [found| | |]; simpl; try reflexivity.
  destruct (PyJson.truthy found); [|apply IH].
  destruct (PyJson.getitem a "id") as [id| | |]; simpl; try reflexivity.
  destruct (PyJson.set_add acc id) as [acc'| | |]; simpl; try reflexivity.
  apply IH.
Qed.

(** X10. Discovery stops at the first node it cannot use, the nodes before
    it having been collected: a node that is not a mapping raises
    [AttributeError], and a node whose truthy 'id' is unhashable (a list or
    a mapping) raises [TypeError]. *)
Theorem discovery_bad_node (cfg : config) (net : network)
    (set_order : list json -> list json) (w : world) (resp : GqlResponse)
    (pre : list json) (node : json) (post acc : list json)
    (Hok : attempt net (discovery_request cfg) w 0 = Return (true, resp))
    (Hnodes : discovered_nodes cfg net w = Return (pre ++ node :: post))
    (Hpre : provider_id_set pre [] = Return acc) :
  (is_mapping node = false ->
   get_user_third_party_data_providers cfg net set_order w
   = (Raise AttributeError, sent 1 (discovery_request cfg) w))
  /\ (forall d x, node = JDict d -> Dict.get d "id" = Some x ->
        PyJson.truthy x = true -> PyJson.hashable x = false ->
        get_user_third_party_data_providers cfg net set_order w
        = (Raise TypeError, sent 1 (discovery_request cfg) w)).
Proof.
  rewrite (get_providers_run cfg net set_order w resp Hok), Hnodes.
  cbn [bind]. rewrite provider_id_set_app, Hpre. cbn [bind provider_id_set].
  split.
  - intros Hnode. now destruct node.
  - intros d x -> Hx Htruthy Hhash. cbn [PyJson.get PyJson.getitem].
    rewrite Hx. cbn [bind]. rewrite Htruthy. cbn [bind].
    unfold PyJson.set_add. now rewrite Hhash.
Qed.

Lemma discovery_bad_node_witness :
  get_user_third_party_data_providers shipped
    (always (reply true (providers_body
                           [JDict [("id", JStr "a")]; JNull;
                            JDict [("id", JStr "b")]])))
    (fun l => l) start
  = (Raise AttributeError, sent 1 (discovery_request shipped) start).
Proof.
  apply (proj1 (discovery_bad_node shipped
           (always (reply true (providers_body
                                  [JDict [("id", JStr "a")]; JNull;
                                   JDict [("id", JStr "b")]])))
           (fun l => l) start
           {| data := partner_body_data [JDict [("id", JStr "a")]; JNull;
                                         JDict [("id", JStr "b")]];
              errors := JList [] |}
           [JDict [("id", JStr "a")]] JNull [JDict [("id", JStr "b")]]
           [JStr "a"]
           ltac:(vm_compute; reflexivity) ltac:(vm_compute; reflexivity)
           eq_refl)).
  reflexivity.
Defined.

(** ** Aliases and the combined query *)

(** X11. An alias label carries its group: the index the loop reads back
    from the label of group [idx] (split on the underscore, parse the number,
    subtract one) is [idx]; hence the labels of any number of groups are
    pairwise distinct, and the dictionaries keyed by them have one entry per
    group. *)
Theorem alias_label_round_trip (idx n : nat) :
  (number <~ Py.index (PyStr.split "_" (alias_label idx)) 1 ;;
   parsed <~ PyStr.to_int number ;;
   Return (parsed - 1)) = Return (Z.of_nat idx)
  /\ NoDup (map alias_label (seq 0 n)).
Proof.
  split; [apply alias_label_index | apply alias_keys_NoDup].
Qed.

(** X12. Before the first round every group is active, in group order, with
    no cursor, so the first request asks every group, also one that will
    prove empty, for its first page; and that request can always be
    built. *)
Theorem first_round_asks_every_group (groups : list (list json)) :
  active_aliases (alias_has_more_map (initial_state groups))
  = map alias_label (seq 0 (length groups))
  /\ alias_cursor_map (initial_state groups)
     = map (fun idx => (alias_label idx, JNull)) (seq 0 (length groups))
  /\ exists q,
       combined_query groups (alias_cursor_map (initial_state groups))
         (active_aliases (alias_has_more_map (initial_state groups)))
       = Return q.
Proof.
  destruct (initial_state_maps groups) as [Hmore Hcur].
  assert (Hactive : active_aliases (alias_has_more_map (initial_state groups))
                    = map alias_label (seq 0 (length groups))).
  { rewrite Hmore. unfold active_aliases.
    generalize (seq 0 (length groups)). clear.
    induction l as [|i l IH]; simpl; [reflexivity|]. now rewrite IH. }
  splits; try assumption.
  rewrite Hactive, Hcur. unfold combined_query.
  destruct (append_subqueries_ok groups
              (map (fun idx => (alias_label idx, JNull))
                   (seq 0 (length groups)))
              (seq 0 (length groups)) query_header) as [body ->].
  - intros i Hi. apply in_seq in Hi. split; [lia|].
    unfold Dict.keys. rewrite map_map. cbn [fst]. apply in_map, in_seq. lia.
  - now eexists.
Qed.

Lemma append_subqueries_text (groups : list (list json)) (cursors : dict json) :
  forall (idxs : list nat) (q0 : string),
    (forall i, In i idxs ->
       (i < length groups)%nat /\ In (alias_label i) (Dict.keys cursors)) ->
    append_subqueries groups cursors (map alias_label idxs) q0
    = Return (q0 ++ texts (map (subquery_of groups cursors) idxs))%string.
Proof.
  induction idxs as [|i idxs IH]; intros q0 Hok; cbn [map append_subqueries].
  - unfold texts. simpl. f_equal.
    induction q0 as [|c q0 IHq]; simpl; [reflexivity | now rewrite <- IHq].
  - destruct (Hok i (or_introl eq_refl)) as [Hi Hkey].
    rewrite alias_label_split.
    change (Py.index ["mygroup"; PyStr.of_nat (S i); "alias"] 1)
      with (Return (PyStr.of_nat (S i))).
    cbn [bind]. rewrite to_int_of_nat. cbn [bind].
    replace (Z.of_nat (S i) - 1) with (Z.of_nat i) by lia.
    destruct (nth_error groups i) as [g|] eqn:Hg;
      [|apply nth_error_None in Hg; lia].
    rewrite (index_nth groups i g Hg). cbn [bind].
    destruct (key_get cursors _ Hkey) as [c Hc]. rewrite Hc. cbn [bind].
    rewrite IH by (intros j Hj; apply Hok; now right).
    unfold texts. cbn [map fold_right]. rewrite append_assoc.
    unfold subquery_of at 2. rewrite Hc, (nth_error_nth _ _ _ Hg).
    reflexivity.
Qed.

(** X13. The combined query of a round is the header, then one sub-query per
    active group in order, then the footer, and the sub-query under the alias
    of group [i] filters on the ids of group [i] and resumes after the cursor
    stored for that alias: the index read back from the label picks the
    group the label was made for. *)
Theorem combined_query_text (groups : list (list json)) (cursors : dict json)
    (idxs : list nat)
    (Hidxs : forall i, In i idxs ->
       (i < length groups)%nat /\ In (alias_label i) (Dict.keys cursors)) :
  combined_query groups cursors (map alias_label idxs)
  = Return (query_header ++ texts (map (subquery_of groups cursors) idxs)
            ++ query_footer)%string.
Proof.
  unfold combined_query.
  rewrite (append_subqueries_text groups cursors idxs query_header Hidxs).
  cbn [bind]. now rewrite append_assoc.
Qed.

Lemma combined_query_text_witness :
  combined_query [[JStr "a"]; [JStr "b"]]
    [("mygroup_1_alias", JStr "c1"); ("mygroup_2_alias", JNull)]
    (map alias_label [1%nat])
  = Return (query_header
            ++ texts (map (subquery_of [[JStr "a"]; [JStr "b"]]
                             [("mygroup_1_alias", JStr "c1");
                              ("mygroup_2_alias", JNull)]) [1%nat])
            ++ query_footer)%string.
Proof.
  apply (combined_query_text [[JStr "a"]; [JStr "b"]]
           [("mygroup_1_alias", JStr "c1"); ("mygroup_2_alias", JNull)]
           [1%nat]).
  intros i [<-|[]]. split; [simpl; lia | vm_compute; auto].
Defined.

(** ** The fetch loop *)

(** X14. An active alias the response has no entry for is read as an empty
    last page: it adds no record, its flag becomes false and its cursor
    null, and it is not active in the next round. *)
Theorem absent_alias_is_exhausted (d : dict json) (st st' : fetch_state)
    (alias : string)
    (Hkeys : NoDup (Dict.keys (alias_has_more_map st)))
    (Hproc : process_aliases (JDict d)
               (active_aliases (alias_has_more_map st)) st = Return st')
    (Hactive : In alias (active_aliases (alias_has_more_map st)))
    (Habsent : Dict.get d alias = None) :
  read_page (JDict d) alias = Return no_page
  /\ Dict.get (alias_has_more_map st') alias = Some (JBool false)
  /\ Dict.get (alias_cursor_map st') alias = Some JNull
  /\ ~ In alias (active_aliases (alias_has_more_map st')).
Proof.
  assert (Hpage : read_page (JDict d) alias = Return no_page).
  { unfold read_page. cbn [PyJson.get]. now rewrite Habsent. }
  destruct (process_aliases_spec (JDict d) _ st st' Hproc
              (active_aliases_NoDup _ Hkeys)) as (Hin & _ & Hk).
  destruct (Hin alias Hactive) as (pg & Hpg & Hmore & Hcur).
  assert (pg = no_page) by congruence. subst pg.
  splits; try assumption.
  apply (falsy_not_active _ _ (JBool false)); try assumption; try reflexivity.
  rewrite Hk; [exact Hkeys | apply active_aliases_keys].
Qed.

Lemma absent_alias_is_exhausted_witness :
  read_page (JDict [("mygroup_1_alias",
                     page_json [JInt 3] (JBool true) (JStr "c2"))])
    "mygroup_2_alias" = Return no_page
  /\ Dict.get [("mygroup_1_alias", JBool true);
               ("mygroup_2_alias", JBool false)] "mygroup_2_alias"
     = Some (JBool false)
  /\ Dict.get [("mygroup_1_alias", JStr "c2"); ("mygroup_2_alias", JNull)]
       "mygroup_2_alias" = Some JNull
  /\ ~ In "mygroup_2_alias"
         (active_aliases [("mygroup_1_alias", JBool true);
                          ("mygroup_2_alias", JBool false)]).
Proof.
  apply (absent_alias_is_exhausted
           [("mygroup_1_alias", page_json [JInt 3] (JBool true) (JStr "c2"))]
           (initial_state [[JStr "a"]; [JStr "b"]])
           {| third_party_data_list := [JInt 3];
              alias_has_more_map :=
                [("mygroup_1_alias", JBool true);
                 ("mygroup_2_alias", JBool false)];
              alias_cursor_map :=
                [("mygroup_1_alias", JStr "c2"); ("mygroup_2_alias", JNull)] |}
           "mygroup_2_alias").
  - vm_compute. repeat constructor.
    + intros [H|[]]. discriminate.
    + intros [].
  - vm_compute. reflexivity.
  - vm_compute. right. left. reflexivity.
  - reflexivity.
Defined.

(** X15. The loop has no bound of its own on the number of rounds: from a
    state and against a server for which every number of rounds returns
    with some alias still having more, the loop does not come to an end,
    whatever fuel it is given. *)
Theorem fetch_loop_has_no_bound (cfg : config) (net : network)
    (pid : string) (count : Z) (groups : list (list json)) (fuel : nat)
    (st : fetch_state) (w : world)
    (Hmore : forall n, exists st_n w_n,
       run_rounds cfg net n pid count groups st w = (Return st_n, w_n)
       /\ any_has_more (alias_has_more_map st_n) = true) :
  fst (fetch_loop cfg net fuel pid count groups st w) = OutOfFuel.
Proof.
  revert st w Hmore. induction fuel as [|fuel IH]; intros st w Hmore;
    [reflexivity|].
  cbn [fetch_loop].
  destruct (Hmore O) as (st0 & w0 & Hrun0 & Hany). cbn [run_rounds] in Hrun0.
  injection Hrun0 as <- <-. rewrite Hany.
  rewrite any_has_more_active in Hany.
  destruct (active_aliases (alias_has_more_map st)); [discriminate|].
  destruct (Hmore 1%nat) as (st1 & w1 & Hrun1 & _).
  cbn [run_rounds] in Hrun1. unfold mbind in Hrun1 |- *.
  destruct (fetch_round cfg net pid count groups st w)
    as [[st'| | |] w'] eqn:Hround; try discriminate.
  apply IH. intros n. destruct (Hmore (S n)) as (st_n & w_n & Hrun & Hn).
  cbn [run_rounds] in Hrun. unfold mbind in Hrun. rewrite Hround in Hrun.
  now exists st_n, w_n.
Qed.

Lemma stuck_round (l : list json) (w : world) :
  exists w',
    fetch_round shipped (same_page_forever (JBool true) JNull) "p" 1000
      [[JStr "a"]] (stuck_state l) w
    = (Return (stuck_state (l ++ [JInt 1])), w').
Proof. eexists. vm_compute. reflexivity. Defined.

Lemma stuck_rounds (n : nat) : forall (l : list json) (w : world),
  exists st_n w_n,
    run_rounds shipped (same_page_forever (JBool true) JNull) n "p" 1000
      [[JStr "a"]] (stuck_state l) w = (Return st_n, w_n)
    /\ any_has_more (alias_has_more_map st_n) = true.
Proof.
  induction n as [|n IH]; intros l w.
  - exists (stuck_state l), w. split; reflexivity.
  - destruct (stuck_round l w) as [w' Hround].
    destruct (IH (l ++ [JInt 1]) w') as (st_n & w_n & Hrun & Hany).
    exists st_n, w_n. cbn [run_rounds]. unfold mbind. rewrite Hround.
    now split.
Defined.

Lemma fetch_loop_has_no_bound_witness :
  fst (fetch_loop shipped (same_page_forever (JBool true) JNull) 50 "p" 1000
         [[JStr "a"]] (stuck_state []) start) = OutOfFuel.
Proof.
  apply (fetch_loop_has_no_bound shipped
           (same_page_forever (JBool true) JNull) "p" 1000 [[JStr "a"]] 50
           (stuck_state []) start).
  intros n. apply stuck_rounds.
Defined.

(** ** Effects of the statements *)

Section Stays.

Variable cfg : config.
Variable net : network.
Variable R : world -> world -> Prop.

Hypothesis R_refl : forall w, R w w.
Hypothesis R_trans : forall a b c, R a b -> R b c -> R a c.
Hypothesis R_post : forall q v w, R w (sent 1 (gql_request cfg q v) w).

Lemma stays_ret {A : Type} (a : A) : stays R (ret a).
Proof. intros w. apply R_refl. Qed.

Lemma stays_lift {A : Type} (r : result A) : stays R (lift r).
Proof. intros w. apply R_refl. Qed.

Lemma stays_bind {A B : Type} (c : M A) (k : A -> M B) :
  stays R c -> (forall a, stays R (k a)) -> stays R (mbind c k).
Proof.
  intros Hc Hk w. unfold mbind. specialize (Hc w).
  destruct (c w) as [[a| | |] w1]; simpl in *; try assumption.
  apply (R_trans _ w1); [exact Hc | apply Hk].
Qed.

Lemma stays_gql q v : stays R (execute_gql_request cfg net q v).
Proof. intros w. rewrite execute_gql_request_eq. apply R_post. Qed.

Lemma stays_retry q v pid m fuel : forall t,
  stays R (retry_loop cfg net fuel q v pid m t).
Proof.
  intros t w.
  destruct (retry_loop_posts cfg net q v pid m fuel t w) as [k ->].
  clear t. revert w. induction k as [|k IH]; intros w.
  - rewrite sent_0. apply R_refl.
  - replace (S k) with (1 + k)%nat by lia. rewrite <- sent_sent.
    apply (R_trans _ (sent 1 (gql_request cfg q v) w));
      [apply R_post | apply IH].
Qed.

Lemma stays_round pid count groups st :
  stays R (fetch_round cfg net pid count groups st).
Proof.
  unfold fetch_round. apply stays_bind; [apply stays_lift|].
  intros query. apply stays_bind; [apply stays_retry|].
  intros partner_data. apply stays_lift.
Qed.

Lemma stays_loop pid count groups fuel : forall st,
  stays R (fetch_loop cfg net fuel pid count groups st).
Proof.
  induction fuel as [|fuel IH]; intros st; cbn [fetch_loop];
    [apply stays_lift|].
  destruct (any_has_more _); [|apply stays_ret].
  destruct (active_aliases _); [apply stays_ret|].
  apply stays_bind; [apply stays_round | exact IH].
Qed.

Lemma stays_providers set_order :
  stays R (get_user_third_party_data_providers cfg net set_order).
Proof.
  unfold get_user_third_party_data_providers.
  apply stays_bind; [apply stays_gql|]. intros [ok r].
  destruct (negb ok); [apply stays_lift|].
  repeat (apply stays_bind; [apply stays_lift|]; intros ?).
  apply stays_ret.
Qed.

Lemma stays_for_each {A : Type} (body : A -> M unit) (l : list A) :
  (forall x, stays R (body x)) -> stays R (for_each l body).
Proof.
  intros Hbody. induction l as [|x l IH]; simpl; [apply stays_ret|].
  apply stays_bind; [apply Hbody | intros _; exact IH].
Qed.

(** The whole run, given that appending to the total list and writing the
    file stay within [R] too. *)
Lemma stays_run set_order fuel :
  (forall l, stays R (extend_total l)) -> stays R write_output ->
  stays R (query_partner_third_party_data cfg net set_order fuel).
Proof.
  intros Hextend Hwrite. unfold query_partner_third_party_data.
  apply stays_bind; [apply stays_providers|]. intros found.
  apply stays_bind; [apply stays_lift|]. intros chunks.
  apply stays_bind; [|intros _; exact Hwrite].
  apply stays_for_each. intros chunk. unfold fetch_chunk.
  apply stays_bind; [apply stays_lift|]. intros groups.
  unfold get_partner_third_party_data.
  apply stays_bind; [apply stays_loop|]. intros st. apply Hextend.
Qed.

End Stays.

(** X16. The total list is append-only: whatever the outcome of a run, the
    total list it leaves starts with the total list it found. *)
Theorem total_list_append_only (cfg : config) (net : network)
    (set_order : list json -> list json) (fuel : nat) (w : world) :
  exists l,
    total_third_party_data_list
      (snd (query_partner_third_party_data cfg net set_order fuel w))
    = total_third_party_data_list w ++ l.
Proof.
  apply (stays_run cfg net grown_total).
  - intros w0. exists []. now rewrite app_nil_r.
  - intros a b c [l1 H1] [l2 H2]. exists (l1 ++ l2).
    now rewrite H2, H1, app_assoc.
  - intros q v w0. exists []. simpl. now rewrite app_nil_r.
  - intros l w0. now exists l.
  - intros w0. exists []. simpl. now rewrite app_nil_r.
Qed.

(** X17. Every request of a run, whatever its outcome, goes to the
    configured endpoint and carries the configured token. *)
Theorem requests_carry_credentials (cfg : config) (net : network)
    (set_order : list json -> list json) (fuel : nat) (w : world) :
  exists l,
    posts (snd (query_partner_third_party_data cfg net set_order fuel w))
    = posts w ++ l
    /\ Forall (fun req => url req = gql_url cfg /\ auth req = token cfg) l.
Proof.
  apply (stays_run cfg net (sent_as cfg)).
  - intros w0. exists []. split; [now rewrite app_nil_r | constructor].
  - intros a b c (l1 & H1 & F1) (l2 & H2 & F2). exists (l1 ++ l2). split.
    + now rewrite H2, H1, app_assoc.
    + apply Forall_app. now split.
  - intros q v w0. exists [gql_request cfg q v]. split; [reflexivity|].
    constructor; [now split | constructor].
  - intros l w0. exists []. split; [simpl; now rewrite app_nil_r | constructor].
  - intros w0. exists []. split; [simpl; now rewrite app_nil_r | constructor].
Qed.

(** X18. The fetch of a chunk adds its records to the total list only when
    it has them all: when it does not return, the total list is as it was
    before the chunk, the pages already fetched for it being dropped; when
    it returns, it has appended to the total list. *)
Theorem chunk_is_all_or_nothing (cfg : config) (net : network) (fuel : nat)
    (pid : string) (count : Z) (groups : list (list json)) (w : world) :
  (fst (get_partner_third_party_data cfg net fuel pid count groups w)
   <> Return tt ->
   total_third_party_data_list
     (snd (get_partner_third_party_data cfg net fuel pid count groups w))
   = total_third_party_data_list w)
  /\ (fst (get_partner_third_party_data cfg net fuel pid count groups w)
      = Return tt ->
      exists st,
        fst (fetch_loop cfg net fuel pid count groups
               (initial_state groups) w) = Return st
        /\ total_third_party_data_list
             (snd (get_partner_third_party_data cfg net fuel pid count
                     groups w))
           = total_third_party_data_list w ++ third_party_data_list st).
Proof.
  unfold get_partner_third_party_data, mbind.
  pose proof (stays_loop cfg net same_total ltac:(now intros ?)
                ltac:(unfold same_total; intros; congruence)
                ltac:(now intros ? ? ?) pid count groups fuel
                (initial_state groups) w) as Hsame.
  unfold same_total in Hsame.
  destruct (fetch_loop cfg net fuel pid count groups (initial_state groups) w)
    as [[st| | |] w1]; cbn [fst snd] in *; split; intros H;
    try assumption; try discriminate; try (now contradiction H).
  exists st. simpl. now rewrite Hsame.
Qed.

Lemma chunk_is_all_or_nothing_witness :
  total_third_party_data_list
    (snd (get_partner_third_party_data shipped
            (switch_after 1
               (reply true
                  (partner_body
                     (JDict [("mygroup_1_alias",
                              page_json [JInt 1] (JBool true) JNull)])))
               (empty_reply false))
            5 "p" 1000 [[JStr "a"]] start))
  = total_third_party_data_list start.
Proof.
  apply (proj1 (chunk_is_all_or_nothing shipped
           (switch_after 1
              (reply true
                 (partner_body
                    (JDict [("mygroup_1_alias",
                             page_json [JInt 1] (JBool true) JNull)])))
              (empty_reply false))
           5 "p" 1000 [[JStr "a"]] start)).
  vm_compute. discriminate.
Defined.

(** ** The orchestrator *)

Lemma mbind_eq {A B : Type} (c : M A) (k : A -> M B) (w : world) :
  mbind c k w = match c w with
                | (Return a, w') => k a w'
                | (Raise e, w') => (Raise e, w')
                | (OutOfFuel, w') => (OutOfFuel, w')
                | (Unmodelled, w') => (Unmodelled, w')
                end.
Proof. reflexivity. Qed.

Lemma run_after_discovery (cfg : config) (net : network)
    (set_order : list json -> list json) (fuel : nat) (w w0 : world)
    (found : provider_data) :
  get_user_third_party_data_providers cfg net set_order w = (Return found, w0) ->
  query_partner_third_party_data cfg net set_order fuel w
  = mbind (lift (partition_list (providerIds found)
                   (partition_total_call_size cfg)))
      (fun chunks =>
         mbind (for_each chunks (fetch_chunk cfg net fuel))
           (fun _ => write_output)) w0.
Proof.
  intros Hfound. unfold query_partner_third_party_data.
  unfold mbind at 1. now rewrite Hfound.
Qed.

(** X19. A request size that is not positive stops the run right after the
    discovery: it raises the partitioner's [ValueError], no chunk is fetched
    and nothing is written. *)
Theorem invalid_call_size_stops_run (cfg : config) (net : network)
    (set_order : list json -> list json) (fuel : nat) (w w0 : world)
    (found : provider_data)
    (Hsize : partition_total_call_size cfg <= 0)
    (Hfound : get_user_third_party_data_providers cfg net set_order w
              = (Return found, w0)) :
  query_partner_third_party_data cfg net set_order fuel w
  = (Raise (ValueError "Partition size must be greater than 0."), w0).
Proof.
  rewrite (run_after_discovery _ _ _ _ _ _ _ Hfound).
  unfold mbind, lift, partition_list.
  destruct (Z.leb_spec (partition_total_call_size cfg) 0); [reflexivity | lia].
Qed.

Lemma invalid_call_size_stops_run_witness :
  query_partner_third_party_data (with_sizes 0 10)
    (discovery_only sample_nodes) (fun l => l) 5 start
  = (Raise (ValueError "Partition size must be greater than 0."),
     sent 1 (discovery_request (with_sizes 0 10)) start).
Proof.
  apply (invalid_call_size_stops_run (with_sizes 0 10)
           (discovery_only sample_nodes) (fun l => l) 5 start
           (sent 1 (discovery_request (with_sizes 0 10)) start)
           {| providerIds := [JStr "a"; JStr "b"] |}).
  - simpl. lia.
  - vm_compute. reflexivity.
Defined.

(** X20. An alias-group size that is not positive stops the run at the first
    chunk, provided the discovery found a provider: the run raises the
    partitioner's [ValueError] with no fetch request sent and nothing
    written. *)
Theorem invalid_alias_size_stops_run (cfg : config) (net : network)
    (set_order : list json -> list json) (fuel : nat) (w w0 : world)
    (found : provider_data)
    (Hcall : 0 < partition_total_call_size cfg)
    (Halias : partition_gql_alias_query_size cfg <= 0)
    (Hsome : providerIds found <> [])
    (Hfound : get_user_third_party_data_providers cfg net set_order w
              = (Return found, w0)) :
  query_partner_third_party_data cfg net set_order fuel w
  = (Raise (ValueError "Partition size must be greater than 0."), w0).
Proof.
  rewrite (run_after_discovery _ _ _ _ _ _ _ Hfound).
  destruct (partition_list_concat (providerIds found)
              (partition_total_call_size cfg) Hcall)
    as (chunks & Hchunks & Hcat).
  unfold mbind at 1, lift at 1. rewrite Hchunks.
  destruct chunks as [|chunk chunks]; [simpl in Hcat; congruence|].
  cbn [for_each]. unfold fetch_chunk, mbind, lift, partition_list.
  destruct (Z.leb_spec (partition_gql_alias_query_size cfg) 0);
    [reflexivity | lia].
Qed.

Lemma invalid_alias_size_stops_run_witness :
  query_partner_third_party_data (with_sizes 30 0)
    (discovery_only sample_nodes) (fun l => l) 5 start
  = (Raise (ValueError "Partition size must be greater than 0."),
     sent 1 (discovery_request (with_sizes 30 0)) start).
Proof.
  apply (invalid_alias_size_stops_run (with_sizes 30 0)
           (discovery_only sample_nodes) (fun l => l) 5 start
           (sent 1 (discovery_request (with_sizes 30 0)) start)
           {| providerIds := [JStr "a"; JStr "b"] |}).
  - simpl. lia.
  - simpl. lia.
  - discriminate.
  - vm_compute. reflexivity.
Defined.

(** X21. When the discovery finds no provider, the run completes with the
    discovery as its only request and writes the total list as it is (the
    empty array, on a fresh start); the alias-group size is then never
    looked at, so that even an invalid one raises nothing. *)
Theorem no_provider_run_completes (cfg : config) (net : network)
    (set_order : list json -> list json) (fuel : nat) (w w0 : world)
    (found : provider_data)
    (Hcall : 0 < partition_total_call_size cfg)
    (Hnone : providerIds found = [])
    (Hfound : get_user_third_party_data_providers cfg net set_order w
              = (Return found, w0)) :
  query_partner_third_party_data cfg net set_order fuel w
  = (Return tt, written w0).
Proof.
  rewrite (run_after_discovery _ _ _ _ _ _ _ Hfound), Hnone.
  unfold mbind, lift, partition_list.
  destruct (Z.leb_spec (partition_total_call_size cfg) 0); [lia|].
  reflexivity.
Qed.

Lemma no_provider_run_completes_witness :
  query_partner_third_party_data (with_sizes 30 0)
    (discovery_only [JDict []; JDict [("id", JStr "")]]) (fun l => l) 5 start
  = (Return tt, written (sent 1 (discovery_request (with_sizes 30 0)) start)).
Proof.
  apply (no_provider_run_completes (with_sizes 30 0)
           (discovery_only [JDict []; JDict [("id", JStr "")]])
           (fun l => l) 5 start
           (sent 1 (discovery_request (with_sizes 30 0)) start)
           {| providerIds := [] |}).
  - simpl. lia.
  - reflexivity.
  - vm_compute. reflexivity.
Defined.

Lemma run_outcome (cfg : config) (net : network)
    (set_order : list json -> list json) (fuel : nat) (w : world)
    (r : result unit) (w' : world) :
  query_partner_third_party_data cfg net set_order fuel w = (r, w') ->
  (r = Return tt ->
   third_party_data_json w' = Some (total_third_party_data_list w'))
  /\ (r <> Return tt -> third_party_data_json w' = third_party_data_json w).
Proof.
  pose proof (keeps_file_providers cfg net set_order w) as H0.
  unfold query_partner_third_party_data. rewrite mbind_eq.
  destruct (get_user_third_party_data_providers cfg net set_order w)
    as [[found| | |] w0]; cbn [fst snd] in *;
    try (intros [= <- <-]; split; [discriminate | intros _; exact H0]).
  rewrite mbind_eq. unfold lift at 1.
  destruct (partition_list (providerIds found) (partition_total_call_size cfg))
    as [chunks| | |];
    try (intros [= <- <-]; split; [discriminate | intros _; exact H0]).
  pose proof (keeps_file_for_each (fetch_chunk cfg net fuel) chunks
                (keeps_file_chunk cfg net fuel) w0) as H1.
  rewrite mbind_eq.
  destruct (for_each chunks (fetch_chunk cfg net fuel) w0)
    as [[[]| | |] w1]; cbn [fst snd] in *;
    try (intros [= <- <-]; split; [discriminate | intros _; congruence]).
  unfold write_output. intros [= <- <-].
  split; [reflexivity | intros H; now contradiction H].
Qed.

(** X22. The output file is written exactly when the run completes: a run
    that returns leaves in the file the whole total list, and a run that
    ends in any other way (an error of the discovery, of a partition or of a
    fetch, or a loop that does not end) leaves the file as it found it. *)
Theorem output_written_on_completion (cfg : config) (net : network)
    (set_order : list json -> list json) (fuel : nat) (w : world) :
  (fst (query_partner_third_party_data cfg net set_order fuel w) = Return tt ->
   third_party_data_json
     (snd (query_partner_third_party_data cfg net set_order fuel w))
   = Some (total_third_party_data_list
             (snd (query_partner_third_party_data cfg net set_order fuel w))))
  /\ (fst (query_partner_third_party_data cfg net set_order fuel w)
      <> Return tt ->
      third_party_data_json
        (snd (query_partner_third_party_data cfg net set_order fuel w))
      = third_party_data_json w).
Proof.
  destruct (query_partner_third_party_data cfg net set_order fuel w)
    as [r w'] eqn:Hrun. cbn [fst snd].
  apply (run_outcome cfg net set_order fuel w r w' Hrun).
Qed.

Lemma output_written_on_completion_witness :
  third_party_data_json
    (snd (query_partner_third_party_data small fails_on_second_chunk
            (fun l => l) 5 start))
  = third_party_data_json start.
Proof.
  apply (proj2 (output_written_on_completion small fails_on_second_chunk
                  (fun l => l) 5 start)).
  vm_compute. discriminate.
Defined.

(** ** The advertiser first-party script *)

Module AdvertiserFacts.

Import Advertiser.

Lemma page_query_ok (cursors : list string) (r : nat) :
  exists q, page_query (cursor_before cursors r) = Return q.
Proof.
  unfold page_query, after_clause. destruct r as [|r]; simpl.
  - now eexists.
  - destruct (negb (String.eqb (nth r cursors EmptyString) EmptyString));
      simpl; now eexists.
Qed.

Lemma path_nodes nodes hn c :
  path (page_data nodes hn c) ["advertiser"; "firstPartyData"; "nodes"]
  = Return (JList nodes).
Proof. reflexivity. Qed.

Lemma path_has_next nodes hn c :
  path (page_data nodes hn c)
    ["advertiser"; "firstPartyData"; "pageInfo"; "hasNextPage"] = Return hn.
Proof. reflexivity. Qed.

Lemma path_cursor nodes hn c :
  path (page_data nodes hn c)
    ["advertiser"; "firstPartyData"; "pageInfo"; "endCursor"] = Return c.
Proof. reflexivity. Qed.

Lemma get_page_eq (cfg : config) (net : Script.network) (cursor : json)
    (q : string) (s : state) :
  page_query cursor = Return q ->
  get_advertiser_first_party_data cfg net cursor s
  = match Script.read_response
            (net (length (requests s)) (page_request cfg q)) with
    | Return (true, r) =>
        (Return (Script.data r), after_requests [page_request cfg q] s)
    | Return (false, _) =>
        (Raise (Exception "Failed to fetch advertisers."),
         after_requests [page_request cfg q] s)
    | Raise e => (Raise e, after_requests [page_request cfg q] s)
    | OutOfFuel => (OutOfFuel, after_requests [page_request cfg q] s)
    | Unmodelled => (Unmodelled, after_requests [page_request cfg q] s)
    end.
Proof.
  intros Hq. unfold get_advertiser_first_party_data.
  unfold mbind at 1, lift at 1. rewrite Hq.
  unfold mbind at 1, execute_gql_request, mbind, post, lift.
  fold (page_request cfg q).
  destruct (Script.read_response _) as [[[|] r]| | |]; reflexivity.
Qed.

Lemma after_requests_app l1 l2 s :
  after_requests l2 (after_requests l1 s) = after_requests (l1 ++ l2) s.
Proof. unfold after_requests. simpl. now rewrite app_assoc. Qed.

Lemma after_requests_nil s : after_requests [] s = s.
Proof. destruct s. unfold after_requests. simpl. now rewrite app_nil_r. Qed.

Section Served.

Variable cfg : config.
Variable net : Script.network.
Variable base : nat.
Variable pages : list (list json).
Variable cursors : list string.
Variable total : nat.

Hypothesis served : serves net base pages cursors total.

(** The loop goes through the pages that are served and announced. *)
Lemma pages_loop_advance (k : nat) :
  forall (r fuel : nat) (acc : list json) (s : state),
    (r + k <= length pages)%nat -> (r + k <= total)%nat ->
    length (requests s) = (base + r)%nat ->
    pages_loop cfg net (k + fuel) (JBool (Nat.ltb r total))
      (cursor_before cursors r) acc s
    = pages_loop cfg net fuel (JBool (Nat.ltb (r + k) total))
        (cursor_before cursors (r + k))
        (acc ++ concat (firstn k (skipn r pages)))
        (after_requests (page_requests cfg cursors r k) s).
Proof.
  induction k as [|k IH]; intros r fuel acc s Hpages Htotal Hs.
  - rewrite Nat.add_0_r, after_requests_nil. simpl. now rewrite app_nil_r.
  - cbn [Nat.add pages_loop].
    destruct (Nat.ltb_spec r total) as [_|]; [|lia]. cbn [PyJson.truthy].
    destruct (page_query_ok cursors r) as [q Hq].
    unfold mbind at 1. rewrite (get_page_eq cfg net _ q s Hq), Hs.
    destruct (served r (page_request cfg q) ltac:(lia)) as [errors ->].
    cbn [Script.data]. unfold mbind, lift.
    rewrite path_nodes, path_has_next, path_cursor. cbn [PyJson.iter].
    change (JStr (nth r cursors EmptyString))
      with (cursor_before cursors (S r)).
    rewrite (IH (S r)); try lia;
      [|unfold after_requests; simpl; rewrite length_app; simpl; lia].
    rewrite after_requests_app.
    replace (r + S k)%nat with (S r + k)%nat by lia.
    f_equal.
    + rewrite <- app_assoc. f_equal.
      assert (Hskip : skipn r pages = nth r pages [] :: skipn (S r) pages).
      { clear - Hpages. revert r Hpages.
        induction pages as [|p l IHl]; intros r Hr; [simpl in Hr; lia|].
        destruct r as [|r]; [reflexivity|].
        simpl. apply IHl. simpl in Hr. lia. }
      rewrite Hskip. reflexivity.
    + unfold page_requests. cbn [seq map]. now rewrite Hq.
Qed.

End Served.

(** With end cursors that are not empty, the requests the loop sends are
    the requests in order. *)
Lemma page_requests_in_order (cfg : config) (cursors : list string) (n : nat) :
  (forall r, (S r < n)%nat -> nth r cursors EmptyString <> EmptyString) ->
  page_requests cfg cursors 0 n = requests_in_order cfg cursors n.
Proof.
  intros Hcursors. destruct n as [|k]; [reflexivity|].
  unfold page_requests, requests_in_order. cbn [seq map]. f_equal.
  rewrite <- seq_shift, map_map. apply map_ext_in. intros r Hr.
  apply in_seq in Hr. f_equal.
  unfold cursor_before, page_query, after_clause. cbn [PyJson.truthy].
  destruct (String.eqb_spec (nth r cursors EmptyString) EmptyString) as [He|_].
  - exfalso. apply (Hcursors r); [lia | exact He].
  - reflexivity.
Qed.

(** X23. Against a server that serves a non-empty sequence of pages, the
    last one alone announcing no next page and every other one coming with
    an end cursor that is not empty, the advertiser script returns with
    enough fuel: it sends one request per page, the first with no after
    clause and each other one with the clause that resumes after the end
    cursor of the page before, and it writes to the file the nodes of all
    pages in order. *)
Theorem advertiser_pages_in_order (cfg : config) (net : Script.network)
    (fuel : nat) (pages : list (list json)) (cursors : list string)
    (s : state)
    (Hsome : pages <> [])
    (Hserved : serves net (length (requests s)) pages cursors (length pages))
    (Hcursors : forall r, (S r < length pages)%nat ->
                  nth r cursors EmptyString <> EmptyString)
    (Hfuel : (length pages < fuel)%nat) :
  query_advertiser cfg net fuel s
  = (Return tt,
     {| requests :=
          requests s ++ requests_in_order cfg cursors (length pages);
        output_txt := Some (concat pages) |}).
Proof.
  rewrite <- (page_requests_in_order cfg cursors (length pages) Hcursors).
  unfold query_advertiser, mbind.
  assert (Hp : (0 < length pages)%nat) by (destruct pages; simpl; [congruence | lia]).
  replace fuel with (length pages + (fuel - length pages))%nat by lia.
  change (JBool true) with (JBool (Nat.ltb 0 1)).
  replace (Nat.ltb 0 1) with (Nat.ltb 0 (length pages))
    by (destruct (Nat.ltb_spec 0 (length pages)); [reflexivity | lia]).
  change JNull with (cursor_before cursors 0).
  rewrite (pages_loop_advance cfg net (length (requests s)) pages cursors
             (length pages) Hserved (length pages) 0); try lia.
  destruct (fuel - length pages)%nat as [|f] eqn:Hf; [lia|].
  cbn [Nat.add pages_loop]. rewrite Nat.ltb_irrefl. cbn [PyJson.truthy].
  unfold ret, write_output, after_requests. cbn [skipn app requests output_txt].
  now rewrite firstn_all.
Qed.

Lemma two_pages_served :
  serves two_pages 0 [[JInt 1; JInt 2]; [JInt 3]] ["c1"; "c2"] 2.
Proof.
  intros r req Hr. simpl in Hr.
  destruct r as [|[|r]]; [| |lia]; eexists; vm_compute; reflexivity.
Defined.

Lemma advertiser_pages_in_order_witness :
  query_advertiser shipped two_pages 5 start
  = (Return tt,
     {| requests :=
          requests start
          ++ [page_request shipped first_page_text;
              page_request shipped (next_page_text "c1")];
        output_txt := Some [JInt 1; JInt 2; JInt 3] |}).
Proof.
  apply (advertiser_pages_in_order shipped two_pages 5
           [[JInt 1; JInt 2]; [JInt 3]] ["c1"; "c2"] start).
  - discriminate.
  - exact two_pages_served.
  - intros [|r] Hr; [discriminate | simpl in Hr; lia].
  - simpl. lia.
Defined.

(** X24. The advertiser script does not retry: when, after the pages served
    so far (each announcing another one), an exchange is reported as not ok,
    the run ends at once with the error of the fetch, and nothing is
    written, the pages already fetched being lost. *)
Theorem advertiser_failure_writes_nothing (cfg : config)
    (net : Script.network) (fuel : nat) (pages : list (list json))
    (cursors : list string) (total : nat) (s : state)
    (Hmore : (length pages < total)%nat)
    (Hserved : serves net (length (requests s)) pages cursors total)
    (Hfails : forall req, exists resp,
       Script.read_response (net (length (requests s) + length pages)%nat req)
       = Return (false, resp))
    (Hfuel : (length pages < fuel)%nat) :
  query_advertiser cfg net fuel s
  = (Raise (Exception "Failed to fetch advertisers."),
     after_requests (page_requests cfg cursors 0 (S (length pages))) s).
Proof.
  unfold query_advertiser. unfold mbind at 1.
  replace fuel with (length pages + (fuel - length pages))%nat by lia.
  change (JBool true) with (JBool (Nat.ltb 0 1)).
  replace (Nat.ltb 0 1) with (Nat.ltb 0 total)
    by (destruct (Nat.ltb_spec 0 total); [reflexivity | lia]).
  change JNull with (cursor_before cursors 0).
  rewrite (pages_loop_advance cfg net (length (requests s)) pages cursors
             total Hserved (length pages) 0); try lia.
  destruct (fuel - length pages)%nat as [|f] eqn:Hf; [lia|].
  cbn [Nat.add pages_loop].
  destruct (Nat.ltb_spec (length pages) total) as [_|]; [|lia].
  cbn [PyJson.truthy].
  destruct (page_query_ok cursors (length pages)) as [q Hq].
  unfold mbind at 1. rewrite (get_page_eq cfg net _ q _ Hq).
  unfold after_requests at 1 2. cbn [requests].
  rewrite length_app. unfold page_requests at 1. rewrite length_map, length_seq.
  destruct (Hfails (page_request cfg q)) as [resp ->].
  rewrite after_requests_app. f_equal. f_equal.
  unfold page_requests. rewrite seq_S, map_app. cbn [map Nat.add].
  now rewrite Hq.
Qed.

Lemma fails_after_first_served :
  serves fails_after_first 0 [[JInt 1; JInt 2]] ["c1"] 2.
Proof.
  intros r req Hr. simpl in Hr.
  destruct r as [|r]; [|lia]. eexists. vm_compute. reflexivity.
Defined.

Lemma advertiser_failure_writes_nothing_witness :
  query_advertiser shipped fails_after_first 5 start
  = (Raise (Exception "Failed to fetch advertisers."),
     after_requests (page_requests shipped ["c1"] 0 2) start).
Proof.
  apply (advertiser_failure_writes_nothing shipped fails_after_first 5
           [[JInt 1; JInt 2]] ["c1"] 2 start).
  - simpl. lia.
  - exact fails_after_first_served.
  - intros req. eexists. vm_compute. reflexivity.
  - simpl. lia.
Defined.

(** X25. A page that announces another one without giving an end cursor
    sends the script back to the first page: against a server that always
    answers so, every request is the first request again, and the loop does
    not come to an end, whatever fuel it is given. *)
Theorem advertiser_null_cursor_restarts (cfg : config) (net : Script.network)
    (fuel : nat) (nodes : list json) (s : state) (q : string)
    (Hq : page_query JNull = Return q)
    (Hnet : forall i req, exists errors,
       Script.read_response (net i req)
       = Return (true, {| Script.data := page_data nodes (JBool true) JNull;
                          Script.errors := errors |})) :
  query_advertiser cfg net fuel s
  = (OutOfFuel, after_requests (repeat (page_request cfg q) fuel) s).
Proof.
  unfold query_advertiser. unfold mbind at 1.
  assert (H : forall acc s0,
            pages_loop cfg net fuel (JBool true) JNull acc s0
            = (OutOfFuel, after_requests (repeat (page_request cfg q) fuel) s0)).
  { induction fuel as [|f IH]; intros acc s0.
    - cbn [pages_loop repeat]. now rewrite after_requests_nil.
    - cbn [pages_loop PyJson.truthy]. unfold mbind at 1.
      rewrite (get_page_eq cfg net _ q s0 Hq).
      destruct (Hnet (length (requests s0)) (page_request cfg q))
        as [errors ->].
      cbn [Script.data]. unfold mbind, lift.
      rewrite path_nodes, path_has_next, path_cursor. cbn [PyJson.iter].
      rewrite IH, after_requests_app. reflexivity. }
  now rewrite H.
Qed.

Lemma advertiser_null_cursor_restarts_witness :
  exists q,
    page_query JNull = Return q
    /\ query_advertiser shipped no_cursor_forever 7 start
       = (OutOfFuel, after_requests (repeat (page_request shipped q) 7) start).
Proof.
  eexists. split; [reflexivity|].
  apply (advertiser_null_cursor_restarts shipped no_cursor_forever 7
           [JInt 1] start).
  - reflexivity.
  - intros i req. eexists. vm_compute. reflexivity.
Defined.

(** X26. The advertiser script reads the page with no default: when a part
    of the path to the page info is missing from an ok answer, whose nodes
    were read, the run ends with the error of that lookup ([KeyError] for a
    missing member) after its single request, and nothing is written. *)
Theorem advertiser_missing_page_info (cfg : config) (net : Script.network)
    (fuel : nat) (s : state) (q : string) (resp : Script.GqlResponse)
    (nodes : json) (items : list json) (e : exn)
    (Hq : page_query JNull = Return q)
    (Hok : Script.read_response
             (net (length (requests s)) (page_request cfg q))
           = Return (true, resp))
    (Hnodes : path (Script.data resp)
                ["advertiser"; "firstPartyData"; "nodes"] = Return nodes)
    (Hitems : PyJson.iter nodes = Return items)
    (Hinfo : path (Script.data resp)
               ["advertiser"; "firstPartyData"; "pageInfo"; "hasNextPage"]
             = Raise e) :
  query_advertiser cfg net (S fuel) s
  = (Raise e, after_requests [page_request cfg q] s).
Proof.
  unfold query_advertiser. unfold mbind at 1.
  cbn [pages_loop PyJson.truthy]. unfold mbind at 1.
  rewrite (get_page_eq cfg net _ q s Hq), Hok.
  unfold mbind, lift. now rewrite Hnodes, Hitems, Hinfo.
Qed.

Lemma advertiser_missing_page_info_witness :
  exists q,
    page_query JNull = Return q
    /\ query_advertiser shipped no_page_info 5 start
       = (Raise (KeyError "pageInfo"),
          after_requests [page_request shipped q] start).
Proof.
  eexists. split; [reflexivity|].
  apply (advertiser_missing_page_info shipped no_page_info 4 start _
           {| Script.data :=
                JDict [("advertiser",
                        JDict [("firstPartyData",
                                JDict [("nodes", JList [JInt 1])])])];
              Script.errors := JList [] |}
           (JList [JInt 1]) [JInt 1] (KeyError "pageInfo")).
  - reflexivity.
  - vm_compute. reflexivity.
  - reflexivity.
  - reflexivity.
  - reflexivity.
Defined.

End AdvertiserFacts.

(** ** The partner first-party script *)

Module PartnerFacts.

Import Advertiser Partner.

Lemma annotate_nodes_dicts (id name : json) (ds : list (dict json)) :
  forall acc,
    annotate_nodes id name (map JDict ds) acc
    = Return (acc ++ map (fun d => JDict (Dict.set
                                            (Dict.set d "advertiserId" id)
                                            "advertiserName" name)) ds).
Proof.
  induction ds as [|d ds IH]; intros acc; simpl.
  - now rewrite app_nil_r.
  - rewrite IH, <- app_assoc. reflexivity.
Qed.

Lemma get_first_party_eq (cfg : config) (net : Script.network)
    (id cursor : json) (s : state) :
  get_advertiser_first_party_data cfg net id cursor s
  = match Script.read_response
            (net (length (requests s)) (first_party_request cfg id cursor))
    with
    | Return (true, r) =>
        (Return (Script.data r),
         after_requests [first_party_request cfg id cursor] s)
    | Return (false, _) =>
        (text <~ format_value id ;;
         Raise (Exception ("Failed to fetch first-party data for advertiser "
                           ++ text ++ ".")),
         after_requests [first_party_request cfg id cursor] s)
    | Raise e => (Raise e, after_requests [first_party_request cfg id cursor] s)
    | OutOfFuel =>
        (OutOfFuel, after_requests [first_party_request cfg id cursor] s)
    | Unmodelled =>
        (Unmodelled, after_requests [first_party_request cfg id cursor] s)
    end.
Proof.
  unfold get_advertiser_first_party_data, execute_gql_request.
  unfold mbind, post, lift. fold (first_party_request cfg id cursor).
  destruct (Script.read_response _) as [[[|] r]| | |]; try reflexivity.
  cbn [negb]. unfold raise, lift.
  destruct (format_value id); reflexivity.
Qed.

Lemma get_advertisers_eq (cfg : config) (net : Script.network)
    (cursor : json) (s : state) :
  get_partner_advertisers cfg net cursor s
  = match Script.read_response
            (net (length (requests s)) (advertisers_request cfg cursor))
    with
    | Return (true, r) =>
        (Return (Script.data r),
         after_requests [advertisers_request cfg cursor] s)
    | Return (false, _) =>
        (Raise (Exception "Failed to fetch advertisers."),
         after_requests [advertisers_request cfg cursor] s)
    | Raise e => (Raise e, after_requests [advertisers_request cfg cursor] s)
    | OutOfFuel => (OutOfFuel, after_requests [advertisers_request cfg cursor] s)
    | Unmodelled =>
        (Unmodelled, after_requests [advertisers_request cfg cursor] s)
    end.
Proof.
  unfold get_partner_advertisers, execute_gql_request.
  unfold mbind, post, lift. fold (advertisers_request cfg cursor).
  destruct (Script.read_response _) as [[[|] r]| | |]; reflexivity.
Qed.

(** The inner loop on an advertiser whose data is a single page. *)
Lemma first_party_single_page (cfg : config) (net : Script.network)
    (fuel : nat) (advertiser : dict json) (page : list (dict json))
    (cursor errors : json) (acc : list json) (s : state) :
  Script.read_response
    (net (length (requests s))
       (first_party_request cfg (id_of advertiser) JNull))
  = Return (true,
            {| Script.data := page_data (map JDict page) (JBool false) cursor;
               Script.errors := errors |}) ->
  first_party_loop cfg net (S (S fuel)) (id_of advertiser)
    (name_of advertiser) (JBool true) JNull acc s
  = (Return (acc ++ map (annotated advertiser) page),
     after_requests [first_party_request cfg (id_of advertiser) JNull] s).
Proof.
  intros Hpage. cbn [first_party_loop PyJson.truthy]. unfold mbind at 1.
  rewrite get_first_party_eq, Hpage. cbn [Script.data].
  unfold mbind, lift.
  rewrite AdvertiserFacts.path_nodes, AdvertiserFacts.path_has_next,
    AdvertiserFacts.path_cursor.
  cbn [PyJson.iter]. rewrite annotate_nodes_dicts. reflexivity.
Qed.

Lemma serves_each_tail (net : Script.network) (base : nat)
    (page : list (dict json)) (pages : list (list (dict json))) :
  serves_each net base (page :: pages) -> serves_each net (S base) pages.
Proof.
  intros H i req Hi. destruct (H (S i) req) as (c & e & Hr);
    [simpl; lia|].
  exists c, e. now rewrite Nat.add_succ_r in Hr.
Qed.

Lemma advertisers_loop_served (cfg : config) (net : Script.network)
    (fuel : nat) :
  forall (advertisers : list (dict json)) (pages : list (list (dict json)))
         (acc : list json) (s : state),
    length pages = length advertisers ->
    (forall a, In a advertisers -> Dict.get a "id" <> None) ->
    serves_each net (length (requests s)) pages ->
    advertisers_loop cfg net (S (S fuel)) (map JDict advertisers) acc s
    = (Return (acc ++ records advertisers pages),
       after_requests
         (map (fun a => first_party_request cfg (id_of a) JNull) advertisers)
         s).
Proof.
  induction advertisers as [|a advertisers IH]; intros pages acc s Hlen Hids Hs.
  - simpl. now rewrite app_nil_r, AdvertiserFacts.after_requests_nil.
  - destruct pages as [|page pages]; [discriminate|].
    cbn [map advertisers_loop]. unfold mbind at 1, lift at 1.
    cbn [PyJson.getitem].
    destruct (Dict.get a "id") as [id|] eqn:Hid;
      [|exfalso; apply (Hids a); [now left | exact Hid]].
    unfold mbind at 1, lift at 1. cbn [PyJson.get].
    unfold mbind at 1.
    assert (Hida : id_of a = id) by (unfold id_of; now rewrite Hid).
    fold (name_of a). rewrite <- Hida.
    destruct (Hs O (first_party_request cfg (id_of a) JNull))
      as (c & e & Hpage); [simpl; lia|].
    rewrite Nat.add_0_r in Hpage. cbn [nth] in Hpage.
    rewrite (first_party_single_page cfg net fuel a page c e acc s Hpage).
    rewrite (IH pages); [| simpl in Hlen; lia
                         | intros b Hb; apply Hids; now right |].
    + rewrite AdvertiserFacts.after_requests_app, <- app_assoc.
      reflexivity.
    + unfold after_requests. cbn [requests]. rewrite length_app.
      cbn [length]. rewrite Nat.add_1_r. now apply (serves_each_tail _ _ page).
Qed.

Lemma advertisers_path_nodes nodes hn c :
  path (advertisers_data nodes hn c) ["partner"; "advertisers"; "nodes"]
  = Return (JList nodes).
Proof. reflexivity. Qed.

Lemma advertisers_path_has_next nodes hn c :
  path (advertisers_data nodes hn c)
    ["partner"; "advertisers"; "pageInfo"; "hasNextPage"] = Return hn.
Proof. reflexivity. Qed.

Lemma advertisers_path_cursor nodes hn c :
  path (advertisers_data nodes hn c)
    ["partner"; "advertisers"; "pageInfo"; "endCursor"] = Return c.
Proof. reflexivity. Qed.

(** X27. For a partner whose advertisers come in a single page, each with an
    id and with a single page of first-party records, the script returns: it
    sends the advertisers request, then one request per advertiser, in
    order, for that advertiser's id; and it writes the records advertiser by
    advertiser, in order, each annotated with the id of its advertiser and
    with its name, or with 'Unknown Advertiser' where the advertiser has no
    name. *)
Theorem partner_records_by_advertiser (cfg : config) (net : Script.network)
    (fuel : nat) (advertisers : list (dict json))
    (pages : list (list (dict json))) (cursor errors : json) (s : state)
    (Hlist : Script.read_response
               (net (length (requests s)) (advertisers_request cfg JNull))
             = Return (true,
                       {| Script.data :=
                            advertisers_data (map JDict advertisers)
                              (JBool false) cursor;
                          Script.errors := errors |}))
    (Hids : forall a, In a advertisers -> Dict.get a "id" <> None)
    (Hpages : length pages = length advertisers)
    (Hserved : serves_each net (S (length (requests s))) pages) :
  query_partner_first_party_data cfg net (S (S fuel)) s
  = (Return tt,
     {| requests :=
          requests s
          ++ advertisers_request cfg JNull
             :: map (fun a => first_party_request cfg (id_of a) JNull)
                  advertisers;
        output_txt := Some (records advertisers pages) |}).
Proof.
  unfold query_partner_first_party_data. unfold mbind at 1.
  cbn [partner_loop PyJson.truthy]. unfold mbind at 1.
  rewrite get_advertisers_eq, Hlist. cbn [Script.data].
  unfold mbind at 1, lift at 1. rewrite advertisers_path_nodes.
  unfold mbind at 1, lift at 1. cbn [PyJson.iter].
  unfold mbind at 1.
  rewrite (advertisers_loop_served cfg net fuel advertisers pages);
    try assumption.
  2:{ unfold after_requests. cbn [requests]. rewrite length_app.
      cbn [length]. now rewrite Nat.add_1_r. }
  unfold mbind, lift.
  rewrite advertisers_path_has_next, advertisers_path_cursor.
  cbn [PyJson.truthy]. unfold ret, write_output, after_requests.
  cbn [requests output_txt app]. now rewrite <- app_assoc.
Qed.

Lemma two_advertisers_served :
  serves_each two_advertisers 1
    [ [ [("id", JStr "s1")]; [("id", JStr "s2")] ];
      [ [("id", JStr "s3"); ("advertiserId", JStr "x")] ] ].
Proof.
  intros i req Hi. simpl in Hi.
  destruct i as [|[|i]]; [| |lia]; eexists; eexists; vm_compute; reflexivity.
Defined.

Lemma partner_records_by_advertiser_witness :
  query_partner_first_party_data shipped two_advertisers 5 start
  = (Return tt,
     {| requests :=
          requests start
          ++ advertisers_request shipped JNull
             :: map (fun a => first_party_request shipped (id_of a) JNull)
                  [acme; nameless];
        output_txt :=
          Some (records [acme; nameless]
                  [ [ [("id", JStr "s1")]; [("id", JStr "s2")] ];
                    [ [("id", JStr "s3"); ("advertiserId", JStr "x")] ] ]) |}).
Proof.
  apply (partner_records_by_advertiser shipped two_advertisers 3
           [acme; nameless]
           [ [ [("id", JStr "s1")]; [("id", JStr "s2")] ];
             [ [("id", JStr "s3"); ("advertiserId", JStr "x")] ] ]
           JNull (JList []) start).
  - vm_compute. reflexivity.
  - intros a [<-|[<-|[]]]; discriminate.
  - reflexivity.
  - exact two_advertisers_served.
Defined.

(** X28. Annotating a record sets its 'advertiserId' and 'advertiserName'
    members, replacing members of those names the record came with, and
    leaves every other member as it was; a node that is not a mapping
    cannot be annotated and raises [TypeError]. *)
Theorem annotate_sets_advertiser (id name : json) (d : dict json) :
  (exists d',
     annotate id name (JDict d) = Return (JDict d')
     /\ Dict.get d' "advertiserId" = Some id
     /\ Dict.get d' "advertiserName" = Some name
     /\ (forall k, k <> "advertiserId" -> k <> "advertiserName" ->
           Dict.get d' k = Dict.get d k))
  /\ (forall node, is_mapping node = false ->
        annotate id name node = Raise TypeError).
Proof.
  splits.
  - eexists. split; [reflexivity|]. splits.
    + rewrite get_set_other by discriminate. apply get_set_same.
    + apply get_set_same.
    + intros k H1 H2. rewrite !get_set_other by congruence. reflexivity.
  - intros node Hnode. now destruct node.
Qed.

Lemma advertisers_loop_app (cfg : config) (net : Script.network) (fuel : nat)
    (l1 l2 : list json) : forall acc s,
  advertisers_loop cfg net fuel (l1 ++ l2) acc s
  = let (r, s') := advertisers_loop cfg net fuel l1 acc s in
    match r with
    | Return acc' => advertisers_loop cfg net fuel l2 acc' s'
    | Raise e => (Raise e, s')
    | OutOfFuel => (OutOfFuel, s')
    | Unmodelled => (Unmodelled, s')
    end.
Proof.
  induction l1 as [|a l1 IH]; intros acc s; [reflexivity|].
  cbn [app advertisers_loop]. unfold mbind, lift.
  destruct (PyJson.getitem a "id") as [id| | |]; try reflexivity.
  destruct (PyJson.get a "name" (JStr "Unknown Advertiser"))
    as [name| | |]; try reflexivity.
  destruct (first_party_loop cfg net fuel id name (JBool true) JNull acc s)
    as [[acc'| | |] s']; try reflexivity.
  apply IH.
Qed.

(** X29. The partner script does not retry either: when the exchange for
    the data of an advertiser is reported as not ok, the advertisers before
    it having been served, the run ends at once with an error that names
    that advertiser's id, and nothing is written. *)
Theorem partner_failure_names_advertiser (cfg : config)
    (net : Script.network) (fuel : nat) (before : list (dict json))
    (failing : dict json) (rest : list (dict json)) (text : string)
    (pages : list (list (dict json))) (cursor errors : json) (s : state)
    (Hlist : Script.read_response
               (net (length (requests s)) (advertisers_request cfg JNull))
             = Return (true,
                       {| Script.data :=
                            advertisers_data
                              (map JDict (before ++ failing :: rest))
                              (JBool false) cursor;
                          Script.errors := errors |}))
    (Hids : forall a, In a before -> Dict.get a "id" <> None)
    (Hpages : length pages = length before)
    (Hserved : serves_each net (S (length (requests s))) pages)
    (Hid : Dict.get failing "id" = Some (JStr text))
    (Hfails : forall req, exists resp,
       Script.read_response
         (net (S (length (requests s)) + length before)%nat req)
       = Return (false, resp)) :
  query_partner_first_party_data cfg net (S (S fuel)) s
  = (Raise (Exception ("Failed to fetch first-party data for advertiser "
                       ++ text ++ ".")),
     after_requests
       (advertisers_request cfg JNull
        :: map (fun a => first_party_request cfg (id_of a) JNull) before
        ++ [first_party_request cfg (JStr text) JNull]) s).
Proof.
  unfold query_partner_first_party_data. unfold mbind at 1.
  cbn [partner_loop PyJson.truthy]. unfold mbind at 1.
  rewrite get_advertisers_eq, Hlist. cbn [Script.data].
  unfold mbind at 1, lift at 1. rewrite advertisers_path_nodes.
  unfold mbind at 1, lift at 1. cbn [PyJson.iter].
  unfold mbind at 1. rewrite map_app, advertisers_loop_app.
  rewrite (advertisers_loop_served cfg net fuel before pages);
    try assumption.
  2:{ unfold after_requests. cbn [requests]. rewrite length_app.
      cbn [length]. now rewrite Nat.add_1_r. }
  cbn [map advertisers_loop]. unfold mbind at 1, lift at 1.
  cbn [PyJson.getitem]. rewrite Hid.
  unfold mbind at 1, lift at 1. cbn [PyJson.get].
  unfold mbind at 1. cbn [first_party_loop PyJson.truthy].
  unfold mbind at 1. rewrite get_first_party_eq.
  rewrite !AdvertiserFacts.after_requests_app.
  unfold after_requests at 1 2 3. cbn [requests].
  rewrite !length_app, length_map. cbn [length app].
  replace (length (requests s) + (1 + length before))%nat
    with (S (length (requests s)) + length before)%nat by lia.
  destruct (Hfails (first_party_request cfg (JStr text) JNull)) as [resp ->].
  cbn [format_value bind]. reflexivity.
Qed.

Lemma partner_failure_names_advertiser_witness :
  query_partner_first_party_data shipped fails_on_first_advertiser 5 start
  = (Raise (Exception "Failed to fetch first-party data for advertiser a1."),
     after_requests
       [advertisers_request shipped JNull;
        first_party_request shipped (JStr "a1") JNull] start).
Proof.
  apply (partner_failure_names_advertiser shipped fails_on_first_advertiser 3
           [] acme [] "a1" [] JNull (JList []) start).
  - vm_compute. reflexivity.
  - intros a [].
  - reflexivity.
  - intros i req Hi. simpl in Hi. lia.
  - reflexivity.
  - intros req. eexists. vm_compute. reflexivity.
Defined.

End PartnerFacts.
